(** * Hybrid product-recommendation search

    A shallow embedding of the two recommendation services of the search
    module:

    - [modules/search/llm_service.py]   ([LLMRecommendationService], the
      single-step flow), and
    - [modules/search/shopping_research_service.py]
      ([ShoppingResearchService], the two-step flow),

    together with the properties their specification states about them.

    Conventions of the embedding.
    - Python [float] scores are exact rationals ([Q]); [0.7], [0.3], [0.60]
      and the like are the decimal literals of the source read in [Q].
      Rounding of binary floating point is not modelled.
    - Python [str] is [string] holding the UTF-8 bytes of the text; substring
      tests on UTF-8 bytes agree with substring tests on code points, and so
      does the removal of white-space characters at the two ends.
    - A call that may raise returns [result]; [try/except Exception] is a
      match on it.
    - The relational store is a pair of tables (lists of rows, in the order
      the store yields them); the similarity and distance functions of the
      database extensions, the two provider clients, [json.loads] and the
      prompt templates of [prompts.py] are fields of an environment record,
      so every statement holds for all their behaviours. *)

From Stdlib Require Import ZArith QArith Qround Qminmax Lqa List String Ascii Lia.
From Stdlib Require Import Permutation Sorted Relations.
From stdpp Require Import gmap strings pretty.

Local Open Scope Z_scope.
Local Open Scope string_scope.

(** ** Python runtime *)

Module Py.

Inductive exn : Type :=
| ValueError
| AttributeError
| TypeError
| JSONDecodeError
| RecursionError.

Inductive result (A : Type) : Type :=
| Ok (a : A)
| Raise (e : exn).
Arguments Ok {A} a.
Arguments Raise {A} e.

Definition bind {A B : Type} (r : result A) (k : A -> result B) : result B :=
  match r with
  | Ok a => k a
  | Raise e => Raise e
  end.

#[global] Instance result_ret : MRet result := fun A a => Ok a.
#[global] Instance result_bind : MBind result := fun A B k r => bind r k.


(** [sub in s] on [str]. *)
Fixpoint contains (sub s : string) : bool :=
  if String.prefix sub s then true
  else match s with
       | EmptyString => false
       | String _ s' => contains sub s'
       end.

(** [str.upper()]: the ASCII letters are mapped to upper case; every other
    byte is kept, which is what [upper] does on Hangul text. *)
Definition upper_ascii (c : ascii) : ascii :=
  let n := nat_of_ascii c in
  if (Nat.leb 97 n && Nat.leb n 122)%bool then ascii_of_nat (n - 32) else c.

Fixpoint upper (s : string) : string :=
  match s with
  | EmptyString => EmptyString
  | String c s' => String (upper_ascii c) (upper s')
  end.

(** [str.strip()]: the white space of Unicode removed at both ends.  The
    characters are those [str.isspace()] accepts, each in its UTF-8 bytes:
    U+0009..U+000D, U+001C..U+001F, U+0020, U+0085, U+00A0, U+1680,
    U+2000..U+200A, U+2028, U+2029, U+202F, U+205F and U+3000. *)
Definition code_units (bytes : list nat) : string :=
  fold_right (fun n s => String (ascii_of_nat n) s) EmptyString bytes.

Definition WHITESPACE : list string :=
  map code_units
      [ [9]; [10]; [11]; [12]; [13]; [28]; [29]; [30]; [31]; [32];
        [194; 133]; [194; 160];
        [225; 154; 128];
        [226; 128; 128]; [226; 128; 129]; [226; 128; 130]; [226; 128; 131];
        [226; 128; 132]; [226; 128; 133]; [226; 128; 134]; [226; 128; 135];
        [226; 128; 136]; [226; 128; 137]; [226; 128; 138];
        [226; 128; 168]; [226; 128; 169]; [226; 128; 175];
        [226; 129; 159];
        [227; 128; 128] ]%nat.

Fixpoint skip (n : nat) (s : string) : string :=
  match n, s with
  | Datatypes.S n', String _ s' => skip n' s'
  | _, _ => s
  end.

(** The text behind its first character, when that is one of [spaces]. *)
Definition drop_space (spaces : list string) (s : string) : option string :=
  match List.find (fun w => String.prefix w s) spaces with
  | Some w => Some (skip (String.length w) s)
  | None => None
  end.

(** [fuel] bounds the number of characters removed; the length of the text
    is enough. *)
Fixpoint lstrip_with (spaces : list string) (fuel : nat) (s : string) : string :=
  match fuel with
  | O => s
  | Datatypes.S fuel' =>
      match drop_space spaces s with
      | Some s' => lstrip_with spaces fuel' s'
      | None => s
      end
  end.

Definition lstrip (s : string) : string := lstrip_with WHITESPACE (String.length s) s.

(** The same from the end: on the reversed bytes, with the reversed bytes
    of each white-space character. *)
Definition rstrip (s : string) : string :=
  String.rev (lstrip_with (map String.rev WHITESPACE) (String.length s) (String.rev s)).

Definition strip (s : string) : string := rstrip (lstrip s).

(** [sep.join(parts)]. *)
Fixpoint join (sep : string) (parts : list string) : string :=
  match parts with
  | [] => ""
  | [p] => p
  | p :: ps => p ++ sep ++ join sep ps
  end.

(** Truth value of a [str] and of an optional [str] ([None] is falsy). *)
Definition truthy_str (s : string) : bool :=
  match s with EmptyString => false | _ => true end.

Definition truthy_opt_str (o : option string) : bool :=
  match o with Some s => truthy_str s | None => false end.

(** [a or b] on an optional [str] with a [str] default. *)
Definition or_str (o : option string) (d : string) : string :=
  match o with
  | Some s => if truthy_str s then s else d
  | None => d
  end.

(** [any(k in s for k in ks)]. *)
Definition any_in (ks : list string) (s : string) : bool :=
  existsb (fun k => contains k s) ks.

(** Comparisons of rationals as booleans. *)
Definition Qleb (a b : Q) : bool := Qle_bool a b.
Definition Qltb (a b : Q) : bool := negb (Qle_bool b a).

(** [max(a, b)] and [min(a, b)] of the builtins: the first argument is
    kept unless the second is strictly larger (resp. smaller). *)
Definition max (a b : Q) : Q := if Qltb a b then b else a.
Definition min (a b : Q) : Q := if Qltb b a then b else a.

(** [sorted] and [list.sort] are stable.  [before x y] says that [x] may
    stay in front of [y]; an element is inserted in front of the first
    element it may stay in front of, so equal keys keep their order. *)
Section Sort.
Context {A : Type} (before : A -> A -> bool).

Fixpoint insert_sorted (x : A) (l : list A) : list A :=
  match l with
  | [] => [x]
  | y :: l' => if before x y then x :: l else y :: insert_sorted x l'
  end.

Fixpoint stable_sort (l : list A) : list A :=
  match l with
  | [] => []
  | x :: l' => insert_sorted x (stable_sort l')
  end.
End Sort.

(** An insertion-ordered [dict] with [str] keys: [d[k] = v] replaces the
    value in place when [k] is present and appends otherwise. *)
Section Dict.
Context {V : Type}.

Fixpoint dict_get (k : string) (d : list (string * V)) : option V :=
  match d with
  | [] => None
  | (k', v) :: d' => if String.eqb k k' then Some v else dict_get k d'
  end.

Fixpoint dict_set (k : string) (v : V) (d : list (string * V)) : list (string * V) :=
  match d with
  | [] => [(k, v)]
  | (k', v') :: d' =>
      if String.eqb k k' then (k', v) :: d' else (k', v') :: dict_set k v d'
  end.

Definition dict_values (d : list (string * V)) : list V := map snd d.
End Dict.

End Py.

Import Py.

(** ** The relational store and the external capabilities *)

(** A row of [CategoryModel]. *)
Record Category : Type := {
  cat_id : Z;
  cat_name : string;
  cat_parent_id : option Z;
  cat_deleted : bool          (* [deleted_at] is not null *)
}.

Definition Embedding : Type := list Q.

(** A row of [ProductModel]. *)
Record Product : Type := {
  pk : Z;                                   (* [id], the primary key *)
  danawa_product_id : string;
  name : string;
  brand : string;
  lowest_price : Z;
  category_id : option Z;
  spec_summary : list string;              (* [detail_spec.get('spec_summary', [])] *)
  spec : list (string * string);           (* [detail_spec.get('spec', {})] *)
  detail_spec_vector : option Embedding;
  product_status : option string;
  review_count : Z;
  review_rating : option Q;
  deleted : bool                           (* [deleted_at] is not null *)
}.

(** A row of [MallInformationModel], as far as the services read it. *)
Record MallInfo : Type := {
  representative_image_url : string;
  product_page_url : string
}.

(** What a provider call hands back: the repository's [GeminiClient]
    returns the text itself (a [str]); [llm_service.py] reads a [.text]
    attribute of the reply. *)
Inductive Reply : Type :=
| ReplyStr (s : string)
| ReplyObj (text : string).

(** The store, the provider clients and the library functions the services
    call.  [prompts.py] is not part of the sources at hand: the assembly of
    each prompt (template and formatting of its fields) is a field here, and
    so is [json.loads] on the [{...}] block of a reply, read at the types
    the services use the decoded value at. *)

(** [product_code] of a decoded row is a JSON string or a JSON number. *)
Inductive Code : Type :=
| CodeStr (s : string)
| CodeInt (n : Z).

(** [str(row.get('product_code'))] *)
Definition str_code (c : option Code) : string :=
  match c with
  | Some (CodeStr s) => s
  | Some (CodeInt n) => pretty n
  | None => "None"
  end.

Module Store.

Record t : Type := {
  categories : list Category;
  products : list Product;
  (** [_get_mall_map]: the most recent live mall row of a product. *)
  latest_mall_info : Z -> option MallInfo;
  (** [MallInformationModel.objects.filter(product=p, deleted_at__isnull=True).first()] *)
  first_mall_info : Z -> option MallInfo;
  (** [TrigramSimilarity(column, text)] *)
  trigram_similarity : string -> string -> Q;
  (** [L2Distance] and [CosineDistance] of pgvector *)
  l2_distance : Embedding -> Embedding -> Q;
  cosine_distance : Embedding -> Embedding -> Q
}.

Section Queries.
Context (S : t).

(** [.first()] *)
Definition first {A : Type} (rows : list A) : option A := head rows.

(** [category_id__in=ids] *)
Definition category_in (ids : list Z) (p : Product) : bool :=
  match category_id p with
  | Some c => bool_decide (c ∈ ids)
  | None => false
  end.

(** [.exclude(product_status__in=['단종', '판매중지', '품절'])]: rows
    without a status are kept. *)
Definition EXCLUDED_STATUS : list string := ["단종"; "판매중지"; "품절"].

Definition status_excluded (p : Product) : bool :=
  match product_status p with
  | Some st => bool_decide (st ∈ EXCLUDED_STATUS)
  | None => false
  end.

(** [CategoryModel.objects.filter(parent_id=cid, deleted_at__isnull=True)] *)
Definition children (cid : Z) : list Category :=
  List.filter (fun c => bool_decide (cat_parent_id c = Some cid) && negb (cat_deleted c))
         (categories S).

(** [annotate(similarity=TrigramSimilarity('name', text))
      .filter(similarity__gt=threshold).order_by('-similarity').first()]
    over all rows of the category table. *)
Definition best_category_match (text : string) (threshold : Q) : option Category :=
  first
    (stable_sort
       (fun a b => Qleb (trigram_similarity S (cat_name b) text)
                        (trigram_similarity S (cat_name a) text))
       (List.filter (fun c => Qltb threshold (trigram_similarity S (cat_name c) text))
               (categories S))).
End Queries.

End Store.

(** The descendant collection is written twice in the sources, with the
    same body, once in each service:

<<
    ids = [category_id]
    children = CategoryModel.objects.filter(parent_id=category_id, deleted_at__isnull=True)
    for child in children:
        ids.extend(self._get_descendant_category_ids(child.id))
    return ids
>>

    [depth] bounds the nesting of the recursive calls; [None] is the
    interpreter giving up ([RecursionError]). *)
Definition extend (recur : Z -> option (list Z)) (acc : option (list Z)) (child : Category)
  : option (list Z) :=
  ids ← acc;
  sub ← recur (cat_id child);
  Some (ids ++ sub)%list.

Fixpoint _get_descendant_category_ids (S : Store.t) (depth : nat) (category_id : Z)
  : option (list Z) :=
  match depth with
  | O => None
  | Datatypes.S depth' =>
      fold_left (extend (_get_descendant_category_ids S depth'))
                (Store.children S category_id) (Some [category_id])
  end.

Record Clients : Type := {
  (** [openai_client.create_embedding] *)
  create_embedding : string -> result Embedding;
  (** [gemini_client.generate_content] *)
  generate_content : string -> result Reply;
  (** nesting depth at which the interpreter raises [RecursionError] *)
  recursion_limit : nat
}.

(** A scored candidate of a retrieval path (the [dict] with the keys
    ['product'], ['mall_info'] and ['score']). *)
Record Item : Type := {
  product : Product;
  mall_info : option MallInfo;
  score : Q
}.

Definition set_score (i : Item) (s : Q) : Item :=
  {| product := product i; mall_info := mall_info i; score := s |}.

Definition pid (i : Item) : string := danawa_product_id (product i).

(** ** The single-step flow: [llm_service.py] *)

Module LLMRecommendationService.

Definition TOP_K : nat := 5.
Definition MIN_CAT_SIMILARITY : Q := 0.3.

(** The JSON object of the intent reply; a field is [None] when its key is
    absent. *)
Record Intent : Type := {
  product_category : option string;
  search_query : option string;
  keywords : option (list string);
  user_needs : option string;
  analysis_message : option string
}.

(** A row of ['results'] in the re-rank reply. *)
Record Row : Type := {
  row_product_code : option Code;
  row_recommendation_reason : option string
}.

Record Env : Type := {
  store : Store.t;
  clients : Clients;
  (** [INTENT_EXTRACTION_PROMPT.format(category_list=.., user_query=..)] *)
  INTENT_EXTRACTION_PROMPT : string -> string -> string;
  (** [COMBINED_RECOMMENDATION_PROMPT.format(..)] on the query, the needs,
      the category and the candidates whose lines it lists *)
  COMBINED_RECOMMENDATION_PROMPT : string -> string -> string -> list Product -> string;
  (** the code fences removed, [re.search(r'\{[\s\S]*\}', text)] and
      [json.loads] of the match: [None] when there is no match *)
  loads_intent : string -> option (result Intent);
  (** the same for the re-rank reply, followed by [data.get('results', [])] *)
  loads_results : string -> option (result (list Row))
}.

(** An entry of ['recommended_products']. *)
Record Recommended : Type := {
  r_product_code : string;
  r_name : string;
  r_brand : string;
  r_price : Z;
  r_thumbnail_url : option string;
  r_recommendation_reason : string;
  r_specs : list (string * string);
  r_review_count : Z;
  r_review_rating : option Q
}.

Record Response : Type := {
  resp_analysis_message : string;
  recommended_products : list Recommended
}.

Section Service.
Context (E : Env).

Let S : Store.t := store E.

(** [{"product_category": "기타"}] *)
Definition degraded_intent : Intent :=
  {| product_category := Some "기타"; search_query := None; keywords := None;
     user_needs := None; analysis_message := None |}.

(** [self._category_list_str] *)
Definition _category_list_str : string :=
  join ", " (map cat_name (List.filter (fun c => negb (cat_deleted c)) (Store.categories S))).

(** [resp.text] is read inside the [try]: on a [str] it raises
    [AttributeError], which the handler turns into the degraded intent. *)
Definition _extract_intent_pro (user_query : string) : Intent :=
  let full_prompt := INTENT_EXTRACTION_PROMPT E _category_list_str user_query in
  match generate_content (clients E) full_prompt with
  | Ok (ReplyObj text) =>
      match loads_intent E text with
      | Some (Ok res) => res
      | Some (Raise _) => degraded_intent
      | None => degraded_intent
      end
  | Ok (ReplyStr _) => degraded_intent
  | Raise _ => degraded_intent
  end.

Definition HARDWARE_HINTS : list string := ["CPU"; "노트북"; "그래픽카드"].

Definition _get_mall_map (p : Product) : option MallInfo :=
  Store.latest_mall_info S (pk p).

Definition _vector_search (query : string) (category_ids : list Z) : result (list Item) :=
  embedding ← create_embedding (clients E) query;
  let qs :=
    List.filter (fun p => negb (deleted p) && bool_decide (is_Some (detail_spec_vector p)))
                (Store.products S) in
  let search (qs : list Product) : result (list Item) :=
    let distance (p : Product) : Q :=
      Store.l2_distance S (default [] (detail_spec_vector p)) embedding in
    let p_list :=
      take 20 (stable_sort (fun a b => Qleb (distance a) (distance b))
                 (List.filter (fun p => negb (Store.status_excluded p)) qs)) in
    Ok (map (fun p => {| product := p; mall_info := _get_mall_map p;
                         score := Py.max 0 (1 - distance p / 2) |}) p_list) in
  match category_ids with
  | _ :: _ => search (List.filter (Store.category_in category_ids) qs)
  | [] => if any_in HARDWARE_HINTS query then Ok [] else search qs
  end.

Definition _keyword_search (keywords : list string) (category_ids : list Z) : list Item :=
  match keywords with
  | [] => []
  | _ :: _ =>
      let qs := List.filter (fun p => negb (deleted p)) (Store.products S) in
      let qs := match category_ids with
                | _ :: _ => List.filter (Store.category_in category_ids) qs
                | [] => qs
                end in
      let sim (p : Product) : Q := Store.trigram_similarity S (name p) (join " " keywords) in
      let p_list :=
        take 20 (stable_sort (fun a b => Qleb (sim b) (sim a))
                   (List.filter (fun p => Qltb 0.05 (sim p)) qs)) in
      map (fun p => {| product := p; mall_info := _get_mall_map p; score := sim p |}) p_list
  end.

Definition _generate_fallback_reason (p : Product) : string :=
  brand p ++ "의 신뢰도 높은 모델로, 사용자의 요구 성능을 충실히 만족하는 제품입니다.".

(** The [reason_map] the [try] block leaves behind. *)
Definition reason_map_of (prompt : string) : gmap string (option string) :=
  match generate_content (clients E) prompt with
  | Ok resp =>
      let raw_text := match resp with ReplyObj text => text | ReplyStr s => s end in
      match loads_results E raw_text with
      | Some (Ok results) =>
          fold_left (fun m r => <[str_code (row_product_code r) := row_recommendation_reason r]> m)
                    results ∅
      | Some (Raise _) => ∅
      | None => ∅
      end
  | Raise _ => ∅
  end.

Definition _rerank_with_fallback (user_query : string) (intent : Intent)
           (fused_results : list Item) : list Recommended :=
  let prompt :=
    COMBINED_RECOMMENDATION_PROMPT E user_query
      (default user_query (user_needs intent))
      (default "상품" (product_category intent))
      (map product fused_results) in
  let reason_map := reason_map_of prompt in
  map (fun item =>
         let p := product item in
         let p_id := danawa_product_id p in
         let final_reason :=
           or_str (mjoin (reason_map !! p_id)) (_generate_fallback_reason p) in
         {| r_product_code := danawa_product_id p;
            r_name := name p;
            r_brand := brand p;
            r_price := lowest_price p;
            r_thumbnail_url := representative_image_url <$> mall_info item;
            r_recommendation_reason := final_reason;
            r_specs := spec p;
            r_review_count := review_count p;
            r_review_rating := review_rating p |})
      (take TOP_K fused_results).
End Service.

(** [res] is an insertion-ordered [dict] keyed by the product code. *)
Definition _fuse_results (vec key : list Item) : list Item :=
  let res := fold_left (fun res i => dict_set (pid i) i res) vec [] in
  let res :=
    fold_left
      (fun res i =>
         match dict_get (pid i) res with
         | Some r => dict_set (pid i) (set_score r (score r * 0.7 + score i * 0.3)) res
         | None => dict_set (pid i) i res
         end)
      key res in
  stable_sort (fun x y => Qleb (score y) (score x)) (dict_values res).

Section Flow.
Context (E : Env).

Let S : Store.t := store E.

(** The keyword override of the category, on the upper-cased query. *)
Definition keyword_override (upper_query : string) : option (Z * string) :=
  if contains "CPU" upper_query || contains "프로세서" upper_query then Some (21, "CPU")
  else if contains "그래픽카드" upper_query || contains "GPU" upper_query
       then Some (24, "그래픽카드")
  else if contains "모니터" upper_query then Some (18, "모니터")
  else if contains "노트북" upper_query then Some (2, "노트북")
  else None.

(** Truth value of [category_id]: [None] and [0] are falsy. *)
Definition truthy_id (o : option Z) : bool :=
  match o with Some n => negb (Z.eqb n 0) | None => false end.

(** Step 2 of [get_recommendations]: exact name among the live rows, then
    the best trigram match above [MIN_CAT_SIMILARITY]. *)
Definition fuzzy_category (llm_category_name : string) : option Z :=
  let exact_match :=
    Store.first (List.filter (fun c => String.eqb (cat_name c) llm_category_name
                                       && negb (cat_deleted c))
                             (Store.categories S)) in
  match exact_match with
  | Some c => Some (cat_id c)
  | None => cat_id <$> Store.best_category_match S llm_category_name MIN_CAT_SIMILARITY
  end.

Definition resolve_category (user_query : string) (intent : Intent) : option Z * string :=
  let llm_category_name := strip (default "기타" (product_category intent)) in
  let '(category_id, llm_category_name) :=
    match keyword_override (upper user_query) with
    | Some (cid, cname) => (Some cid, cname)
    | None => (None, llm_category_name)
    end in
  if negb (truthy_id category_id) && truthy_str llm_category_name
     && negb (String.eqb llm_category_name "기타")
  then (match fuzzy_category llm_category_name with
        | Some cid => Some cid
        | None => category_id
        end, llm_category_name)
  else (category_id, llm_category_name).

Definition target_ids (category_id : option Z) : result (list Z) :=
  match category_id with
  | Some cid =>
      if truthy_id category_id
      then match _get_descendant_category_ids S (recursion_limit (clients E)) cid with
           | Some ids => Ok ids
           | None => Raise RecursionError
           end
      else Ok []
  | None => Ok []
  end.

Definition get_recommendations (user_query : string) : result Response :=
  let intent := _extract_intent_pro E user_query in
  let '(category_id, llm_category_name) := resolve_category user_query intent in
  target_category_ids ← target_ids category_id;
  (* the two searches run side by side; [f_vec.result()] is read first *)
  vector_results ← _vector_search E (default user_query (search_query intent))
                                  target_category_ids;
  let keyword_results :=
    _keyword_search E (default [user_query] (keywords intent)) target_category_ids in
  let fused_results := take 8 (_fuse_results vector_results keyword_results) in
  match fused_results with
  | [] =>
      Ok {| resp_analysis_message :=
              "'" ++ llm_category_name ++ "' 카테고리에서 조건에 맞는 상품을 찾지 못했습니다.";
            recommended_products := [] |}
  | _ :: _ =>
      let final_products := _rerank_with_fallback E user_query intent fused_results in
      Ok {| resp_analysis_message :=
              default (llm_category_name ++ " 추천 결과입니다.") (analysis_message intent);
            recommended_products := final_products |}
  end.
End Flow.

End LLMRecommendationService.

(** ** The cache of the web framework, with explicit time *)

Module DjangoCache.

Section Cache.
Context {V : Type}.

Record Entry : Type := { value : V; expires_at : Z }.

(** [cache.set(key, value, timeout=timeout)] at time [now] *)
Definition set (c : gmap string Entry) (key : string) (v : V) (timeout now : Z)
  : gmap string Entry :=
  <[key := {| value := v; expires_at := now + timeout |}]> c.

(** [cache.get(key)] at time [now]: [None] for a missing or expired key *)
Definition get (c : gmap string Entry) (key : string) (now : Z) : option V :=
  match c !! key with
  | Some e => if (now <? expires_at e)%Z then Some (value e) else None
  | None => None
  end.
End Cache.
Arguments Entry V : clear implicits.

End DjangoCache.

(** ** The two-step flow: [shopping_research_service.py] *)

Module ShoppingResearchService.

Definition CACHE_TTL : Z := 1800.
Definition TOP_K : nat := 5.
Definition SEARCH_LIMIT : nat := 50.
Definition VECTOR_WEIGHT : Q := 1.0.
Definition MIN_SIMILARITY : Q := 0.60.

(** Questions, as the reply of the model has them and as they are returned. *)
Inductive RawOption : Type :=
| OptStr (label : string)
| OptObj (oid : Z) (label : string).

Record RawQuestion : Type := {
  rq_question_id : option Z;
  rq_question : string;
  rq_options : list RawOption
}.

Record Question : Type := {
  question_id : Z;
  question : string;
  options : list (Z * string)
}.

(** The cached [dict]; a field is [None] when its key is absent. *)
Record Session : Type := {
  session_user_query : option string;
  session_questions : option (list Question)
}.

Abbreviation Cache := (gmap string (DjangoCache.Entry Session)).

(** An element of [survey_contents]. *)
Record Survey : Type := {
  s_question_id : Z;
  s_question : option string;
  s_answer : string
}.

Definition set_question (s : Survey) (q : string) : Survey :=
  {| s_question_id := s_question_id s; s_question := Some q; s_answer := s_answer s |}.

(** A price of the decoded reply.  [json.loads] hands back whatever the
    reply holds under ['min_price'] and ['max_price']: a number (an [int]
    or a [float]; [true] and [false] are the [int]s 1 and 0, as [bool] is
    in Python), a [str], or a list or an object.  A [float] is a rational,
    as the scores are. *)
Inductive Number : Type :=
| JInt (n : Z)
| JFloat (x : Q).

Inductive Price : Type :=
| JNum (n : Number)
| JStr (s : string)
| JOther.

Definition number_value (n : Number) : Q :=
  match n with
  | JInt z => inject_Z z
  | JFloat x => x
  end.

(** The JSON object of the survey analysis, and the intent built from it.
    A field is [None] when its key is absent or holds [null].  The upper
    bound of the intent has passed the test [max_price > 0] inside the
    [try], which raises on anything but a number: it is a number. *)
Record RawIntent : Type := {
  raw_product_category : option string;
  raw_search_query : option string;
  raw_keywords : option (list string);
  raw_priorities : option (list (string * Q));
  raw_min_price : option Price;
  raw_max_price : option Price;
  raw_user_needs : option string
}.

Record Intent : Type := {
  product_category : option string;
  search_query : string;
  keywords : list string;
  priorities : list (string * Q);
  min_price : option Price;
  max_price : option Number;
  user_needs : string
}.

(** A row of ['results'] in the batch analysis reply. *)
Record BatchRow : Type := {
  b_product_code : option Code;
  b_recommendation_reason : option string;
  b_ai_review_summary : option string
}.

(** A vector-path candidate and a fused candidate. *)
Record Hit : Type := {
  hit_product : Product;
  hit_mall_info : option MallInfo;
  vector_score : Q
}.

Record Fused : Type := {
  f_product : Product;
  f_mall_info : option MallInfo;
  f_vector_score : Q;
  combined_score : Q
}.

Record Env : Type := {
  store : Store.t;
  clients : Clients;
  QUESTION_GENERATION_PROMPT : string -> string;
  (** on the query and the formatted survey lines *)
  SHOPPING_RESEARCH_ANALYSIS_PROMPT : string -> string -> string;
  (** on the query, the needs and the products whose lines it lists *)
  BATCH_PRODUCT_ANALYSIS_PROMPT : string -> string -> list Product -> string;
  (** on the query, the needs, the name, the brand, the price, the specs *)
  RECOMMENDATION_REASON_PROMPT : string -> string -> string -> string -> Z -> string -> string;
  (** on the name, the brand, the price, the specs and the needs *)
  AI_REVIEW_SUMMARY_PROMPT : string -> string -> Z -> string -> string -> string;
  (** [json.loads] of the [{...}] block of the reply (of the whole reply
      when there is none), followed by [result.get('questions', [])] *)
  loads_questions : string -> result (list RawQuestion);
  loads_intent : string -> result RawIntent;
  (** ... followed by [result.get('results', [])] *)
  loads_batch : string -> result (list BatchRow);
  (** the builtin [int] on a [str] *)
  int : string -> result Z
}.

(** An entry of ['product'] in the answer of the second step. *)
Record Analyzed : Type := {
  similarity_score : Q;
  product_image_url : option string;
  product_name : string;
  product_code : Z;
  recommendation_reason : string;
  price : Z;
  performance_score : Q;
  product_specs_summary : string;
  ai_review_summary : string;
  product_detail_url : option string;
  match_rank : Z;
  is_lowest_price : bool
}.

Record Response : Type := {
  resp_user_query : string;
  resp_product : list Analyzed
}.

Record QuestionsResponse : Type := {
  search_id : string;
  questions : list Question
}.

(** [round(x, 2)]: to the nearest hundredth, ties to the even one. *)
Definition round2 (x : Q) : Q :=
  let y := (x * 100)%Q in
  let n := Qfloor y in
  let frac := (y - inject_Z n)%Q in
  let up :=
    if Qltb 0.5 frac then true
    else if Qltb frac 0.5 then false
    else Z.odd n in
  (inject_Z (if up then n + 1 else n) / 100)%Q.

(** A reply used as a [str]: [re.search] and [.strip()] fail on anything
    else. *)
Definition as_str (r : Reply) : result string :=
  match r with
  | ReplyStr s => Ok s
  | ReplyObj _ => Raise TypeError
  end.

(** [if not response: raise ValueError(..)] *)
Definition non_empty (r : Reply) : result Reply :=
  match r with
  | ReplyStr "" => Raise ValueError
  | _ => Ok r
  end.

Definition _get_default_questions : list Question :=
  [ {| question_id := 1; question := "주요 사용 목적은 무엇인가요?";
       options := [(1, "일반 업무"); (2, "영상 편집"); (3, "게임"); (4, "개발")] |};
    {| question_id := 2; question := "생각하시는 예산 범위는?";
       options := [(1, "100만원 미만"); (2, "100~150만원"); (3, "150~200만원");
                   (4, "200만원 이상")] |};
    {| question_id := 3; question := "디스플레이에서 가장 중요한 점은?";
       options := [(1, "해상도"); (2, "색재현율"); (3, "크기"); (4, "주사율")] |};
    {| question_id := 4; question := "휴대성을 어느 정도 고려하시나요?";
       options := [(1, "매우 중요"); (2, "보통"); (3, "성능이 더 중요")] |} ].

(** [uuid_hex] is [uuid.uuid4().hex], drawn by the caller. *)
Definition _generate_search_id (uuid_hex : string) (now : Z) (cache : Cache)
           (user_query : string) : string * Cache :=
  let search_id := "sr-" ++ String.substring 0 8 uuid_hex in
  let cache_key := "shopping_research:" ++ search_id in
  (search_id,
   DjangoCache.set cache cache_key
     {| session_user_query := Some user_query; session_questions := None |}
     CACHE_TTL now).

Definition _validate_search_id (now : Z) (cache : Cache) (search_id : string)
  : option Session :=
  let cache_key := "shopping_research:" ++ search_id in
  DjangoCache.get cache cache_key now.

(** The loop over [enumerate(questions, 1)]. *)
Definition normalise_question (i : nat) (q : RawQuestion) : Question :=
  {| question_id := default (Z.of_nat i + 1) (rq_question_id q);
     question := rq_question q;
     options :=
       imap (fun idx opt =>
               match opt with
               | OptStr label => (Z.of_nat idx + 1, label)
               | OptObj oid label => (oid, label)
               end)
            (rq_options q) |}.

(** [survey['question'] = questions_map.get(qid, f"질문 {qid}")] for the
    answers without a question text. *)
Definition fill_questions (cached_questions : list Question) (survey_contents : list Survey)
  : list Survey :=
  let questions_map : gmap Z string :=
    fold_left (fun m q => <[question_id q := question q]> m) cached_questions ∅ in
  map (fun survey =>
         if truthy_opt_str (s_question survey) then survey
         else set_question survey
                (default ("질문 " ++ pretty (s_question_id survey))
                         (questions_map !! s_question_id survey)))
      survey_contents.

Definition format_survey_item (s : Survey) : string :=
  let question_id := s_question_id s in
  let question_text := or_str (s_question s) ("질문 " ++ pretty question_id) in
  "Q" ++ pretty question_id ++ ": " ++ question_text ++ " -> A: " ++ s_answer s.

Definition nl : string := String (ascii_of_nat 10) "".

(** The price bounds of the answer of [_analyze_survey]:
    [min_price if min_price is not None else None] and
    [max_price if max_price is not None and max_price > 0 else None].
    [max_price > 0] raises [TypeError] on a [str], a list or an object. *)
Definition keep_min_price (min_price : option Price) : option Price :=
  match min_price with Some m => Some m | None => None end.

Definition keep_max_price (max_price : option Price) : result (option Number) :=
  match max_price with
  | Some (JNum m) => Ok (if Qltb 0 (number_value m) then Some m else None)
  | Some (JStr _) => Raise TypeError
  | Some JOther => Raise TypeError
  | None => Ok None
  end.

(** The price range check of [get_recommendations]:
    [min_price is not None and max_price is not None and min_price > max_price].
    The comparison of a [str], a list or an object with a number raises
    [TypeError]; it is made outside every [try]. *)
Definition validate_price_range (min_price : option Price) (max_price : option Number)
  : result (option Price * option Number) :=
  match min_price, max_price with
  | Some (JNum lo), Some hi =>
      Ok (if Qltb (number_value hi) (number_value lo) then (None, None)
          else (min_price, max_price))
  | Some (JStr _), Some _ => Raise TypeError
  | Some JOther, Some _ => Raise TypeError
  | _, _ => Ok (min_price, max_price)
  end.

(** The bound of [lowest_price__lte=max_price] on the integer column: the
    field prepares the value with [int(value)], which cuts the fraction of
    a [float] off (towards zero). *)
Definition lte_bound (max_price : Number) : Z :=
  match max_price with
  | JInt n => n
  | JFloat x => if Qltb x 0 then Qceiling x else Qfloor x
  end.

(** [lowest_price__gte=min_price] and [lowest_price__lte=max_price], each
    applied only when its bound is not [None]. *)
Definition price_filter (min_price max_price : option Z) (p : Product) : bool :=
  match min_price with Some lo => (lo <=? lowest_price p)%Z | None => true end
  && match max_price with Some hi => (lowest_price p <=? hi)%Z | None => true end.

Definition _calculate_performance_score (product : Product) (combined_score : Q) : Q :=
  let base_score := combined_score in
  let rating_score := (default 0 (review_rating product) / 25)%Q in
  let review_score := Py.min (inject_Z (review_count product) / 1000) 0.1 in
  let performance := Py.min 1.0 (base_score * 0.7 + rating_score + review_score) in
  performance.

(** The sort key [(combined_score, review_count, review_rating or 0)] and
    the order of tuples on it. *)
Definition sort_key (x : Fused) : Q * Z * Q :=
  (combined_score x, review_count (f_product x), default 0%Q (review_rating (f_product x))).

Definition key_le (a b : Q * Z * Q) : bool :=
  let '(a1, a2, a3) := a in
  let '(b1, b2, b3) := b in
  if Qltb a1 b1 then true
  else if Qltb b1 a1 then false
  else if (a2 <? b2)%Z then true
  else if (b2 <? a2)%Z then false
  else Qleb a3 b3.

Definition _fuse_results (vector_results : list Hit) : list Fused :=
  let results_map :=
    fold_left (fun m item => dict_set (danawa_product_id (hit_product item)) item m)
              vector_results [] in
  let fused_results :=
    map (fun data =>
           {| f_product := hit_product data; f_mall_info := hit_mall_info data;
              f_vector_score := vector_score data;
              combined_score := (VECTOR_WEIGHT * vector_score data)%Q |})
        (dict_values results_map) in
  stable_sort (fun x y => key_le (sort_key y) (sort_key x)) fused_results.

(** The similarity threshold and its relaxation in [get_recommendations]. *)
Definition select_top (fused_results : list Fused) : list Fused :=
  let high_similarity_results :=
    List.filter (fun r => Qleb MIN_SIMILARITY (combined_score r)) fused_results in
  let high_similarity_results :=
    if (length high_similarity_results <? TOP_K)%nat
    then match fused_results with
         | [] => []
         | _ :: _ => take TOP_K fused_results
         end
    else high_similarity_results in
  take TOP_K high_similarity_results.

Section Service.
Context (E : Env).

Let S : Store.t := store E.

(** Step 1.  The cache is written by [_generate_search_id], before the
    questions are drawn, and is not written again. *)
Definition generate_questions (uuid_hex : string) (now : Z) (cache : Cache)
           (user_query : string) : QuestionsResponse * Cache :=
  let '(search_id, cache) := _generate_search_id uuid_hex now cache user_query in
  let prompt := QUESTION_GENERATION_PROMPT E user_query in
  let generated : result (list Question) :=
    response ← generate_content (clients E) prompt;
    text ← as_str response;
    raw ← loads_questions E text;
    Ok (imap normalise_question raw) in
  match generated with
  | Ok questions => ({| search_id := search_id; questions := questions |}, cache)
  | Raise _ =>
      ({| search_id := search_id; questions := _get_default_questions |}, cache)
  end.

(** The bound of [lowest_price__gte=min_price] on the integer column: a
    [float] is rounded up ([math.ceil]), a [str] goes through [int(value)],
    a list or an object is refused with [TypeError]. *)
Definition gte_bound (min_price : Price) : result Z :=
  match min_price with
  | JNum (JInt n) => Ok n
  | JNum (JFloat x) => Ok (Qceiling x)
  | JStr s => int E s
  | JOther => Raise TypeError
  end.

Definition fallback_intent (user_query : string) (survey_contents : list Survey) : Intent :=
  let answers := map s_answer survey_contents in
  let combined_query := user_query ++ " " ++ join " " answers in
  {| product_category := None;
     search_query := combined_query;
     keywords := user_query :: answers;
     priorities := [];
     min_price := None;
     max_price := None;
     user_needs := user_query |}.

Definition _analyze_survey (user_query : string) (survey_contents : list Survey) : Intent :=
  let survey_text := join nl (map format_survey_item survey_contents) in
  let prompt := SHOPPING_RESEARCH_ANALYSIS_PROMPT E user_query survey_text in
  let analysed : result Intent :=
    response ← generate_content (clients E) prompt;
    response ← non_empty response;
    text ← as_str response;
    intent ← loads_intent E text;
    max_price ← keep_max_price (raw_max_price intent);
    Ok {| product_category := raw_product_category intent;
          search_query := default user_query (raw_search_query intent);
          keywords := default [user_query] (raw_keywords intent);
          priorities := default [] (raw_priorities intent);
          min_price := keep_min_price (raw_min_price intent);
          max_price := max_price;
          user_needs := default user_query (raw_user_needs intent) |} in
  match analysed with
  | Ok intent => intent
  | Raise _ => fallback_intent user_query survey_contents
  end.

(** Only the embedding call sits inside the [try]; the filters are built
    in the order category, lower bound, upper bound. *)
Definition _vector_search (search_query : string) (category_id : option Z)
           (min_price : option Price) (max_price : option Number)
  : result (list Hit) :=
  match create_embedding (clients E) search_query with
  | Raise _ => Ok []
  | Ok query_embedding =>
      let queryset :=
        List.filter (fun p => negb (deleted p) && bool_decide (is_Some (detail_spec_vector p)))
                    (Store.products S) in
      queryset ←
        match category_id with
        | Some cid =>
            if Z.eqb cid 0 then Ok queryset
            else match _get_descendant_category_ids S (recursion_limit (clients E)) cid with
                 | Some category_ids =>
                     Ok (List.filter (Store.category_in category_ids) queryset)
                 | None => Raise RecursionError
                 end
        | None => Ok queryset
        end;
      lower ←
        match min_price with
        | Some value => match gte_bound value with
                        | Ok n => Ok (Some n)
                        | Raise e => Raise e
                        end
        | None => Ok None
        end;
      let upper := lte_bound <$> max_price in
      let queryset := List.filter (price_filter lower upper) queryset in
      let distance (p : Product) : Q :=
        Store.cosine_distance S (default [] (detail_spec_vector p)) query_embedding in
      let products :=
        take SEARCH_LIMIT
             (stable_sort (fun a b => Qleb (distance a) (distance b))
                (List.filter (fun p => negb (Store.status_excluded p)) queryset)) in
      Ok (map (fun product =>
                 {| hit_product := product;
                    hit_mall_info := Store.first_mall_info S (pk product);
                    vector_score := Py.max 0.0 (1.0 - distance product / 2.0) |})
              products)
  end.

(** Truth value of a decoded row: a [dict] with a key. *)
Definition truthy_row (r : BatchRow) : bool :=
  bool_decide (is_Some (b_product_code r))
  || bool_decide (is_Some (b_recommendation_reason r))
  || bool_decide (is_Some (b_ai_review_summary r)).

Definition _batch_analyze_products (user_query user_needs : string) (products : list Fused)
  : gmap string BatchRow :=
  match products with
  | [] => ∅
  | _ :: _ =>
      let prompt :=
        BATCH_PRODUCT_ANALYSIS_PROMPT E user_query user_needs (map f_product products) in
      let analysed : result (gmap string BatchRow) :=
        response ← generate_content (clients E) prompt;
        response ← non_empty response;
        text ← as_str response;
        results ← loads_batch E text;
        Ok (fold_left (fun m item => <[str_code (b_product_code item) := item]> m)
                      results ∅) in
      match analysed with
      | Ok analysis_map => analysis_map
      | Raise _ => ∅
      end
  end.

(** [specs] is [{"summary": specs_str}]; its items with a truthy value are
    listed as ["key: value"]. *)
Definition specs_line (specs_str : string) : string :=
  if truthy_str specs_str then "summary: " ++ specs_str else "정보 없음".

Definition _generate_recommendation_reason
           (user_query user_needs product_name brand : string) (price : Z)
           (specs_str : string) : string :=
  let prompt :=
    RECOMMENDATION_REASON_PROMPT E user_query user_needs product_name brand price
                                 (specs_line specs_str) in
  match (response ← generate_content (clients E) prompt;
         text ← as_str response;
         Ok (strip text)) with
  | Ok reason => reason
  | Raise _ => brand ++ "의 " ++ product_name ++ "은(는) 사용자의 요구사항에 적합한 제품입니다."
  end.

Definition _generate_ai_review_summary
           (product_name brand : string) (price : Z) (specs_str user_needs : string)
  : string :=
  let prompt :=
    AI_REVIEW_SUMMARY_PROMPT E product_name brand price (specs_line specs_str) user_needs in
  match (response ← generate_content (clients E) prompt;
         text ← as_str response;
         Ok (strip text)) with
  | Ok summary => summary
  | Raise _ => product_name ++ "은(는) 우수한 성능과 가성비를 제공합니다."
  end.

(** [min(all_prices)] of a non-empty list *)
Definition min_price_of (all_prices : list Z) : Z :=
  match all_prices with
  | [] => 0
  | x :: xs => fold_left Z.min xs x
  end.

Definition _analyze_product (product_data : Fused) (user_query user_needs : string)
           (rank : Z) (all_prices : list Z) (pre_analysis : option BatchRow)
  : result Analyzed :=
  let product := f_product product_data in
  let mall_info := f_mall_info product_data in
  let combined_score := combined_score product_data in
  let specs_str :=
    match spec_summary product with
    | [] => "상세 정보 없음"
    | _ :: _ => join " / " (spec_summary product)
    end in
  let pre_analysis :=
    match pre_analysis with
    | Some row => if truthy_row row then Some row else None
    | None => None
    end in
  let '(recommendation_reason, ai_review_summary) :=
    match pre_analysis with
    | Some row =>
        (or_str (b_recommendation_reason row)
                (brand product ++ " " ++ name product
                 ++ "은(는) 요구사항에 적합한 추천 제품입니다."),
         or_str (b_ai_review_summary row)
                (name product ++ "은(는) 사용자분들께 좋은 평가를 받고 있습니다."))
    | None =>
        (_generate_recommendation_reason user_query user_needs (name product)
           (brand product) (lowest_price product) specs_str,
         _generate_ai_review_summary (name product) (brand product)
           (lowest_price product) specs_str user_needs)
    end in
  let performance_score := _calculate_performance_score product combined_score in
  let is_lowest_price :=
    match all_prices with
    | [] => false
    | _ :: _ => Z.eqb (lowest_price product) (min_price_of all_prices)
    end in
  code ← int E (danawa_product_id product);
  Ok {| similarity_score := round2 combined_score;
        product_image_url := representative_image_url <$> mall_info;
        product_name := name product;
        product_code := code;
        recommendation_reason := recommendation_reason;
        price := lowest_price product;
        performance_score := round2 performance_score;
        product_specs_summary := specs_str;
        ai_review_summary := ai_review_summary;
        product_detail_url := product_page_url <$> mall_info;
        match_rank := rank;
        is_lowest_price := is_lowest_price |}.

(** The loop over [enumerate(top_products, 1)]; the first exception ends
    it. *)
Fixpoint analyze_all (analysis_map : gmap string BatchRow) (user_query user_needs : string)
         (all_prices : list Z) (rank : Z) (top_products : list Fused)
  : result (list Analyzed) :=
  match top_products with
  | [] => Ok []
  | p_data :: rest =>
      let p_code := danawa_product_id (f_product p_data) in
      let item_analysis := analysis_map !! p_code in
      analyzed ← _analyze_product p_data user_query user_needs rank all_prices item_analysis;
      products ← analyze_all analysis_map user_query user_needs all_prices (rank + 1) rest;
      Ok (analyzed :: products)
  end.

(** The survey answers as [_analyze_survey] sees them: the answers are
    updated in place when the session holds a question set. *)
Definition enrich_survey (cached_data : option Session) (survey_contents : list Survey)
  : list Survey :=
  match cached_data with
  | Some data =>
      match session_questions data with
      | Some cached_questions => fill_questions cached_questions survey_contents
      | None => survey_contents
      end
  | None => survey_contents
  end.

(** The category the intent is mapped to (trigram match above 0.3). *)
Definition map_category (intent : Intent) : option Z :=
  match product_category intent with
  | Some llm_category_name =>
      if truthy_str llm_category_name
      then cat_id <$> Store.best_category_match S llm_category_name 0.3
      else None
  | None => None
  end.

(** Step 2. *)
Definition get_recommendations (now : Z) (cache : Cache) (search_id user_query : string)
           (survey_contents : list Survey) : result Response :=
  let cached_data := _validate_search_id now cache search_id in
  let survey_contents := enrich_survey cached_data survey_contents in
  let intent := _analyze_survey user_query survey_contents in
  let category_id := map_category intent in
  bounds ← validate_price_range (min_price intent) (max_price intent);
  let '(min_price, max_price) := bounds in
  vector_results ← _vector_search (search_query intent) category_id min_price max_price;
  let fused_results := _fuse_results vector_results in
  let top_products := select_top fused_results in
  match top_products with
  | [] => Ok {| resp_user_query := user_query; resp_product := [] |}
  | _ :: _ =>
      let all_prices := map (fun p => lowest_price (f_product p)) top_products in
      let analysis_map :=
        _batch_analyze_products user_query (user_needs intent) top_products in
      products ← analyze_all analysis_map user_query (user_needs intent) all_prices 1
                             top_products;
      Ok {| resp_user_query := user_query; resp_product := products |}
  end.
End Service.

End ShoppingResearchService.

(** ** The provider clients: [shared/ai_clients.py] *)

Module AIClients.

(** What the SDK call [client.generate_content(prompt)] hands back: nothing,
    an object without a [text] attribute, or an object whose [text] is
    [None] or a [str]. *)
Inductive GenerateResponse : Type :=
| NoResponse
| NoTextAttribute
| Text (text : option string).

(** [GeminiClient.generate_content]: the text when it is truthy, a
    [ValueError] otherwise; an exception of the SDK is logged and raised
    again. *)
Definition generate_content (sdk : string -> result GenerateResponse) (prompt : string)
  : result Reply :=
  match sdk prompt with
  | Ok (Text (Some text)) => if truthy_str text then Ok (ReplyStr text) else Raise ValueError
  | Ok (Text None) => Raise ValueError
  | Ok NoTextAttribute => Raise ValueError
  | Ok NoResponse => Raise ValueError
  | Raise e => Raise e
  end.

(** The settings [create_embedding] reads. *)
Record Settings : Type := {
  OPENAI_API_KEY : option string;
  EMBEDDING_MODEL : string
}.

(** [if not settings.OPENAI_API_KEY or settings.OPENAI_API_KEY == 'your-openai-api-key'] *)
Definition key_missing (settings : Settings) : bool :=
  negb (truthy_opt_str (OPENAI_API_KEY settings))
  || bool_decide (OPENAI_API_KEY settings = Some "your-openai-api-key").

(** [OpenAIClient.create_embedding].  [sdk model text] is
    [client.embeddings.create(model=model, input=text)] read as the list of
    the embeddings of [response.data]; every exception inside the [try]
    (that of the SDK, or [data[0]] on an empty list) is raised again as a
    [ValueError]. *)
Definition create_embedding (settings : Settings)
           (sdk : string -> string -> result (list Embedding)) (text : string)
  : result Embedding :=
  if key_missing settings then Raise ValueError
  else match sdk (EMBEDDING_MODEL settings) text with
       | Ok (embedding :: _) => Ok embedding
       | Ok [] => Raise ValueError
       | Raise _ => Raise ValueError
       end.

End AIClients.

(** ** The request of the second step: [serializers.py] *)

Module Serializers.


End Serializers.

(** ** The endpoints of the two flows: [views.py] *)

Module Views.

(** The body and the status of a [Response]. *)
Record Response (A : Type) : Type := {
  status : Z;
  message : string;
  data : option A;
  error : option string
}.
Arguments status {A} _.
Arguments message {A} _.
Arguments data {A} _.
Arguments error {A} _.

(** [except ValueError]: [json.JSONDecodeError] is a subclass of it. *)
Definition is_value_error (e : exn) : bool :=
  match e with
  | ValueError | JSONDecodeError => true
  | _ => false
  end.

(** [LLMRecommendationView.post], after the serializer accepted the
    request.  [str] is [str(e)]; [record_search] is
    [search_service.record_search(..)], which writes a row of the search
    history. *)
Definition llm_recommendation_post (E : LLMRecommendationService.Env)
           (str : exn -> string) (record_search : string -> result unit)
           (user_query : string) : Response LLMRecommendationService.Response :=
  match (result ← LLMRecommendationService.get_recommendations E user_query;
         _ ← record_search user_query;
         Ok result) with
  | Ok result =>
      {| status := 200; message := "추천 검색 성공"; data := Some result; error := None |}
  | Raise e =>
      {| status := 500;
         message := "AI 분석 또는 벡터 검색 과정에서 오류가 발생했습니다.";
         data := None; error := Some (str e) |}
  end.

(** [QuestionsView.post], after the serializer accepted the request. *)
Definition questions_post (E : ShoppingResearchService.Env) (uuid_hex : string) (now : Z)
           (cache : ShoppingResearchService.Cache) (user_query : string)
  : Response ShoppingResearchService.QuestionsResponse * ShoppingResearchService.Cache :=
  let '(result, cache) :=
    ShoppingResearchService.generate_questions E uuid_hex now cache user_query in
  ({| status := 200; message := "질문 생성 성공"; data := Some result; error := None |},
   cache).

(** [ShoppingResearchView.post], after the serializer accepted the
    request. *)
Definition shopping_research_post (E : ShoppingResearchService.Env) (str : exn -> string)
           (now : Z) (cache : ShoppingResearchService.Cache) (search_id user_query : string)
           (survey_contents : list ShoppingResearchService.Survey)
  : Response ShoppingResearchService.Response :=
  match ShoppingResearchService.get_recommendations E now cache search_id user_query
                                                    survey_contents with
  | Ok result =>
      {| status := 200; message := "쇼핑 리서치 결과 분석 성공 (상위 5개 상품)";
         data := Some result; error := None |}
  | Raise e =>
      if is_value_error e
      then {| status := 400; message := str e; data := None; error := Some (str e) |}
      else
        let error_str := str e in
        if contains "API key" error_str || contains "invalid_api_key" error_str
           || contains "Incorrect API key" error_str
        then {| status := 400;
                message := "OpenAI API 키가 올바르지 않습니다. 서버 관리자에게 문의하세요.";
                data := None; error := Some error_str |}
        else {| status := 500; message := "서버 내부 오류가 발생했습니다.";
                data := None; error := Some error_str |}
  end.

End Views.

(** * Vocabulary of the statements *)


(** ** Vocabulary of the category tree *)

Section CategoryTree.
Context (S : Store.t).

(** [c] has a row whose parent reference is [p]. *)
Definition parent_link (c p : Z) : Prop :=
  ∃ row, In row (Store.categories S) ∧ cat_id row = c ∧ cat_parent_id row = Some p.

(** The same through a row that is not soft-deleted. *)
Definition live_parent_link (c p : Z) : Prop :=
  ∃ row, In row (Store.categories S) ∧ cat_id row = c ∧ cat_parent_id row = Some p
         ∧ cat_deleted row = false.

(** No category is its own proper ancestor. *)
Definition acyclic : Prop := ∀ c, ¬ clos_trans Z parent_link c c.

(** [c] is reached from [top] by following parent references backwards. *)
Definition reaches (top c : Z) : Prop := clos_refl_trans Z parent_link c top.
Definition live_reaches (top c : Z) : Prop := clos_refl_trans Z live_parent_link c top.

(** A descending path below [top]: each element is a live child of the
    one before it. *)
Fixpoint chain (top : Z) (path : list Z) : Prop :=
  match path with
  | [] => True
  | x :: rest => live_parent_link x top ∧ chain x rest
  end.
End CategoryTree.

(** A sufficient, checkable condition for [acyclic]: every parent
    reference points to a smaller identifier. *)
Definition parents_before (S : Store.t) : bool :=
  forallb (fun row => match cat_parent_id row with
                      | Some p => (p <? cat_id row)%Z
                      | None => true
                      end)
          (Store.categories S).

(** ** Concrete stores *)

Definition category (cid : Z) (cname : string) (parent : option Z) (is_deleted : bool)
  : Category :=
  {| cat_id := cid; cat_name := cname; cat_parent_id := parent; cat_deleted := is_deleted |}.

(** A store over two tables, with constant distances and no mall rows. *)
Definition table_store (cats : list Category) (prods : list Product)
           (similarity : string → string → Q) : Store.t :=
  {| Store.categories := cats;
     Store.products := prods;
     Store.latest_mall_info := fun _ => None;
     Store.first_mall_info := fun _ => None;
     Store.trigram_similarity := similarity;
     Store.l2_distance := fun _ _ => 0%Q;
     Store.cosine_distance := fun _ _ => 0%Q |}.

(** CPU (21) with its two brands below it. *)
Definition cpu_categories : list Category :=
  [ category 21 "CPU" None false;
    category 22 "AMD" (Some 21) false;
    category 23 "인텔" (Some 21) false ].

Definition cpu_store : Store.t := table_store cpu_categories [] (fun _ _ => 0%Q).

(** A live category (3) below a soft-deleted one (2) below the root (1). *)
Definition hidden_categories : list Category :=
  [ category 1 "컴퓨터" None false;
    category 2 "부품" (Some 1) true;
    category 3 "CPU" (Some 2) false ].

Definition hidden_store : Store.t := table_store hidden_categories [] (fun _ _ => 0%Q).

(** ** Vocabulary of the scores *)

(** The performance score as the specification writes it:
    [min(1.0, combined_score*0.7 + review_rating/25 + min(review_count/1000, 0.1))],
    with the library minimum of the rationals. *)
Definition performance_formula (combined_score : Q) (review_rating : option Q)
           (review_count : Z) : Q :=
  Qmin 1 (combined_score * 0.7 + default 0%Q review_rating / 25
          + Qmin (inject_Z review_count / 1000) 0.1)%Q.

(** ** Concrete products and candidates *)

Definition sample_product (key : Z) (code pname pbrand : string) (pprice : Z)
           (cat : option Z) (count : Z) (rating : option Q) : Product :=
  {| pk := key; danawa_product_id := code; name := pname; brand := pbrand;
     lowest_price := pprice; category_id := cat; spec_summary := []; spec := [];
     detail_spec_vector := Some []; product_status := None;
     review_count := count; review_rating := rating; deleted := false |}.

Definition laptop_a : Product :=
  sample_product 1 "1001" "그램 16" "LG" 1500000 (Some 2) 120 (Some 4.5%Q).
Definition laptop_b : Product :=
  sample_product 2 "1002" "갤럭시북" "삼성" 1300000 (Some 2) 10000 (Some 5%Q).
Definition cpu_a : Product :=
  sample_product 3 "2001" "라이젠 5 5600" "AMD" 150000 (Some 22) 300 None.

Definition fused_of (p : Product) (s : Q) : ShoppingResearchService.Fused :=
  {| ShoppingResearchService.f_product := p;
     ShoppingResearchService.f_mall_info := None;
     ShoppingResearchService.f_vector_score := s;
     ShoppingResearchService.combined_score := s |}.

(** ** Concrete environments *)

(** [int] on a string of ASCII decimal digits; anything else is refused. *)
Fixpoint digits_value (acc : Z) (s : string) : result Z :=
  match s with
  | EmptyString => Ok acc
  | String c s' =>
      let n := Z.of_nat (nat_of_ascii c) in
      if ((48 <=? n) && (n <=? 57))%Z then digits_value (10 * acc + (n - 48)) s'
      else Raise ValueError
  end.

Definition int_of_digits (s : string) : result Z :=
  match s with
  | EmptyString => Raise ValueError
  | _ => digits_value 0 s
  end.

(** Both providers out of service. *)
Definition providers_down : Clients :=
  {| create_embedding := fun _ => Raise ValueError;
     generate_content := fun _ => Raise ValueError;
     recursion_limit := 1000 |}.

(** Prompts that only carry the query along; the decoders are given. *)
Definition research_env (S : Store.t) (C : Clients)
           (intent_of : string → result ShoppingResearchService.RawIntent)
           (batch_of : string → result (list ShoppingResearchService.BatchRow))
  : ShoppingResearchService.Env :=
  {| ShoppingResearchService.store := S;
     ShoppingResearchService.clients := C;
     ShoppingResearchService.QUESTION_GENERATION_PROMPT := fun q => "questions: " ++ q;
     ShoppingResearchService.SHOPPING_RESEARCH_ANALYSIS_PROMPT := fun q _ => "survey: " ++ q;
     ShoppingResearchService.BATCH_PRODUCT_ANALYSIS_PROMPT := fun q _ _ => "batch: " ++ q;
     ShoppingResearchService.RECOMMENDATION_REASON_PROMPT :=
       fun q _ pname _ _ _ => "reason: " ++ pname;
     ShoppingResearchService.AI_REVIEW_SUMMARY_PROMPT :=
       fun pname _ _ _ _ => "review: " ++ pname;
     ShoppingResearchService.loads_questions := fun _ => Raise JSONDecodeError;
     ShoppingResearchService.loads_intent := intent_of;
     ShoppingResearchService.loads_batch := batch_of;
     ShoppingResearchService.int := int_of_digits |}.

Definition laptop_store : Store.t :=
  table_store [category 2 "노트북" None false] [laptop_a; laptop_b] (fun _ _ => 0%Q).

Definition offline_research_env : ShoppingResearchService.Env :=
  research_env laptop_store providers_down
               (fun _ => Raise JSONDecodeError) (fun _ => Raise JSONDecodeError).

(** The survey analysis answers with a budget of "at most 0" and "at least 0". *)
Definition zero_budget_intent : ShoppingResearchService.RawIntent :=
  {| ShoppingResearchService.raw_product_category := Some "노트북";
     ShoppingResearchService.raw_search_query := Some "가벼운 노트북";
     ShoppingResearchService.raw_keywords := Some ["노트북"];
     ShoppingResearchService.raw_priorities := None;
     ShoppingResearchService.raw_min_price :=
       Some (ShoppingResearchService.JNum (ShoppingResearchService.JInt 0));
     ShoppingResearchService.raw_max_price :=
       Some (ShoppingResearchService.JNum (ShoppingResearchService.JInt 0));
     ShoppingResearchService.raw_user_needs := None |}.

Definition zero_budget_env : ShoppingResearchService.Env :=
  research_env laptop_store
    {| create_embedding := fun _ => Ok [];
       generate_content := fun _ => Ok (ReplyStr "{...}");
       recursion_limit := 1000 |}
    (fun _ => Ok zero_budget_intent) (fun _ => Raise JSONDecodeError).

Definition one_answer : list ShoppingResearchService.Survey :=
  [ {| ShoppingResearchService.s_question_id := 1;
       ShoppingResearchService.s_question := None;
       ShoppingResearchService.s_answer := "게임" |} ].

(** ** Vocabulary of the fusion *)

(** Every value of the dictionary sits under its own product code. *)
Definition keyed (d : list (string * Item)) : Prop :=
  ∀ k v, In (k, v) d → pid v = k.

(** The body of the second loop of the weighted-sum fuser. *)
Definition merge (res : list (string * Item)) (i : Item) : list (string * Item) :=
  match dict_get (pid i) res with
  | Some r => dict_set (pid i) (set_score r (score r * 0.7 + score i * 0.3)) res
  | None => dict_set (pid i) i res
  end.

(** The dictionary after the first loop, on candidates with distinct codes. *)
Definition loaded (vec : list Item) : list (string * Item) :=
  map (fun i => (pid i, i)) vec.

Definition item_of (p : Product) (s : Q) : Item :=
  {| product := p; mall_info := None; score := s |}.

(** ** Concrete runs *)

(** A provider that answers every prompt with the same text. *)
Definition provider_says (embedding : result Embedding) (reply : result Reply) : Clients :=
  {| create_embedding := fun _ => embedding;
     generate_content := fun _ => reply;
     recursion_limit := 1000 |}.

(** The first step with a working provider whose reply holds one question. *)
Definition one_question : ShoppingResearchService.RawQuestion :=
  {| ShoppingResearchService.rq_question_id := None;
     ShoppingResearchService.rq_question := "주로 어떤 용도로 쓰시나요?";
     ShoppingResearchService.rq_options :=
       [ShoppingResearchService.OptStr "게임"; ShoppingResearchService.OptStr "사무"] |}.

Definition questions_env : ShoppingResearchService.Env :=
  let E := research_env laptop_store (provider_says (Ok []) (Ok (ReplyStr "{...}")))
                        (fun _ => Raise JSONDecodeError) (fun _ => Raise JSONDecodeError) in
  {| ShoppingResearchService.store := ShoppingResearchService.store E;
     ShoppingResearchService.clients := ShoppingResearchService.clients E;
     ShoppingResearchService.QUESTION_GENERATION_PROMPT :=
       ShoppingResearchService.QUESTION_GENERATION_PROMPT E;
     ShoppingResearchService.SHOPPING_RESEARCH_ANALYSIS_PROMPT :=
       ShoppingResearchService.SHOPPING_RESEARCH_ANALYSIS_PROMPT E;
     ShoppingResearchService.BATCH_PRODUCT_ANALYSIS_PROMPT :=
       ShoppingResearchService.BATCH_PRODUCT_ANALYSIS_PROMPT E;
     ShoppingResearchService.RECOMMENDATION_REASON_PROMPT :=
       ShoppingResearchService.RECOMMENDATION_REASON_PROMPT E;
     ShoppingResearchService.AI_REVIEW_SUMMARY_PROMPT :=
       ShoppingResearchService.AI_REVIEW_SUMMARY_PROMPT E;
     ShoppingResearchService.loads_questions := fun _ => Ok [one_question];
     ShoppingResearchService.loads_intent := ShoppingResearchService.loads_intent E;
     ShoppingResearchService.loads_batch := ShoppingResearchService.loads_batch E;
     ShoppingResearchService.int := ShoppingResearchService.int E |}.

Definition sample_uuid_hex : string := "3f2a9c1e5b7d4e0f8a6b1c2d3e4f5a6b".

(** The single-step service over a store and two providers, with prompts
    that only carry the query along; the decoders are given. *)
Definition llm_env (S : Store.t) (C : Clients)
           (intent_of : string → option (result LLMRecommendationService.Intent))
           (results_of : string → option (result (list LLMRecommendationService.Row)))
  : LLMRecommendationService.Env :=
  {| LLMRecommendationService.store := S;
     LLMRecommendationService.clients := C;
     LLMRecommendationService.INTENT_EXTRACTION_PROMPT := fun _ q => "intent: " ++ q;
     LLMRecommendationService.COMBINED_RECOMMENDATION_PROMPT :=
       fun q _ _ _ => "rerank: " ++ q;
     LLMRecommendationService.loads_intent := intent_of;
     LLMRecommendationService.loads_results := results_of |}.

(** Laptops that match the keywords of a laptop query. *)
Definition keyword_store : Store.t :=
  table_store [category 2 "노트북" None false] [laptop_a; laptop_b]
              (fun pname _ => if String.eqb pname "그램 16" then 0.4%Q else 0.1%Q).

(** The embedding provider is down; the text provider answers with a
    [str], as the client of the repository does. *)
Definition embedding_down_env : LLMRecommendationService.Env :=
  llm_env keyword_store
          (provider_says (Raise ValueError) (Ok (ReplyStr "{...}")))
          (fun _ => None) (fun _ => None).

Definition embedding_down_research_env : ShoppingResearchService.Env :=
  research_env keyword_store
               (provider_says (Raise ValueError) (Ok (ReplyStr "{...}")))
               (fun _ => Raise JSONDecodeError) (fun _ => Raise JSONDecodeError).

(** A catalogue with a processor and a laptop that share a word. *)
Definition laptop_c : Product :=
  sample_product 4 "1003" "아이디어패드 라이젠 5" "레노버" 800000 (Some 2) 40 (Some 4%Q).

Definition mixed_store : Store.t :=
  table_store (category 2 "노트북" None false :: cpu_categories) [cpu_a; laptop_c]
              (fun pname _ => if contains "라이젠" pname then 0.3%Q else 0%Q).

(** The intent reply names the processor in its search string and gives
    no usable category. *)
Definition ryzen_intent : LLMRecommendationService.Intent :=
  {| LLMRecommendationService.product_category := Some "기타";
     LLMRecommendationService.search_query := Some "라이젠 5600 CPU";
     LLMRecommendationService.keywords := Some ["라이젠"; "5600"];
     LLMRecommendationService.user_needs := None;
     LLMRecommendationService.analysis_message := None |}.

Definition ryzen_env : LLMRecommendationService.Env :=
  llm_env mixed_store
          (provider_says (Ok []) (Ok (ReplyObj "{...}")))
          (fun _ => Some (Ok ryzen_intent)) (fun _ => None).

(** ** Vocabulary of the explanations *)

(** The text of a reply as [_rerank_with_fallback] reads it:
    [resp.text if hasattr(resp, 'text') else str(resp)]. *)
Definition raw_text (resp : Reply) : string :=
  match resp with ReplyObj text => text | ReplyStr s => s end.







(** The batch call fails and the per-product calls are answered. *)
Definition batch_down (answer : string) : Clients :=
  {| create_embedding := fun _ => Ok [];
     generate_content :=
       fun prompt => if String.prefix "batch" prompt then Raise ValueError
                     else Ok (ReplyStr answer);
     recursion_limit := 1000 |}.

Definition batch_down_env (answer : string) : ShoppingResearchService.Env :=
  research_env laptop_store (batch_down answer)
               (fun _ => Raise JSONDecodeError) (fun _ => Raise JSONDecodeError).


(** The product codes of the store are distinct ([unique=True] on
    [danawa_product_id]). *)
Definition codes_unique (S : Store.t) : Prop :=
  List.NoDup (map danawa_product_id (Store.products S)).

(** ** Vocabulary of the retrieval paths *)

(** What a candidate of the keyword path of the single-step flow is. *)
Definition keyword_hit (E : LLMRecommendationService.Env) (keywords : list string)
           (category_ids : list Z) (i : Item) : Prop :=
  let S := LLMRecommendationService.store E in
  In (product i) (Store.products S)
  ∧ deleted (product i) = false
  ∧ score i = Store.trigram_similarity S (name (product i)) (join " " keywords)
  ∧ (0.05 < score i)%Q
  ∧ (category_ids ≠ [] → Store.category_in category_ids (product i) = true)
  ∧ mall_info i = Store.latest_mall_info S (pk (product i)).

(** What a candidate of the vector path of the single-step flow is. *)
Definition vector_hit (E : LLMRecommendationService.Env) (category_ids : list Z)
           (i : Item) : Prop :=
  let S := LLMRecommendationService.store E in
  In (product i) (Store.products S)
  ∧ deleted (product i) = false
  ∧ is_Some (detail_spec_vector (product i))
  ∧ Store.status_excluded (product i) = false
  ∧ (0 <= score i)%Q
  ∧ (category_ids ≠ [] → Store.category_in category_ids (product i) = true)
  ∧ mall_info i = Store.latest_mall_info S (pk (product i)).

(** A price lies within the bounds handed to the search: at or above a
    numeric lower bound (above the integer a [str] lower bound is read as),
    and at or below an upper bound that is not negative. *)
Definition within_bounds (E : ShoppingResearchService.Env)
           (min_price : option ShoppingResearchService.Price)
           (max_price : option ShoppingResearchService.Number) (price : Z) : Prop :=
  (∀ lo, min_price = Some (ShoppingResearchService.JNum lo) →
         (ShoppingResearchService.number_value lo <= inject_Z price)%Q)
  ∧ (∀ s, min_price = Some (ShoppingResearchService.JStr s) →
          ∃ n, ShoppingResearchService.int E s = Ok n ∧ (n ≤ price)%Z)
  ∧ min_price ≠ Some ShoppingResearchService.JOther
  ∧ (∀ hi, max_price = Some hi →
           (0 <= ShoppingResearchService.number_value hi)%Q →
           (inject_Z price <= ShoppingResearchService.number_value hi)%Q).

(** What a candidate of the vector path of the two-step flow is: a live
    product on sale within the filters, scored by the cosine distance
    between its own vector and the embedding of the search string. *)
Definition research_hit (E : ShoppingResearchService.Env) (search_query : string)
           (category_id : option Z)
           (min_price : option ShoppingResearchService.Price)
           (max_price : option ShoppingResearchService.Number)
           (h : ShoppingResearchService.Hit) : Prop :=
  let S := ShoppingResearchService.store E in
  let p := ShoppingResearchService.hit_product h in
  In p (Store.products S)
  ∧ deleted p = false
  ∧ Store.status_excluded p = false
  ∧ (0 <= ShoppingResearchService.vector_score h)%Q
  ∧ (∃ vector query_embedding,
        detail_spec_vector p = Some vector
        ∧ create_embedding (ShoppingResearchService.clients E) search_query
          = Ok query_embedding
        ∧ ShoppingResearchService.vector_score h
          = Py.max 0.0 (1.0 - Store.cosine_distance S vector query_embedding / 2.0))
  ∧ ShoppingResearchService.hit_mall_info h = Store.first_mall_info S (pk p)
  ∧ within_bounds E min_price max_price (lowest_price p)
  ∧ (∀ cid, category_id = Some cid → cid ≠ 0 →
       ∃ ids, _get_descendant_category_ids S
                (recursion_limit (ShoppingResearchService.clients E)) cid = Some ids
              ∧ Store.category_in ids p = true).

(** ** Vocabulary of the fusion on arbitrary lists *)

(** The body of the first loop of the weighted-sum fuser. *)
Definition load (res : list (string * Item)) (i : Item) : list (string * Item) :=
  dict_set (pid i) i res.

(** Every value of the dictionary carries the product of a candidate. *)
Definition from_candidates (candidates : list Item) (d : list (string * Item)) : Prop :=
  ∀ k v, In (k, v) d → ∃ i, In i candidates ∧ product v = product i
                            ∧ mall_info v = mall_info i.

(** The order of the sort keys of the two-step fuser: the first is at least
    the second, by score, then by review count, then by rating. *)
Definition key_ge (a b : Q * Z * Q) : Prop :=
  (b.1.1 < a.1.1)%Q
  ∨ ((a.1.1 == b.1.1)%Q
     ∧ ((b.1.2 < a.1.2)%Z ∨ (a.1.2 = b.1.2 ∧ (b.2 <= a.2)%Q))).

(** ** Vocabulary of the answers *)

(** An entry of the answer of the single-step flow shows a live product of
    the store, inside the category filter when there is one. *)
Definition shows_product (E : LLMRecommendationService.Env) (category_ids : list Z)
           (r : LLMRecommendationService.Recommended) : Prop :=
  ∃ p, In p (Store.products (LLMRecommendationService.store E))
       ∧ deleted p = false
       ∧ LLMRecommendationService.r_product_code r = danawa_product_id p
       ∧ LLMRecommendationService.r_name r = name p
       ∧ LLMRecommendationService.r_brand r = brand p
       ∧ LLMRecommendationService.r_price r = lowest_price p
       ∧ (category_ids ≠ [] → Store.category_in category_ids p = true).

(** An entry of the answer of the two-step flow, built from a selected
    candidate; [prices] are the prices of all the selected candidates. *)
Definition analyzed_from (E : ShoppingResearchService.Env) (prices : list Z)
           (c : ShoppingResearchService.Fused) (a : ShoppingResearchService.Analyzed)
  : Prop :=
  let p := ShoppingResearchService.f_product c in
  ShoppingResearchService.product_name a = name p
  ∧ ShoppingResearchService.price a = lowest_price p
  ∧ ShoppingResearchService.int E (danawa_product_id p)
    = Ok (ShoppingResearchService.product_code a)
  ∧ ShoppingResearchService.similarity_score a
    = ShoppingResearchService.round2 (ShoppingResearchService.combined_score c)
  ∧ ShoppingResearchService.performance_score a
    = ShoppingResearchService.round2
        (ShoppingResearchService._calculate_performance_score
           p (ShoppingResearchService.combined_score c))
  ∧ ShoppingResearchService.is_lowest_price a
    = match prices with
      | [] => false
      | _ :: _ => Z.eqb (lowest_price p) (ShoppingResearchService.min_price_of prices)
      end.

(** An entry of the answer shows a live product on sale, priced within the
    bounds. *)
Definition shows_priced_product (E : ShoppingResearchService.Env)
           (min_price : option ShoppingResearchService.Price)
           (max_price : option ShoppingResearchService.Number)
           (a : ShoppingResearchService.Analyzed) : Prop :=
  ∃ p, In p (Store.products (ShoppingResearchService.store E))
       ∧ deleted p = false
       ∧ Store.status_excluded p = false
       ∧ ShoppingResearchService.product_name a = name p
       ∧ ShoppingResearchService.price a = lowest_price p
       ∧ ShoppingResearchService.int E (danawa_product_id p)
         = Ok (ShoppingResearchService.product_code a)
       ∧ (∀ lo, min_price = Some (ShoppingResearchService.JNum lo) →
                (ShoppingResearchService.number_value lo
                 <= inject_Z (ShoppingResearchService.price a))%Q)
       ∧ (∀ s, min_price = Some (ShoppingResearchService.JStr s) →
               ∃ n, ShoppingResearchService.int E s = Ok n
                    ∧ (n ≤ ShoppingResearchService.price a)%Z)
       ∧ (∀ hi, max_price = Some hi →
                (inject_Z (ShoppingResearchService.price a)
                 <= ShoppingResearchService.number_value hi)%Q).

(** The ranks [start, start+1, ...] of [n] entries. *)
Definition ranks_from (start : Z) (n : nat) : list Z :=
  map (fun i => (start + Z.of_nat i)%Z) (seq 0 n).

(** Distances and review aggregates that are not negative. *)
Definition store_sane (S : Store.t) : Prop :=
  (∀ u v, (0 <= Store.cosine_distance S u v)%Q)
  ∧ ∀ p, In p (Store.products S) →
         (0 ≤ review_count p)%Z ∧ ∀ r, review_rating p = Some r → (0 <= r)%Q.

(** Two categories that are each other's parent. *)
Definition cyclic_store : Store.t :=
  table_store [category 1 "컴퓨터" (Some 2) false; category 2 "부품" (Some 1) false]
              [] (fun _ _ => 0%Q).

(** The single-step service over [cyclic_store]. *)
Definition cyclic_env : LLMRecommendationService.Env :=
  llm_env cyclic_store (provider_says (Ok []) (Ok (ReplyStr "{...}")))
          (fun _ => None) (fun _ => None).

(** The clients of the repository over the two SDKs. *)
Definition repo_clients (settings : AIClients.Settings)
           (gemini_sdk : string → result AIClients.GenerateResponse)
           (openai_sdk : string → string → result (list Embedding))
           (limit : nat) : Clients :=
  {| create_embedding := AIClients.create_embedding settings openai_sdk;
     generate_content := AIClients.generate_content gemini_sdk;
     recursion_limit := limit |}.

(** A deployment whose OpenAI key is the placeholder of the sample
    settings, with a text provider that answers. *)
Definition placeholder_settings : AIClients.Settings :=
  {| AIClients.OPENAI_API_KEY := Some "your-openai-api-key";
     AIClients.EMBEDDING_MODEL := "text-embedding-3-small" |}.

Definition placeholder_clients : Clients :=
  repo_clients placeholder_settings
               (fun _ => Ok (AIClients.Text (Some "{...}")))
               (fun _ _ => Ok [[]]) 1000.

Definition placeholder_llm_env : LLMRecommendationService.Env :=
  llm_env keyword_store placeholder_clients (fun _ => None) (fun _ => None).

Definition placeholder_research_env : ShoppingResearchService.Env :=
  research_env keyword_store placeholder_clients
               (fun _ => Raise JSONDecodeError) (fun _ => Raise JSONDecodeError).

(** [str(e)] by the name of the class, and a search history that accepts
    every row. *)
Definition class_name (e : exn) : string :=
  match e with
  | ValueError => "ValueError"
  | AttributeError => "AttributeError"
  | TypeError => "TypeError"
  | JSONDecodeError => "JSONDecodeError"
  | RecursionError => "RecursionError"
  end.

Definition history_accepts (user_query : string) : result unit := Ok tt.

(** The decoding of the questions in [generate_questions]: the call, the
    reply read as a [str], and [json.loads]. *)
Definition decoded_questions (E : ShoppingResearchService.Env) (user_query : string)
  : result (list ShoppingResearchService.RawQuestion) :=
  response ← generate_content (ShoppingResearchService.clients E)
                (ShoppingResearchService.QUESTION_GENERATION_PROMPT E user_query);
  text ← ShoppingResearchService.as_str response;
  ShoppingResearchService.loads_questions E text.

(** ** Vocabulary of the revised statements *)



(** A decoded survey analysis with the given price bounds, over a store of
    two laptops (1,500,000 and 1,300,000). *)
Definition budget_intent (lo hi : option ShoppingResearchService.Price)
  : ShoppingResearchService.RawIntent :=
  {| ShoppingResearchService.raw_product_category := Some "노트북";
     ShoppingResearchService.raw_search_query := Some "가벼운 노트북";
     ShoppingResearchService.raw_keywords := Some ["노트북"];
     ShoppingResearchService.raw_priorities := None;
     ShoppingResearchService.raw_min_price := lo;
     ShoppingResearchService.raw_max_price := hi;
     ShoppingResearchService.raw_user_needs := None |}.

Definition budget_env (lo hi : option ShoppingResearchService.Price)
  : ShoppingResearchService.Env :=
  research_env laptop_store
    {| create_embedding := fun _ => Ok [];
       generate_content := fun _ => Ok (ReplyStr "{...}");
       recursion_limit := 1000 |}
    (fun _ => Ok (budget_intent lo hi)) (fun _ => Raise JSONDecodeError).

Definition won (n : Z) : ShoppingResearchService.Price :=
  ShoppingResearchService.JNum (ShoppingResearchService.JInt n).

(** The same environment, with the two prices taken out of every decoded
    survey analysis. *)
Definition clear_prices (raw : ShoppingResearchService.RawIntent)
  : ShoppingResearchService.RawIntent :=
  {| ShoppingResearchService.raw_product_category :=
       ShoppingResearchService.raw_product_category raw;
     ShoppingResearchService.raw_search_query := ShoppingResearchService.raw_search_query raw;
     ShoppingResearchService.raw_keywords := ShoppingResearchService.raw_keywords raw;
     ShoppingResearchService.raw_priorities := ShoppingResearchService.raw_priorities raw;
     ShoppingResearchService.raw_min_price := None;
     ShoppingResearchService.raw_max_price := None;
     ShoppingResearchService.raw_user_needs := ShoppingResearchService.raw_user_needs raw |}.

Definition without_prices (E : ShoppingResearchService.Env) : ShoppingResearchService.Env :=
  {| ShoppingResearchService.store := ShoppingResearchService.store E;
     ShoppingResearchService.clients := ShoppingResearchService.clients E;
     ShoppingResearchService.QUESTION_GENERATION_PROMPT :=
       ShoppingResearchService.QUESTION_GENERATION_PROMPT E;
     ShoppingResearchService.SHOPPING_RESEARCH_ANALYSIS_PROMPT :=
       ShoppingResearchService.SHOPPING_RESEARCH_ANALYSIS_PROMPT E;
     ShoppingResearchService.BATCH_PRODUCT_ANALYSIS_PROMPT :=
       ShoppingResearchService.BATCH_PRODUCT_ANALYSIS_PROMPT E;
     ShoppingResearchService.RECOMMENDATION_REASON_PROMPT :=
       ShoppingResearchService.RECOMMENDATION_REASON_PROMPT E;
     ShoppingResearchService.AI_REVIEW_SUMMARY_PROMPT :=
       ShoppingResearchService.AI_REVIEW_SUMMARY_PROMPT E;
     ShoppingResearchService.loads_questions := ShoppingResearchService.loads_questions E;
     ShoppingResearchService.loads_intent :=
       fun text => match ShoppingResearchService.loads_intent E text with
                   | Ok raw => Ok (clear_prices raw)
                   | Raise e => Raise e
                   end;
     ShoppingResearchService.loads_batch := ShoppingResearchService.loads_batch E;
     ShoppingResearchService.int := ShoppingResearchService.int E |}.

(** The prompt of the survey analysis. *)
Definition survey_prompt (E : ShoppingResearchService.Env) (user_query : string)
           (survey_contents : list ShoppingResearchService.Survey) : string :=
  ShoppingResearchService.SHOPPING_RESEARCH_ANALYSIS_PROMPT E user_query
    (join ShoppingResearchService.nl
          (map ShoppingResearchService.format_survey_item survey_contents)).

(** Four answers, as the serializer of the second step hands them on: the
    question text is present (empty when the client left it out). *)
Definition answer (qid : Z) (text : string) : ShoppingResearchService.Survey :=
  {| ShoppingResearchService.s_question_id := qid;
     ShoppingResearchService.s_question := Some "";
     ShoppingResearchService.s_answer := text |}.

Definition four_answers : list ShoppingResearchService.Survey :=
  [answer 1 "게임"; answer 2 "150~200만원"; answer 3 "주사율"; answer 4 "보통"].

(** A deployment with both keys set, over the clients of the repository:
    the text provider answers every prompt with the same text, the
    embedding provider with the same vector. *)
Definition working_settings : AIClients.Settings :=
  {| AIClients.OPENAI_API_KEY := Some "sk-live";
     AIClients.EMBEDDING_MODEL := "text-embedding-3-small" |}.

Definition working_clients : Clients :=
  repo_clients working_settings
               (fun _ => Ok (AIClients.Text (Some "{...}")))
               (fun _ _ => Ok [[]]) 1000.

Definition repo_llm_env : LLMRecommendationService.Env :=
  llm_env keyword_store working_clients (fun _ => None) (fun _ => None).

(** The placeholder key again, with a survey analysis whose lower price is
    a text and whose upper price is a number. *)
Definition text_price_env : ShoppingResearchService.Env :=
  research_env keyword_store placeholder_clients
    (fun _ => Ok (budget_intent (Some (ShoppingResearchService.JStr "1000000"))
                                (Some (won 2000000))))
    (fun _ => Raise JSONDecodeError).

(** The stages of the vector search of the two-step flow: the rows with a
    vector inside the category, the integer lower bound, and the ranking
    of the rows that remain. *)
Definition category_queryset (E : ShoppingResearchService.Env) (category_id : option Z)
  : result (list Product) :=
  let S := ShoppingResearchService.store E in
  let queryset :=
    List.filter (fun p => negb (deleted p) && bool_decide (is_Some (detail_spec_vector p)))
                (Store.products S) in
  match category_id with
  | Some cid =>
      if Z.eqb cid 0 then Ok queryset
      else match _get_descendant_category_ids S
                   (recursion_limit (ShoppingResearchService.clients E)) cid with
           | Some category_ids => Ok (List.filter (Store.category_in category_ids) queryset)
           | None => Raise RecursionError
           end
  | None => Ok queryset
  end.

Definition lower_bound (E : ShoppingResearchService.Env)
           (min_price : option ShoppingResearchService.Price) : result (option Z) :=
  match min_price with
  | Some value => match ShoppingResearchService.gte_bound E value with
                  | Ok n => Ok (Some n)
                  | Raise e => Raise e
                  end
  | None => Ok None
  end.

Definition ranked_hits (E : ShoppingResearchService.Env) (query_embedding : Embedding)
           (queryset : list Product) : list ShoppingResearchService.Hit :=
  let S := ShoppingResearchService.store E in
  let distance (p : Product) : Q :=
    Store.cosine_distance S (default [] (detail_spec_vector p)) query_embedding in
  map (fun product =>
         {| ShoppingResearchService.hit_product := product;
            ShoppingResearchService.hit_mall_info := Store.first_mall_info S (pk product);
            ShoppingResearchService.vector_score :=
              Py.max 0.0 (1.0 - distance product / 2.0) |})
      (take ShoppingResearchService.SEARCH_LIMIT
            (stable_sort (fun a b => Qleb (distance a) (distance b))
               (List.filter (fun p => negb (Store.status_excluded p)) queryset))).



(** * Properties *)

(** ** Stable sorting *)

Section SortFacts.
Context {A : Type} (before : A → A → bool).

Let R (x y : A) : Prop := before x y = true.

Lemma insert_sorted_perm x l : Permutation (insert_sorted before x l) (x :: l).
Proof.
  induction l as [|y l IH]; simpl; [done|].
  destruct (before x y); [done|].
  rewrite IH. apply perm_swap.
Qed.

Lemma stable_sort_perm l : Permutation (stable_sort before l) l.
Proof.
  induction l as [|x l IH]; simpl; [done|].
  rewrite insert_sorted_perm. by constructor.
Qed.

Lemma stable_sort_In l x : In x (stable_sort before l) ↔ In x l.
Proof.
  split; apply Permutation_in; [|symmetry]; apply stable_sort_perm.
Qed.

Hypothesis before_total : ∀ x y, before x y = true ∨ before y x = true.

Lemma insert_sorted_Sorted x l : Sorted R l → Sorted R (insert_sorted before x l).
Proof.
  induction 1 as [|y l Hl IH Hhd]; simpl.
  - repeat constructor.
  - destruct (before x y) eqn:Hxy.
    + constructor; [by constructor|]. by constructor.
    + constructor; [exact IH|].
      destruct l as [|z l]; simpl.
      * constructor. by destruct (before_total x y) as [H|H]; [congruence|].
      * destruct (before x z); constructor.
        -- by destruct (before_total x y) as [H|H]; [congruence|].
        -- by inversion Hhd.
Qed.

Lemma stable_sort_Sorted l : Sorted R (stable_sort before l).
Proof.
  induction l as [|x l IH]; simpl; [constructor|]. by apply insert_sorted_Sorted.
Qed.
End SortFacts.

Lemma Sorted_weaken {A : Type} (R1 R2 : A → A → Prop) l :
  (∀ x y, R1 x y → R2 x y) → Sorted R1 l → Sorted R2 l.
Proof.
  intros Himp. induction 1 as [|x l Hl IH Hhd]; constructor; [done|].
  destruct Hhd; constructor; auto.
Qed.

Lemma Qleb_le (a b : Q) : Qleb a b = true ↔ (a <= b)%Q.
Proof. apply Qle_bool_iff. Qed.

Lemma Qleb_total (a b : Q) : Qleb a b = true ∨ Qleb b a = true.
Proof.
  rewrite !Qleb_le. destruct (Qlt_le_dec a b) as [H|H]; [left; by apply Qlt_le_weak|by right].
Qed.

(** ** The category tree *)

Section CategoryTreeFacts.
Context (S : Store.t).

Lemma live_link_link c p : live_parent_link S c p → parent_link S c p.
Proof. intros (row & Hin & Hid & Hp & _). exists row. auto. Qed.

Lemma children_spec child cid :
  In child (Store.children S cid) ↔
  In child (Store.categories S) ∧ cat_parent_id child = Some cid ∧ cat_deleted child = false.
Proof.
  unfold Store.children. rewrite filter_In, andb_true_iff, negb_true_iff.
  rewrite bool_decide_eq_true. tauto.
Qed.

Lemma child_live_link child cid :
  In child (Store.children S cid) → live_parent_link S (cat_id child) cid.
Proof. rewrite children_spec. intros (Hin & Hp & Hd). exists child. auto. Qed.

Lemma live_link_child c cid :
  live_parent_link S c cid → ∃ child, In child (Store.children S cid) ∧ cat_id child = c.
Proof.
  intros (row & Hin & Hid & Hp & Hd). exists row. split; [|done].
  apply children_spec. auto.
Qed.
End CategoryTreeFacts.

(** The loop that extends [ids] with the collections of the children. *)
Section Extend.
Context (recur : Z → option (list Z)).

Lemma fold_extend_None cs : fold_left (extend recur) cs None = None.
Proof. induction cs as [|c cs IH]; simpl; auto. Qed.

Lemma fold_extend_Some cs acc r :
  fold_left (extend recur) cs (Some acc) = Some r ↔
  ∃ subs, Forall2 (fun c sub => recur (cat_id c) = Some sub) cs subs
          ∧ r = (acc ++ concat subs)%list.
Proof.
  revert acc. induction cs as [|c cs IH]; intros acc; simpl.
  - split.
    + intros [= <-]. exists []. split; [constructor|]. simpl. by rewrite app_nil_r.
    + intros (subs & HF & ->). inversion HF; subst. simpl. by rewrite app_nil_r.
  -       destruct (recur (cat_id c)) as [sub|] eqn:Hc; simpl.
    + rewrite IH. split.
      * intros (subs & HF & ->). exists (sub :: subs). split; [by constructor|].
        simpl. by rewrite app_assoc.
      * intros (subs & HF & ->). inversion HF as [|? sub' ? subs' Hsub HF']; subst.
        rewrite Hc in Hsub. injection Hsub as <-. exists subs'. split; [done|].
        simpl. by rewrite app_assoc.
    + rewrite fold_extend_None. split; [done|].
      intros (subs & HF & _). inversion HF; subst. congruence.
Qed.

Lemma fold_extend_fails cs acc :
  fold_left (extend recur) cs (Some acc) = None →
  ∃ c, In c cs ∧ recur (cat_id c) = None.
Proof.
  revert acc. induction cs as [|c cs IH]; intros acc; simpl; [done|].
  destruct (recur (cat_id c)) as [sub|] eqn:Hc; simpl.
  - intros H. destruct (IH _ H) as (c' & Hin & Hn). eauto.
  - intros _. eauto.
Qed.
End Extend.

Lemma Forall2_In_l {A B : Type} (R : A → B → Prop) l l' x :
  Forall2 R l l' → In x l → ∃ y, In y l' ∧ R x y.
Proof.
  induction 1 as [|a b l l' Hab HF IH]; simpl; [done|].
  intros [<-|Hin]; [eauto|]. destruct (IH Hin) as (y & Hy & HR). eauto.
Qed.

Lemma Forall2_In_r {A B : Type} (R : A → B → Prop) l l' y :
  Forall2 R l l' → In y l' → ∃ x, In x l ∧ R x y.
Proof.
  induction 1 as [|a b l l' Hab HF IH]; simpl; [done|].
  intros [<-|Hin]; [eauto|]. destruct (IH Hin) as (x & Hx & HR). eauto.
Qed.

(** A list with a repeated element splits around two of its occurrences. *)
Lemma repeated_split (l : list Z) :
  ¬ List.NoDup l → ∃ x l1 l2 l3, l = (l1 ++ x :: l2 ++ x :: l3)%list.
Proof.
  induction l as [|a l IH]; intros Hdup.
  - destruct Hdup. apply List.NoDup_nil.
  - destruct (in_dec Z.eq_dec a l) as [Hin|Hnin].
    + apply in_split in Hin as (l2 & l3 & ->). by exists a, [], l2, l3.
    + destruct IH as (x & l1 & l2 & l3 & ->).
      { intros Hnd. apply Hdup. by apply List.NoDup_cons. }
      by exists x, (a :: l1), l2, l3.
Qed.

Section Descendants.
Context (S : Store.t).

Lemma descendants_step depth cid :
  _get_descendant_category_ids S (Datatypes.S depth) cid
  = fold_left (extend (_get_descendant_category_ids S depth))
              (Store.children S cid) (Some [cid]).
Proof. reflexivity. Qed.

(** A deeper bound on the recursion does not change a result. *)
Lemma descendants_mono depth :
  ∀ cid ids, _get_descendant_category_ids S depth cid = Some ids →
  ∀ depth', (depth ≤ depth')%nat → _get_descendant_category_ids S depth' cid = Some ids.
Proof.
  induction depth as [|depth IH]; intros cid ids Hd depth' Hle; [done|].
  destruct depth' as [|depth']; [lia|].
  rewrite descendants_step in *.
  apply fold_extend_Some in Hd as (subs & HF & ->).
  apply fold_extend_Some. exists subs. split; [|done].
  clear -HF IH Hle. induction HF; constructor; auto.
  eapply IH; [eassumption|lia].
Qed.

(** When the recursion does not bottom out within [depth] calls, a
    descending path of that length exists. *)
Lemma descendants_fail_chain depth :
  ∀ cid, _get_descendant_category_ids S depth cid = None →
  ∃ path, length path = depth ∧ chain S cid path.
Proof.
  induction depth as [|depth IH]; intros cid Hd.
  - by exists [].
  - rewrite descendants_step in Hd.
    apply fold_extend_fails in Hd as (c & Hin & Hn).
    destruct (IH _ Hn) as (path & Hlen & Hch).
    exists (cat_id c :: path). simpl. split; [lia|].
    split; [by apply child_live_link|done].
Qed.

Lemma chain_reach path :
  ∀ top x, chain S top path → In x path → clos_trans Z (parent_link S) x top.
Proof.
  induction path as [|a path IH]; intros top x; simpl; [tauto|].
  intros [Hl Hc] [<-|Hin].
  - apply t_step. by apply live_link_link.
  - eapply t_trans; [by apply IH|]. apply t_step. by apply live_link_link.
Qed.

Lemma chain_suffix l1 :
  ∀ top x l2, chain S top (l1 ++ x :: l2)%list → chain S x l2.
Proof.
  induction l1 as [|a l1 IH]; intros top x l2; simpl.
  - tauto.
  - intros [_ Hc]. eauto.
Qed.

Lemma chain_in_table path :
  ∀ top, chain S top path → incl path (map cat_id (Store.categories S)).
Proof.
  induction path as [|a path IH]; intros top; simpl.
  - intros _ x [].
  - intros [(row & Hin & Hid & _) Hc] x [<-|Hx].
    + rewrite <- Hid. by apply in_map.
    + eapply IH; eauto.
Qed.

(** On a tree without cycles the collection ends before the nesting
    exceeds the number of rows. *)
Lemma descendants_terminates cid :
  acyclic S →
  is_Some (_get_descendant_category_ids S (Datatypes.S (length (Store.categories S))) cid).
Proof.
  intros Hacyclic.
  destruct (_get_descendant_category_ids S _ cid) as [ids|] eqn:Hd; [eauto|].
  exfalso. apply descendants_fail_chain in Hd as (path & Hlen & Hch).
  assert (Hdup : ¬ List.NoDup path).
  { intros Hnd.
    pose proof (NoDup_incl_length Hnd (chain_in_table _ _ Hch)) as Hle.
    rewrite length_map in Hle. lia. }
  apply repeated_split in Hdup as (x & l1 & l2 & l3 & ->).
  apply chain_suffix in Hch.
  apply (Hacyclic x). eapply chain_reach; [exact Hch|].
  apply in_or_app. right. by left.
Qed.

(** Every collected identifier is tied to the root by live rows. *)
Lemma descendants_sound depth :
  ∀ cid ids, _get_descendant_category_ids S depth cid = Some ids →
  ∀ c, In c ids → live_reaches S cid c.
Proof.
  induction depth as [|depth IH]; intros cid ids Hd c Hc; [done|].
  rewrite descendants_step in Hd.
  apply fold_extend_Some in Hd as (subs & HF & ->).
  apply in_app_or in Hc as [[<-|[]]|Hc]; [apply rt_refl|].
  apply in_concat in Hc as (sub & Hsub & Hc).
  destruct (Forall2_In_r _ _ _ _ HF Hsub) as (child & Hchild & Hrec).
  eapply rt_trans; [eapply IH; eassumption|].
  apply rt_step. by apply child_live_link.
Qed.

(** Every identifier tied to the root by live rows is collected. *)
Lemma descendants_complete top c :
  live_reaches S top c →
  ∀ depth ids, _get_descendant_category_ids S depth top = Some ids → In c ids.
Proof.
  intros Hreach. apply clos_rt_rtn1 in Hreach.
  induction Hreach as [|y z Hyz Hcy IH]; intros depth ids Hd.
  - destruct depth as [|depth]; [done|].
    rewrite descendants_step in Hd.
    apply fold_extend_Some in Hd as (subs & HF & ->). by left.
  - destruct depth as [|depth]; [done|].
    rewrite descendants_step in Hd.
    apply fold_extend_Some in Hd as (subs & HF & ->).
    apply live_link_child in Hyz as (child & Hchild & <-).
    destruct (Forall2_In_l _ _ _ _ HF Hchild) as (sub & Hsub & Hrec).
    apply in_or_app. right. apply in_concat. exists sub. split; [done|].
    eapply IH. exact Hrec.
Qed.
End Descendants.

Lemma parents_before_acyclic (S : Store.t) : parents_before S = true → acyclic S.
Proof.
  intros Hcheck.
  assert (Hlt : ∀ c top, clos_trans Z (parent_link S) c top → top < c).
  { induction 1 as [c p (row & Hin & <- & Hp)|c mid top _ IH1 _ IH2]; [|lia].
    unfold parents_before in Hcheck. rewrite forallb_forall in Hcheck.
    specialize (Hcheck row Hin). rewrite Hp in Hcheck. lia. }
  intros c Hc. apply Hlt in Hc. lia.
Qed.

(** C9, as amended.  On a category table without cycles the descendant
    collection returns (for every nesting bound above the number of rows,
    with the same list), the list contains the identifier it was called
    with, and its members are exactly the identifiers tied to it by a
    chain of parent references through rows that are not soft-deleted. *)
Theorem C9_descendants_collect_live_subtree (S : Store.t) (cid : Z) :
  acyclic S →
  ∃ ids,
    (∀ depth, (length (Store.categories S) < depth)%nat →
              _get_descendant_category_ids S depth cid = Some ids)
    ∧ In cid ids
    ∧ (∀ c, In c ids ↔ live_reaches S cid c).
Proof.
  intros Hacyclic.
  destruct (descendants_terminates S cid Hacyclic) as [ids Hids].
  exists ids. split; [|split].
  - intros depth Hdepth. eapply descendants_mono; [exact Hids|lia].
  - eapply descendants_complete; [apply rt_refl|exact Hids].
  - intros c. split.
    + by eapply descendants_sound.
    + intros Hc. by eapply descendants_complete.
Qed.

Lemma C9_descendants_collect_live_subtree_witness :
  acyclic cpu_store
  ∧ ∃ ids,
      (∀ depth, (length (Store.categories cpu_store) < depth)%nat →
                _get_descendant_category_ids cpu_store depth 21 = Some ids)
      ∧ In 21 ids
      ∧ (∀ c, In c ids ↔ live_reaches cpu_store 21 c).
Proof.
  split.
  - apply parents_before_acyclic. reflexivity.
  - apply (C9_descendants_collect_live_subtree cpu_store 21).
    apply parents_before_acyclic. reflexivity.
Defined.

Example descendants_of_cpu :
  _get_descendant_category_ids cpu_store 4 21 = Some [21; 22; 23].
Proof. reflexivity. Qed.

(** C9, as stated, fails on a table with a soft-deleted row: category 3 is
    reached from category 1 by parent references (3 -> 2 -> 1), the table
    has no cycle, and the collection for 1 is [[1]]. *)
Lemma C9_soft_deleted_child_hides_subtree :
  acyclic hidden_store
  ∧ reaches hidden_store 1 3
  ∧ _get_descendant_category_ids hidden_store 4 1 = Some [1]
  ∧ ¬ In 3 [1].
Proof.
  split; [apply parents_before_acyclic; reflexivity|].
  split; [|split; [reflexivity|]].
  - apply rt_trans with (y := 2); apply rt_step.
    + exists (category 3 "CPU" (Some 2) false). simpl. auto.
    + exists (category 2 "부품" (Some 1) true). simpl. auto.
  - simpl. intros [H|[]]. discriminate.
Qed.

(** ** The two-step flow: threshold, prices, performance score *)

Section TwoStepFacts.
Import ShoppingResearchService.



(** The selection never has more than five members, and has five when the
    bar alone provides them. *)
Lemma select_top_length (fused_results : list Fused) :
  length (select_top fused_results) = Nat.min 5 (length fused_results).
Proof.
  unfold select_top, TOP_K.
  set (high := List.filter _ fused_results).
  assert (Hhigh : (length high ≤ length fused_results)%nat) by apply filter_length_le.
  destruct (Nat.ltb_spec (length high) 5) as [Hlt|Hge].
  - destruct fused_results; [done|]. rewrite take_take, length_take. lia.
  - rewrite length_take. lia.
Qed.

Lemma key_le_total (a b : Q * Z * Q) : key_le a b = true ∨ key_le b a = true.
Proof.
  destruct a as [[a1 a2] a3], b as [[b1 b2] b3]. unfold key_le.
  destruct (Qltb a1 b1) eqn:Hab; [by left|].
  destruct (Qltb b1 a1) eqn:Hba; [by right|].
  destruct (Z.ltb_spec a2 b2); [by left|].
  destruct (Z.ltb_spec b2 a2); [by right|].
  apply Qleb_total.
Qed.

Lemma key_le_score (a b : Q * Z * Q) : key_le a b = true → (a.1.1 <= b.1.1)%Q.
Proof.
  destruct a as [[a1 a2] a3], b as [[b1 b2] b3]. unfold key_le, Qltb. simpl.
  destruct (Qle_bool b1 a1) eqn:Hba; simpl.
  - destruct (Qle_bool a1 b1) eqn:Hab; simpl; [|done].
    intros _. by apply Qle_bool_iff.
  - intros _. destruct (Qlt_le_dec a1 b1) as [H|H]; [by apply Qlt_le_weak|].
    apply Qle_bool_iff in H. congruence.
Qed.

(** The fused list of the two-step flow is in descending order of the
    combined score. *)
Lemma fused_descending (vector_results : list Hit) :
  StronglySorted (fun a b => (combined_score b <= combined_score a)%Q)
                 (_fuse_results vector_results).
Proof.
  unfold _fuse_results. apply Sorted_StronglySorted.
  - intros a b c Hab Hbc. by eapply Qle_trans.
  - eapply Sorted_weaken; [|apply stable_sort_Sorted].
    + intros x y Hxy. by apply key_le_score in Hxy.
    + intros x y. apply key_le_total.
Qed.

(** The survey analysis on a reply that is decoded. *)
Lemma analyze_survey_decoded (E : Env) (user_query text : string)
      (survey_contents : list Survey) (raw : RawIntent) :
  generate_content (clients E) (survey_prompt E user_query survey_contents)
  = Ok (ReplyStr text) →
  text ≠ "" →
  loads_intent E text = Ok raw →
  _analyze_survey E user_query survey_contents
  = match keep_max_price (raw_max_price raw) with
    | Ok upper =>
        {| product_category := raw_product_category raw;
           search_query := default user_query (raw_search_query raw);
           keywords := default [user_query] (raw_keywords raw);
           priorities := default [] (raw_priorities raw);
           min_price := raw_min_price raw;
           max_price := upper;
           user_needs := default user_query (raw_user_needs raw) |}
    | Raise _ => fallback_intent user_query survey_contents
    end.
Proof.
  unfold survey_prompt. intros Hreply Hne Hloads. unfold _analyze_survey.
  rewrite Hreply. simpl.
  destruct text as [|c text]; [done|]. simpl. rewrite Hloads. simpl.
  destruct (keep_max_price (raw_max_price raw)) as [upper|e]; simpl; [|done].
  unfold keep_min_price. by destruct (raw_min_price raw).
Qed.

Lemma Qceiling_le (x : Q) (n : Z) : (Qceiling x ≤ n)%Z ↔ (x <= inject_Z n)%Q.
Proof.
  split.
  - intros H. eapply Qle_trans; [apply Qle_ceiling|]. by rewrite <- Zle_Qle.
  - intros H. apply Qceiling_resp_le in H. by rewrite Qceiling_Z in H.
Qed.

Lemma Qfloor_ge (x : Q) (n : Z) : (n ≤ Qfloor x)%Z ↔ (inject_Z n <= x)%Q.
Proof.
  split.
  - intros H. eapply Qle_trans; [|apply Qfloor_le]. by rewrite <- Zle_Qle.
  - intros H. apply Qfloor_resp_le in H. by rewrite Qfloor_Z in H.
Qed.

Lemma Qltb_true (a b : Q) : Qltb a b = true ↔ (a < b)%Q.
Proof.
  unfold Qltb. rewrite negb_true_iff. split.
  - intros H. apply Qnot_le_lt. intros Hle. apply Qle_bool_iff in Hle. congruence.
  - intros H. destruct (Qle_bool b a) eqn:Hba; [|done].
    apply Qle_bool_iff in Hba. by apply Qlt_not_le in H.
Qed.

Lemma Qltb_false (a b : Q) : Qltb a b = false ↔ (b <= a)%Q.
Proof. unfold Qltb. rewrite negb_false_iff. apply Qle_bool_iff. Qed.

(** The integer bounds of the two filters select the prices within the
    bounds as numbers. *)
Lemma lte_bound_spec (hi : Number) (price : Z) :
  (0 <= number_value hi)%Q →
  (price ≤ lte_bound hi)%Z ↔ (inject_Z price <= number_value hi)%Q.
Proof.
  destruct hi as [n|x]; simpl; intros Hpos.
  - by rewrite Zle_Qle.
  - destruct (Qltb x 0) eqn:Hneg; [apply Qltb_true in Hneg; lra|]. apply Qfloor_ge.
Qed.

Lemma gte_bound_spec (E : Env) (lo : Number) (price : Z) :
  ∃ n, gte_bound E (JNum lo) = Ok n
       ∧ ((n ≤ price)%Z ↔ (number_value lo <= inject_Z price)%Q).
Proof.
  destruct lo as [n|x]; simpl; eexists; (split; [done|]).
  - by rewrite Zle_Qle.
  - apply Qceiling_le.
Qed.

(** C8, as amended.  When the decoded survey analysis carries two numeric
    prices, the upper one positive and the lower one above it, the intent
    keeps both as they were extracted, the range check clears both (it
    does not raise and does not exchange them), and the request is answered
    exactly as it is when the reply carries no price at all: the search is
    not constrained by price. *)
Theorem C8_invalid_price_range_discarded
        (E : Env) (now : Z) (cache : Cache) (search_id user_query text : string)
        (survey_contents : list Survey) (raw : RawIntent) (lo hi : Number) :
  let survey := enrich_survey (_validate_search_id now cache search_id) survey_contents in
  generate_content (clients E) (survey_prompt E user_query survey) = Ok (ReplyStr text) →
  text ≠ "" →
  loads_intent E text = Ok raw →
  raw_min_price raw = Some (JNum lo) →
  raw_max_price raw = Some (JNum hi) →
  (0 < number_value hi)%Q →
  (number_value hi < number_value lo)%Q →
  let intent := _analyze_survey E user_query survey in
  min_price intent = Some (JNum lo)
  ∧ max_price intent = Some hi
  ∧ validate_price_range (min_price intent) (max_price intent) = Ok (None, None)
  ∧ get_recommendations E now cache search_id user_query survey_contents
    = get_recommendations (without_prices E) now cache search_id user_query survey_contents.
Proof.
  intros survey Hreply Hne Hloads Hlo Hhi Hpos Hlt intent.
  assert (Hintent : intent
                    = {| product_category := raw_product_category raw;
                         search_query := default user_query (raw_search_query raw);
                         keywords := default [user_query] (raw_keywords raw);
                         priorities := default [] (raw_priorities raw);
                         min_price := Some (JNum lo);
                         max_price := Some hi;
                         user_needs := default user_query (raw_user_needs raw) |}).
  { subst intent. rewrite (analyze_survey_decoded E _ _ _ raw Hreply Hne Hloads).
    rewrite Hhi, Hlo. simpl. apply Qltb_true in Hpos. by rewrite Hpos. }
  assert (Hclear : _analyze_survey (without_prices E) user_query survey
                   = {| product_category := raw_product_category raw;
                        search_query := default user_query (raw_search_query raw);
                        keywords := default [user_query] (raw_keywords raw);
                        priorities := default [] (raw_priorities raw);
                        min_price := None;
                        max_price := None;
                        user_needs := default user_query (raw_user_needs raw) |}).
  { rewrite (analyze_survey_decoded (without_prices E) _ text _ (clear_prices raw));
      [done|exact Hreply|exact Hne|]. simpl. by rewrite Hloads. }
  assert (Hcheck : validate_price_range (Some (JNum lo)) (Some hi) = Ok (None, None)).
  { simpl. apply Qltb_true in Hlt. by rewrite Hlt. }
  rewrite Hintent. simpl. split; [done|]. split; [done|]. split; [exact Hcheck|].
  unfold get_recommendations. fold survey. fold intent. rewrite Hintent, Hclear.
  cbn [min_price max_price]. rewrite Hcheck. reflexivity.
Qed.

Lemma C8_invalid_price_range_discarded_witness :
  let E := budget_env (Some (won 2000000)) (Some (won 500000)) in
  let intent := _analyze_survey E "노트북 추천" four_answers in
  min_price intent = Some (won 2000000)
  ∧ max_price intent = Some (JInt 500000)
  ∧ validate_price_range (min_price intent) (max_price intent) = Ok (None, None)
  ∧ get_recommendations E 0 ∅ "sr-3f2a9c1e" "노트북 추천" four_answers
    = get_recommendations (without_prices E) 0 ∅ "sr-3f2a9c1e" "노트북 추천" four_answers.
Proof.
  apply (C8_invalid_price_range_discarded
           (budget_env (Some (won 2000000)) (Some (won 500000))) 0 ∅ "sr-3f2a9c1e"
           "노트북 추천" "{...}" four_answers
           (budget_intent (Some (won 2000000)) (Some (won 500000)))
           (JInt 2000000) (JInt 500000)).
  - reflexivity.
  - discriminate.
  - reflexivity.
  - reflexivity.
  - reflexivity.
  - reflexivity.
  - reflexivity.
Defined.

(** The request of the witness shows both laptops, the one below the lower
    price included. *)
Example inverted_range_answer :
  (fun reply => map (fun a => (product_code a, price a)) (resp_product reply))
  <$> match get_recommendations (budget_env (Some (won 2000000)) (Some (won 500000)))
                                0 ∅ "sr-3f2a9c1e" "노트북 추천" four_answers with
      | Ok reply => Some reply
      | Raise _ => None
      end
  = Some [(1002, 1300000); (1001, 1500000)].
Proof. vm_compute. reflexivity. Qed.

(** C8, as stated, fails when the extracted upper price is 0 or negative:
    with 2,000,000 and 0 extracted (both present, the lower above the
    upper), the survey analysis drops the upper price first, the range
    check then sees one bound only and keeps the lower one, and the search
    is constrained by it: none of the two laptops is shown, while the same
    request without prices shows both. *)
Lemma C8_nonpositive_upper_keeps_lower :
  let E := budget_env (Some (won 2000000)) (Some (won 0)) in
  let intent := _analyze_survey E "노트북 추천" four_answers in
  raw_min_price (budget_intent (Some (won 2000000)) (Some (won 0))) = Some (won 2000000)
  ∧ raw_max_price (budget_intent (Some (won 2000000)) (Some (won 0))) = Some (won 0)
  ∧ min_price intent = Some (won 2000000)
  ∧ max_price intent = None
  ∧ validate_price_range (min_price intent) (max_price intent)
    = Ok (Some (won 2000000), None)
  ∧ get_recommendations E 0 ∅ "sr-3f2a9c1e" "노트북 추천" four_answers
    = Ok {| resp_user_query := "노트북 추천"; resp_product := [] |}
  ∧ (∃ reply,
        get_recommendations (without_prices E) 0 ∅ "sr-3f2a9c1e" "노트북 추천" four_answers
        = Ok reply
        ∧ map product_code (resp_product reply) = [1002; 1001]).
Proof.
  vm_compute. repeat split; try reflexivity.
  eexists. split; reflexivity.
Qed.

Lemma py_min_Qmin (a b : Q) : (Py.min a b == Qmin a b)%Q.
Proof.
  unfold Py.min, Qltb. destruct (Qle_bool a b) eqn:Hab; simpl.
  - apply Qle_bool_iff in Hab. symmetry. by apply Q.min_l.
  - assert (Hba : (b <= a)%Q).
    { destruct (Qlt_le_dec b a) as [H|H]; [by apply Qlt_le_weak|].
      apply Qle_bool_iff in H. congruence. }
    symmetry. by apply Q.min_r.
Qed.

Lemma py_min_le_l (a b : Q) : (Py.min a b <= a)%Q.
Proof. rewrite py_min_Qmin. apply Q.le_min_l. Qed.

Lemma py_min_ge (a b c : Q) : (c <= a)%Q → (c <= b)%Q → (c <= Py.min a b)%Q.
Proof. intros Ha Hb. rewrite py_min_Qmin. by apply Q.min_glb. Qed.

(** C6.  For a rating in [0, 5] (or none), a count that is not negative and
    a combined score in [0, 1], the performance score is the value of the
    formula of the specification and lies in [0, 1]. *)
Theorem C6_performance_score_bounded (product : Product) (score : Q) :
  (0 <= score <= 1)%Q →
  0 <= review_count product →
  (∀ r, review_rating product = Some r → (0 <= r <= 5)%Q) →
  (_calculate_performance_score product score
   == performance_formula score (review_rating product) (review_count product))%Q
  ∧ (0 <= _calculate_performance_score product score <= 1)%Q.
Proof.
  intros Hscore Hcount Hrating.
  unfold _calculate_performance_score, performance_formula.
  set (rating := default 0%Q (review_rating product)).
  assert (Hr : (0 <= rating)%Q).
  { subst rating. destruct (review_rating product) as [r|]; simpl; [|lra].
    by apply Hrating. }
  assert (Hc : (0 <= inject_Z (review_count product))%Q).
  { change 0%Q with (inject_Z 0). by rewrite <- Zle_Qle. }
  split.
  - rewrite !py_min_Qmin. apply Q.min_compat; reflexivity.
  - split; [|eapply Qle_trans; [apply py_min_le_l|lra]].
    apply py_min_ge; [lra|].
    set (reviews := Py.min (inject_Z (review_count product) / 1000) 0.1).
    assert (Hreviews : (0 <= reviews)%Q).
    { apply py_min_ge; [|lra]. unfold Qdiv. change (/ 1000)%Q with (1 # 1000)%Q. lra. }
    unfold Qdiv. change (/ 25)%Q with (1 # 25)%Q. lra.
Qed.

Lemma C6_performance_score_bounded_witness :
  (_calculate_performance_score laptop_b 1
   == performance_formula 1 (review_rating laptop_b) (review_count laptop_b))%Q
  ∧ (0 <= _calculate_performance_score laptop_b 1 <= 1)%Q.
Proof.
  apply (C6_performance_score_bounded laptop_b 1).
  - split; discriminate.
  - simpl. lia.
  - intros r [= <-]. split; discriminate.
Defined.

(** The cap at work: 10,000 reviews, rating 5 and score 1 give exactly 1. *)
Example performance_score_cap : (_calculate_performance_score laptop_b 1 == 1)%Q.
Proof. reflexivity. Qed.

(** C10.  When the survey analysis is decoded, the lower bound of the
    intent is the extracted one as it is (so 0 stays 0), and an extracted
    upper bound that is 0 or negative becomes [None]: it survives the range
    check as [None] and excludes no product. *)
Theorem C10_nonpositive_max_price_dropped
        (E : Env) (user_query text : string) (survey_contents : list Survey)
        (raw : RawIntent) (m : Number) :
  generate_content (clients E)
    (SHOPPING_RESEARCH_ANALYSIS_PROMPT E user_query
       (join nl (map format_survey_item survey_contents))) = Ok (ReplyStr text) →
  text ≠ "" →
  loads_intent E text = Ok raw →
  raw_max_price raw = Some (JNum m) →
  (number_value m <= 0)%Q →
  let intent := _analyze_survey E user_query survey_contents in
  min_price intent = raw_min_price raw
  ∧ (raw_min_price raw = Some (JNum (JInt 0)) → min_price intent = Some (JNum (JInt 0)))
  ∧ max_price intent = None
  ∧ validate_price_range (min_price intent) (max_price intent) = Ok (min_price intent, None)
  ∧ (∀ lower p, price_filter lower (lte_bound <$> max_price intent) p
                = price_filter lower None p)
  ∧ (∀ p, price_filter None (lte_bound <$> max_price intent) p = true).
Proof.
  intros Hreply Hne Hloads Hmax Hm intent. subst intent.
  rewrite (analyze_survey_decoded E _ _ _ raw Hreply Hne Hloads).
  rewrite Hmax. simpl.
  apply Qltb_false in Hm. rewrite Hm. simpl.
  split; [done|]. split; [auto|]. split; [done|].
  split; [by destruct (raw_min_price raw) as [[lo|s|]|]|]. done.
Qed.

Lemma C10_nonpositive_max_price_dropped_witness :
  let intent := _analyze_survey zero_budget_env "노트북 추천" one_answer in
  min_price intent = Some (JNum (JInt 0))
  ∧ (Some (JNum (JInt 0)) = Some (JNum (JInt 0)) → min_price intent = Some (JNum (JInt 0)))
  ∧ max_price intent = None
  ∧ validate_price_range (min_price intent) (max_price intent) = Ok (min_price intent, None)
  ∧ (∀ lower p, price_filter lower (lte_bound <$> max_price intent) p
                = price_filter lower None p)
  ∧ (∀ p, price_filter None (lte_bound <$> max_price intent) p = true).
Proof.
  apply (C10_nonpositive_max_price_dropped zero_budget_env "노트북 추천" "{...}"
           one_answer zero_budget_intent (JInt 0)).
  - reflexivity.
  - discriminate.
  - reflexivity.
  - reflexivity.
  - discriminate.
Defined.
End TwoStepFacts.

(** ** Insertion-ordered dictionaries *)

Section DictFacts.
Context {V : Type}.
Implicit Types (d : list (string * V)) (k : string) (v : V).

Lemma dict_get_set_eq k v d : dict_get k (dict_set k v d) = Some v.
Proof.
  induction d as [|[k' v'] d IH]; simpl.
  - by rewrite String.eqb_refl.
  - destruct (String.eqb k k') eqn:Hk; simpl; rewrite Hk; [done|exact IH].
Qed.

Lemma dict_get_set_ne k k' v d : k ≠ k' → dict_get k' (dict_set k v d) = dict_get k' d.
Proof.
  intros Hne. induction d as [|[k0 v0] d IH]; simpl.
  - destruct (String.eqb_spec k' k); [congruence|done].
  - destruct (String.eqb_spec k k0) as [->|Hk0]; simpl.
    + destruct (String.eqb_spec k' k0); [congruence|done].
    + destruct (String.eqb_spec k' k0); [done|exact IH].
Qed.

Lemma dict_get_In k v d : dict_get k d = Some v → In v (dict_values d).
Proof.
  induction d as [|[k' v'] d IH]; simpl; [done|].
  destruct (String.eqb k k'); [intros [= ->]; by left|]. intros H. right. by apply IH.
Qed.

Lemma dict_In_keys v d : In v (dict_values d) → ∃ k, In (k, v) d.
Proof.
  unfold dict_values. rewrite in_map_iff. intros ([k v'] & <- & Hin). by exists k.
Qed.

Lemma dict_get_None k d : dict_get k d = None ↔ ¬ In k (map fst d).
Proof.
  induction d as [|[k' v'] d IH]; simpl; [tauto|].
  destruct (String.eqb_spec k k') as [->|Hne].
  - split; [done|]. intros H. destruct H. by left.
  - rewrite IH. split; [intros H [?|?]; [congruence|tauto]|tauto].
Qed.

Lemma dict_set_keys k v d :
  map fst (dict_set k v d)
  = match dict_get k d with
    | Some _ => map fst d
    | None => (map fst d ++ [k])%list
    end.
Proof.
  induction d as [|[k' v'] d IH]; simpl; [done|].
  destruct (String.eqb k k'); simpl; [done|].
  rewrite IH. by destruct (dict_get k d).
Qed.

Lemma dict_set_keys_In k v d x :
  In x (map fst (dict_set k v d)) ↔ x = k ∨ In x (map fst d).
Proof.
  rewrite dict_set_keys. destruct (dict_get k d) as [v'|] eqn:Hget.
  - split; [tauto|]. intros [->|H]; [|done].
    destruct (in_dec string_dec k (map fst d)) as [Hin|Hnin]; [done|].
    apply dict_get_None in Hnin. congruence.
  - rewrite in_app_iff. simpl. split; [intros [?|[?|[]]]; auto|intros [?|?]; auto].
Qed.

Lemma dict_set_NoDup k v d : List.NoDup (map fst d) → List.NoDup (map fst (dict_set k v d)).
Proof.
  intros Hnd. rewrite dict_set_keys. destruct (dict_get k d) eqn:Hget; [done|].
  apply dict_get_None in Hget.
  eapply Permutation_NoDup; [apply Permutation_cons_append|].
  by apply List.NoDup_cons.
Qed.
End DictFacts.

Section MoreDictFacts.
Context {V : Type}.
Implicit Types (d : list (string * V)) (k : string) (v : V).

Lemma dict_set_fresh k v d : ¬ In k (map fst d) → dict_set k v d = (d ++ [(k, v)])%list.
Proof.
  induction d as [|[k' v'] d IH]; simpl; [done|].
  intros Hnin. destruct (String.eqb_spec k k') as [->|Hne]; [tauto|].
  rewrite IH; [done|tauto].
Qed.

Lemma dict_set_In k v d k0 v0 :
  In (k0, v0) (dict_set k v d) → (k0, v0) = (k, v) ∨ In (k0, v0) d.
Proof.
  induction d as [|[k' v'] d IH]; simpl.
  - intros [[= <- <-]|[]]. by left.
  - destruct (String.eqb_spec k k') as [->|Hne]; simpl.
    + intros [[= <- <-]|H]; auto.
    + intros [H|H]; [auto|]. destruct (IH H); auto.
Qed.

Lemma dict_get_pair k v d : dict_get k d = Some v → In (k, v) d.
Proof.
  induction d as [|[k' v'] d IH]; simpl; [done|].
  destruct (String.eqb_spec k k') as [->|Hne]; [intros [= ->]; by left|auto].
Qed.
End MoreDictFacts.

(** ** The weighted-sum fuser of the single-step flow *)

Section FuseFacts.
Import LLMRecommendationService.

Lemma loaded_keys vec : map fst (loaded vec) = map pid vec.
Proof. unfold loaded. rewrite map_map. done. Qed.

(** The first loop, on candidates with distinct codes, lists them in their
    order. *)
Lemma load_distinct vec :
  ∀ d, List.NoDup (map fst d ++ map pid vec) →
       fold_left (fun res i => dict_set (pid i) i res) vec d = (d ++ loaded vec)%list.
Proof.
  induction vec as [|i vec IH]; intros d Hnd; simpl.
  - by rewrite app_nil_r.
  - assert (Hfresh : ¬ In (pid i) (map fst d)).
    { intros Hin. apply NoDup_remove_2 in Hnd. apply Hnd.
      apply in_or_app. by left. }
    rewrite (dict_set_fresh _ _ _ Hfresh).
    rewrite IH.
    + by rewrite <- app_assoc.
    + rewrite map_app. simpl. rewrite <- app_assoc. exact Hnd.
Qed.

Lemma loaded_get vec v :
  List.NoDup (map pid vec) → In v vec → dict_get (pid v) (loaded vec) = Some v.
Proof.
  induction vec as [|i vec IH]; simpl; [done|].
  intros Hnd [->|Hin].
  - by rewrite String.eqb_refl.
  - inversion Hnd as [|? ? Hnin Hnd']; subst.
    destruct (String.eqb_spec (pid v) (pid i)) as [Heq|_]; [|by apply IH].
    destruct Hnin. rewrite <- Heq. by apply in_map.
Qed.

Lemma loaded_keyed vec : keyed (loaded vec).
Proof.
  intros k v. unfold loaded. rewrite in_map_iff. by intros (i & [= <- <-] & _).
Qed.

Lemma merge_get_eq d i :
  dict_get (pid i) (merge d i)
  = Some (match dict_get (pid i) d with
          | Some r => set_score r (score r * 0.7 + score i * 0.3)
          | None => i
          end).
Proof. unfold merge. destruct (dict_get (pid i) d); apply dict_get_set_eq. Qed.

Lemma merge_get_ne d i x : x ≠ pid i → dict_get x (merge d i) = dict_get x d.
Proof.
  intros Hne. unfold merge.
  destruct (dict_get (pid i) d); by apply dict_get_set_ne.
Qed.

Lemma merge_keys d i x :
  In x (map fst (merge d i)) ↔ x = pid i ∨ In x (map fst d).
Proof. unfold merge. destruct (dict_get (pid i) d); apply dict_set_keys_In. Qed.

Lemma merge_NoDup d i : List.NoDup (map fst d) → List.NoDup (map fst (merge d i)).
Proof. unfold merge. destruct (dict_get (pid i) d); apply dict_set_NoDup. Qed.

Lemma merge_keyed d i : keyed d → keyed (merge d i).
Proof.
  intros Hd k v. unfold merge.
  destruct (dict_get (pid i) d) as [r|] eqn:Hget; intros Hin;
    apply dict_set_In in Hin as [[= -> ->]|Hin]; eauto.
  apply dict_get_pair in Hget. by apply Hd in Hget.
Qed.

(** The second loop, on candidates with distinct codes. *)
Lemma merged_untouched key :
  ∀ d x, ¬ In x (map pid key) → dict_get x (fold_left merge key d) = dict_get x d.
Proof.
  induction key as [|i key IH]; intros d x Hnin; simpl; [done|].
  simpl in Hnin. rewrite IH by tauto. apply merge_get_ne. intros ->. tauto.
Qed.

Lemma merged_get key :
  List.NoDup (map pid key) →
  ∀ d k, In k key →
    dict_get (pid k) (fold_left merge key d)
    = Some (match dict_get (pid k) d with
            | Some r => set_score r (score r * 0.7 + score k * 0.3)
            | None => k
            end).
Proof.
  induction key as [|i key IH]; intros Hnd d k; simpl; [done|].
  inversion Hnd as [|? ? Hnin Hnd']; subst.
  intros [->|Hin].
  - rewrite merged_untouched by done. apply merge_get_eq.
  - rewrite (IH Hnd' _ _ Hin). rewrite merge_get_ne; [done|].
    intros Heq. apply Hnin. rewrite <- Heq. by apply in_map.
Qed.

Lemma merged_keys key :
  ∀ d x, In x (map fst (fold_left merge key d)) ↔ In x (map fst d) ∨ In x (map pid key).
Proof.
  induction key as [|i key IH]; intros d x; simpl; [tauto|].
  rewrite IH, merge_keys. split; [intros [[->|?]|?]|intros [?|[<-|?]]]; auto.
Qed.

Lemma merged_NoDup key :
  ∀ d, List.NoDup (map fst d) → List.NoDup (map fst (fold_left merge key d)).
Proof.
  induction key as [|i key IH]; intros d Hd; simpl; [done|].
  apply IH. by apply merge_NoDup.
Qed.

Lemma merged_keyed key : ∀ d, keyed d → keyed (fold_left merge key d).
Proof.
  induction key as [|i key IH]; intros d Hd; simpl; [done|].
  apply IH. by apply merge_keyed.
Qed.

Lemma keyed_values d : keyed d → map pid (dict_values d) = map fst d.
Proof.
  intros Hd. unfold dict_values. rewrite map_map.
  apply map_ext_in. intros [k v] Hin. simpl. by apply Hd.
Qed.

Lemma fuse_unfold vec key :
  List.NoDup (map pid vec) →
  _fuse_results vec key
  = stable_sort (fun x y => Qleb (score y) (score x))
                (dict_values (fold_left merge key (loaded vec))).
Proof.
  intros Hnd. unfold _fuse_results.
  rewrite (load_distinct vec []) by done. done.
Qed.

Lemma NoDup_map_eq {A B : Type} (g : A → B) (l : list A) (x y : A) :
  List.NoDup (map g l) → In x l → In y l → g x = g y → x = y.
Proof.
  induction l as [|a l IH]; simpl; [done|].
  intros Hnd. inversion Hnd as [|? ? Hnin Hnd']; subst.
  intros [->|Hx] [->|Hy] Heq; auto.
  - destruct Hnin. rewrite Heq. by apply in_map.
  - destruct Hnin. rewrite <- Heq. by apply in_map.
Qed.

(** C5.  On two candidate lists in each of which a product appears at most
    once, the fuser gives a product of both paths the score
    [vector*0.7 + keyword*0.3], keeps a product of one path only as it
    is (its score unchanged), returns every product once and nothing else
    (every entry is one of these three), in descending order of the
    combined score. *)
Theorem C5_weighted_sum_fusion (vec key : list Item) :
  List.NoDup (map pid vec) →
  List.NoDup (map pid key) →
  let fused := _fuse_results vec key in
  (∀ v k, In v vec → In k key → pid v = pid k →
          ∃ f, In f fused ∧ product f = product v ∧ mall_info f = mall_info v
               ∧ score f = (score v * 0.7 + score k * 0.3)%Q)
  ∧ (∀ k, In k key → ¬ In (pid k) (map pid vec) → In k fused)
  ∧ (∀ v, In v vec → ¬ In (pid v) (map pid key) → In v fused)
  ∧ (∀ f, In f fused →
          (∃ v k, In v vec ∧ In k key ∧ pid v = pid k
                  ∧ product f = product v ∧ mall_info f = mall_info v
                  ∧ score f = (score v * 0.7 + score k * 0.3)%Q)
          ∨ (In f key ∧ ¬ In (pid f) (map pid vec))
          ∨ (In f vec ∧ ¬ In (pid f) (map pid key)))
  ∧ List.NoDup (map pid fused)
  ∧ StronglySorted (fun a b => (score b <= score a)%Q) fused.
Proof.
  intros Hvec Hkey fused. subst fused. rewrite (fuse_unfold _ _ Hvec).
  set (d := fold_left merge key (loaded vec)).
  set (fused := stable_sort _ (dict_values d)).
  assert (Hkeyed : keyed d) by apply merged_keyed, loaded_keyed.
  assert (Hnd : List.NoDup (map fst d)).
  { apply merged_NoDup. by rewrite loaded_keys. }
  assert (Hboth : ∀ v k, In v vec → In k key → pid v = pid k →
                         In (set_score v (score v * 0.7 + score k * 0.3)) fused).
  { intros v k Hv Hk Hpid. apply stable_sort_In. apply (dict_get_In (pid k)).
    subst d. rewrite (merged_get _ Hkey _ _ Hk).
    by rewrite <- Hpid, (loaded_get _ _ Hvec Hv). }
  assert (Hkonly : ∀ k, In k key → ¬ In (pid k) (map pid vec) → In k fused).
  { intros k Hk Hnin. apply stable_sort_In. apply (dict_get_In (pid k)).
    subst d. rewrite (merged_get _ Hkey _ _ Hk).
    rewrite <- loaded_keys in Hnin. apply dict_get_None in Hnin. by rewrite Hnin. }
  assert (Hvonly : ∀ v, In v vec → ¬ In (pid v) (map pid key) → In v fused).
  { intros v Hv Hnin. apply stable_sort_In. apply (dict_get_In (pid v)).
    subst d. rewrite (merged_untouched _ _ _ Hnin). by apply loaded_get. }
  assert (Hfrom : ∀ f, In f fused → In (pid f) (map pid vec) ∨ In (pid f) (map pid key)).
  { intros f Hf. apply stable_sort_In in Hf.
    assert (Hin : In (pid f) (map fst d)).
    { rewrite <- (keyed_values _ Hkeyed). by apply in_map. }
    subst d. apply merged_keys in Hin. by rewrite loaded_keys in Hin. }
  assert (Honce : List.NoDup (map pid fused)).
  { eapply Permutation_NoDup.
    - apply Permutation_map. symmetry. apply stable_sort_perm.
    - by rewrite (keyed_values _ Hkeyed). }
  split.
  { intros v k Hv Hk Hpid. eexists. split; [by apply (Hboth v k)|]. done. }
  split; [exact Hkonly|]. split; [exact Hvonly|]. split.
  { intros f Hf.
    destruct (in_dec string_dec (pid f) (map pid vec)) as [Hv|Hv];
      destruct (in_dec string_dec (pid f) (map pid key)) as [Hk|Hk].
    - left. apply in_map_iff in Hv as (v & Hpv & Hv). apply in_map_iff in Hk as (k & Hpk & Hk).
      exists v, k. split; [done|]. split; [done|]. split; [congruence|].
      assert (Heq : set_score v (score v * 0.7 + score k * 0.3) = f).
      { apply (NoDup_map_eq pid fused); [done| |done|by simpl].
        apply Hboth; [done|done|congruence]. }
      by rewrite <- Heq.
    - right. right. apply in_map_iff in Hv as (v & Hpv & Hv).
      assert (Heq : v = f).
      { apply (NoDup_map_eq pid fused); [done| |done|done].
        apply Hvonly; [done|]. by rewrite Hpv. }
      by subst v.
    - right. left. apply in_map_iff in Hk as (k & Hpk & Hk).
      assert (Heq : k = f).
      { apply (NoDup_map_eq pid fused); [done| |done|done].
        apply Hkonly; [done|]. by rewrite Hpk. }
      by subst k.
    - destruct (Hfrom f Hf); tauto. }
  split; [exact Honce|].
  apply Sorted_StronglySorted.
  - intros a b c Hab Hbc. by eapply Qle_trans.
  - eapply Sorted_weaken; [|apply stable_sort_Sorted].
    + intros x y Hxy. by apply Qleb_le in Hxy.
    + intros x y. apply Qleb_total.
Qed.

Lemma C5_weighted_sum_fusion_witness :
  let vec := [item_of laptop_a 0.8; item_of laptop_b 0.6] in
  let key := [item_of cpu_a 0.9; item_of laptop_b 0.2] in
  let fused := _fuse_results vec key in
  (∀ v k, In v vec → In k key → pid v = pid k →
          ∃ f, In f fused ∧ product f = product v ∧ mall_info f = mall_info v
               ∧ score f = (score v * 0.7 + score k * 0.3)%Q)
  ∧ (∀ k, In k key → ¬ In (pid k) (map pid vec) → In k fused)
  ∧ (∀ v, In v vec → ¬ In (pid v) (map pid key) → In v fused)
  ∧ (∀ f, In f fused →
          (∃ v k, In v vec ∧ In k key ∧ pid v = pid k
                  ∧ product f = product v ∧ mall_info f = mall_info v
                  ∧ score f = (score v * 0.7 + score k * 0.3)%Q)
          ∨ (In f key ∧ ¬ In (pid f) (map pid vec))
          ∨ (In f vec ∧ ¬ In (pid f) (map pid key)))
  ∧ List.NoDup (map pid fused)
  ∧ StronglySorted (fun a b => (score b <= score a)%Q) fused.
Proof.
  apply (C5_weighted_sum_fusion [item_of laptop_a 0.8; item_of laptop_b 0.6]
                                [item_of cpu_a 0.9; item_of laptop_b 0.2]).
  - simpl. repeat constructor; simpl; intuition discriminate.
  - simpl. repeat constructor; simpl; intuition discriminate.
Defined.

Example fuse_two_paths :
  _fuse_results [item_of laptop_a 0.8; item_of laptop_b 0.6]
                [item_of cpu_a 0.9; item_of laptop_b 0.2]
  = [item_of cpu_a 0.9; item_of laptop_a 0.8;
     item_of laptop_b (0.6 * 0.7 + 0.2 * 0.3)].
Proof. reflexivity. Qed.
End FuseFacts.

(** The two retrieval paths list a product at most once. *)
Section DistinctFacts.
Import LLMRecommendationService.
Context {A B : Type} (f : A → B).

Lemma NoDup_map_filter (P : A → bool) l :
  List.NoDup (map f l) → List.NoDup (map f (List.filter P l)).
Proof.
  induction l as [|x l IH]; simpl; [done|].
  intros Hnd. inversion Hnd as [|? ? Hnin Hnd']; subst.
  destruct (P x); simpl; [|auto].
  apply List.NoDup_cons; [|auto].
  intros Hin. apply Hnin. apply in_map_iff in Hin as (y & Hy & Hin).
  apply filter_In in Hin as [Hin _]. rewrite <- Hy. by apply in_map.
Qed.

Lemma NoDup_map_take n l : List.NoDup (map f l) → List.NoDup (map f (take n l)).
Proof.
  revert n. induction l as [|x l IH]; intros [|n]; simpl; try done.
  - intros _. apply List.NoDup_nil.
  - intros Hnd. inversion Hnd as [|? ? Hnin Hnd']; subst.
    apply List.NoDup_cons; [|auto].
    intros Hin. apply Hnin. apply in_map_iff in Hin as (y & Hy & Hin).
    rewrite <- Hy. apply in_map. apply list_elem_of_In.
    eapply elem_of_sublist; [|apply sublist_take]. by apply list_elem_of_In.
Qed.

Lemma NoDup_map_sort (before : A → A → bool) l :
  List.NoDup (map f l) → List.NoDup (map f (stable_sort before l)).
Proof.
  apply Permutation_NoDup, Permutation_map. symmetry. apply stable_sort_perm.
Qed.
End DistinctFacts.

Section PathFacts.
Import LLMRecommendationService.

Lemma keyword_search_distinct (E : Env) (keywords : list string) (category_ids : list Z) :
  codes_unique (store E) →
  List.NoDup (map pid (_keyword_search E keywords category_ids)).
Proof.
  intros Hcodes. unfold _keyword_search.
  destruct keywords as [|k ks]; [apply List.NoDup_nil|].
  rewrite map_map. simpl.
  apply NoDup_map_take, NoDup_map_sort, NoDup_map_filter.
  destruct category_ids; repeat apply NoDup_map_filter; exact Hcodes.
Qed.

Lemma vector_search_distinct (E : Env) (query : string) (category_ids : list Z)
      (items : list Item) :
  codes_unique (store E) →
  _vector_search E query category_ids = Ok items →
  List.NoDup (map pid items).
Proof.
  intros Hcodes. unfold _vector_search.
  destruct (create_embedding _ _) as [embedding|e]; [|done].
  unfold mbind, result_bind, bind.
  assert (Hsearch : ∀ qs,
    List.NoDup (map danawa_product_id qs) →
    List.NoDup
      (map pid
         (map (fun p => {| product := p; mall_info := _get_mall_map E p;
                           score := Py.max 0 (1 - Store.l2_distance (store E)
                                                    (default [] (detail_spec_vector p))
                                                    embedding / 2) |})
              (take 20 (stable_sort
                          (fun a b => Qleb (Store.l2_distance (store E)
                                              (default [] (detail_spec_vector a)) embedding)
                                           (Store.l2_distance (store E)
                                              (default [] (detail_spec_vector b)) embedding))
                          (List.filter (fun p => negb (Store.status_excluded p)) qs)))))).
  { intros qs Hqs. rewrite map_map. simpl.
    by apply NoDup_map_take, NoDup_map_sort, NoDup_map_filter. }
  destruct category_ids as [|c cs].
  - destruct (any_in HARDWARE_HINTS query); intros [= <-]; [apply List.NoDup_nil|].
    apply Hsearch. by apply NoDup_map_filter.
  - intros [= <-]. apply Hsearch. by repeat apply NoDup_map_filter.
Qed.
End PathFacts.

(** ** The session cache of the two-step flow *)

Section SessionFacts.
Import ShoppingResearchService.

(** The first step leaves in the cache, under the key of the identifier it
    returns, the query alone. *)
Lemma generate_questions_session (E : Env) (uuid_hex : string) (now : Z) (cache : Cache)
      (user_query : string) :
  let '(reply, cache') := generate_questions E uuid_hex now cache user_query in
  cache' !! ("shopping_research:" ++ search_id reply)
  = Some {| DjangoCache.value :=
              {| session_user_query := Some user_query; session_questions := None |};
            DjangoCache.expires_at := now + 1800 |}.
Proof.
  unfold generate_questions, _generate_search_id, DjangoCache.set.
  destruct (_ ≫= _) as [qs|e]; simpl; apply lookup_insert_eq.
Qed.

(** Entries are kept for [CACHE_TTL] = 1800 seconds. *)
Lemma session_lifetime (E : Env) (uuid_hex : string) (now t : Z) (cache : Cache)
      (user_query : string) :
  let '(reply, cache') := generate_questions E uuid_hex now cache user_query in
  _validate_search_id t cache' (search_id reply)
  = if (t <? now + 1800)%Z
    then Some {| session_user_query := Some user_query; session_questions := None |}
    else None.
Proof.
  pose proof (generate_questions_session E uuid_hex now cache user_query) as Hs.
  destruct (generate_questions E uuid_hex now cache user_query) as [reply cache'].
  unfold _validate_search_id, DjangoCache.get. rewrite Hs. done.
Qed.

(** Hence the second step never finds a question set to fill the answers
    from: they go to the analysis as the client sent them. *)
Lemma enrich_after_generate (E : Env) (uuid_hex : string) (now t : Z) (cache : Cache)
      (user_query : string) (survey_contents : list Survey) :
  let '(reply, cache') := generate_questions E uuid_hex now cache user_query in
  enrich_survey (_validate_search_id t cache' (search_id reply)) survey_contents
  = survey_contents.
Proof.
  pose proof (session_lifetime E uuid_hex now t cache user_query) as Hs.
  destruct (generate_questions E uuid_hex now cache user_query) as [reply cache'].
  rewrite Hs. by destruct (t <? now + 1800)%Z.
Qed.

(** A session that is missing or expired leaves the answers as they are. *)
Lemma enrich_without_session (survey_contents : list Survey) :
  enrich_survey None survey_contents = survey_contents.
Proof. reflexivity. Qed.

(** When a session does hold a question set, the missing texts are taken
    from it. *)
Example enrich_from_questions :
  enrich_survey
    (Some {| session_user_query := Some "노트북 추천";
             session_questions := Some _get_default_questions |})
    one_answer
  = [set_question {| s_question_id := 1; s_question := None; s_answer := "게임" |}
                  "주요 사용 목적은 무엇인가요?"].
Proof. vm_compute. reflexivity. Qed.

(** C3, evaluated.  The first step returns an identifier and a question
    set; one minute later the session under that identifier holds the
    query and no question set, so an answer sent without its question text
    reaches the analysis without it (and is rendered with the placeholder
    text); after 1800 seconds the session is gone. *)
Theorem C3_session_holds_query_only :
  let '(reply, cache) :=
    generate_questions questions_env sample_uuid_hex 0 ∅ "노트북 추천" in
  search_id reply = "sr-3f2a9c1e"
  ∧ questions reply
    = [ {| question_id := 1; question := "주로 어떤 용도로 쓰시나요?";
           options := [(1, "게임"); (2, "사무")] |} ]
  ∧ _validate_search_id 60 cache (search_id reply)
    = Some {| session_user_query := Some "노트북 추천"; session_questions := None |}
  ∧ enrich_survey (_validate_search_id 60 cache (search_id reply)) one_answer = one_answer
  ∧ map format_survey_item
        (enrich_survey (_validate_search_id 60 cache (search_id reply)) one_answer)
    = ["Q1: 질문 1 -> A: 게임"]
  ∧ _validate_search_id 1800 cache (search_id reply) = None.
Proof. vm_compute. repeat split; reflexivity. Qed.
End SessionFacts.

(** ** Retrieval in the single-step flow *)

Section RetrievalFacts.
Import LLMRecommendationService.

(** The vector path of the single-step flow hands an exception of the
    embedding provider on. *)
Lemma llm_vector_search_raises (E : Env) (query : string) (category_ids : list Z) (e : exn) :
  create_embedding (clients E) query = Raise e →
  _vector_search E query category_ids = Raise e.
Proof. intros He. unfold _vector_search. by rewrite He. Qed.


(** And so does the whole request of the single-step flow, once the
    category filter is settled. *)
Lemma llm_request_raises (E : Env) (user_query : string) (ids : list Z) (e : exn) :
  let intent := _extract_intent_pro E user_query in
  target_ids E (fst (resolve_category E user_query intent)) = Ok ids →
  create_embedding (clients E) (default user_query (search_query intent)) = Raise e →
  get_recommendations E user_query = Raise e.
Proof.
  intros intent Hids He. unfold get_recommendations. fold intent.
  destruct (resolve_category E user_query intent) as [category_id llm_category_name].
  simpl in Hids. rewrite Hids. simpl.
  by rewrite (llm_vector_search_raises _ _ _ _ He).
Qed.

(** C1 fails in the single-step flow.  With the embedding provider down,
    the vector path of that flow raises instead of returning the empty
    list, and the request raises with it although the keyword path has two
    candidates; the vector path of the two-step flow, which has the handler,
    returns the empty list. *)
Theorem C1_embedding_failure_single_step_raises :
  _vector_search embedding_down_env "게이밍 노트북 추천해줘" [2] = Raise ValueError
  ∧ map pid (_keyword_search embedding_down_env ["게이밍 노트북 추천해줘"] [2])
    = ["1001"; "1002"]
  ∧ get_recommendations embedding_down_env "게이밍 노트북 추천해줘" = Raise ValueError
  ∧ ShoppingResearchService._vector_search embedding_down_research_env
      "게이밍 노트북 추천해줘" (Some 2) None None = Ok [].
Proof. vm_compute. repeat split; reflexivity. Qed.


(** The keyword path has no such test: without a category filter it
    searches the whole catalogue. *)
Lemma keyword_search_unlocked (E : Env) (k : string) (ks : list string) :
  let sim p := Store.trigram_similarity (store E) (name p) (join " " (k :: ks)) in
  map product (_keyword_search E (k :: ks) [])
  = take 20 (stable_sort (fun a b => Qleb (sim b) (sim a))
               (List.filter (fun p => Qltb 0.05 (sim p))
                  (List.filter (fun p => negb (deleted p)) (Store.products (store E))))).
Proof.
  intros sim. unfold _keyword_search. rewrite map_map. simpl. by rewrite map_id.
Qed.

(** The lock is on the vector path only.  With a text client whose reply
    carries a [.text] (which the client of the repository does not), a
    query without a hardware word, and an intent that names "CPU" in its
    search string and no usable category: no category filter is set, the
    vector path is locked, and the request returns the two products of the
    keyword path, a processor and a laptop. *)
Example text_reply_escapes_lock :
  let user_query := "라이젠 5600 추천해줘" in
  let intent := _extract_intent_pro ryzen_env user_query in
  resolve_category ryzen_env user_query intent = (None, "기타")
  ∧ search_query intent = Some "라이젠 5600 CPU"
  ∧ _vector_search ryzen_env "라이젠 5600 CPU" [] = Ok []
  ∧ map (fun i => (pid i, category_id (product i)))
        (_keyword_search ryzen_env ["라이젠"; "5600"] [])
    = [("2001", Some 22); ("1003", Some 2)]
  ∧ ∃ reply, get_recommendations ryzen_env user_query = Ok reply
             ∧ map r_product_code (recommended_products reply) = ["2001"; "1003"].
Proof.
  vm_compute. repeat split; try reflexivity.
  eexists. split; reflexivity.
Qed.
End RetrievalFacts.

Section DegradeFacts.
Import ShoppingResearchService.

End DegradeFacts.

Lemma prefix_upper k : ∀ q, String.prefix k q = true → String.prefix (upper k) (upper q) = true.
Proof.
  induction k as [|a k IH]; intros [|b q]; simpl; try done.
  destruct (ascii_dec a b) as [->|]; [|done]. intros Hk.
  destruct (ascii_dec (upper_ascii b) (upper_ascii b)); [auto|done].
Qed.

Lemma contains_upper k q : contains k q = true → contains (upper k) (upper q) = true.
Proof.
  induction q as [|b q IH].
  - by destruct k.
  - change (upper (String b q)) with (String (upper_ascii b) (upper q)).
    cbn [contains].
    destruct (String.prefix k (String b q)) eqn:Hk.
    + intros _. apply prefix_upper in Hk.
      change (upper (String b q)) with (String (upper_ascii b) (upper q)) in Hk.
      by rewrite Hk.
    + intros Hq. rewrite (IH Hq). by destruct (String.prefix (upper k) _).
Qed.

Section LockFacts.
Import LLMRecommendationService.

(** A hardware word in the query always sets the category by keyword. *)
Lemma hint_sets_category (q : string) :
  any_in HARDWARE_HINTS q = true →
  ∃ cid cname, keyword_override (upper q) = Some (cid, cname) ∧ cid ≠ 0.
Proof.
  unfold any_in, HARDWARE_HINTS. cbn [existsb]. rewrite !orb_true_iff.
  intros [H|[H|[H|H]]]; [| | |done];
    apply contains_upper in H; unfold keyword_override.
  - change (upper "CPU") with "CPU" in H. rewrite H. simpl. by exists 21, "CPU".
  - change (upper "노트북") with "노트북" in H.
    destruct (contains "CPU" (upper q) || contains "프로세서" (upper q)); [by exists 21, "CPU"|].
    destruct (contains "그래픽카드" (upper q) || contains "GPU" (upper q));
      [by exists 24, "그래픽카드"|].
    destruct (contains "모니터" (upper q)); [by exists 18, "모니터"|].
    rewrite H. by exists 2, "노트북".
  - change (upper "그래픽카드") with "그래픽카드" in H.
    destruct (contains "CPU" (upper q) || contains "프로세서" (upper q)); [by exists 21, "CPU"|].
    rewrite H. simpl. by exists 24, "그래픽카드".
Qed.

(** The client of the repository hands back a [str]: reading [.text] of it
    fails and the intent is the degraded one. *)
Lemma str_replies_degrade (E : Env) (q : string) :
  (∀ prompt text, generate_content (clients E) prompt ≠ Ok (ReplyObj text)) →
  _extract_intent_pro E q = degraded_intent.
Proof.
  intros Hstr. unfold _extract_intent_pro.
  destruct (generate_content _ _) as [[s|text]|e] eqn:Hg; try done.
  by apply Hstr in Hg.
Qed.

Lemma descendants_head (S : Store.t) depth cid ids :
  _get_descendant_category_ids S depth cid = Some ids → ∃ rest, ids = cid :: rest.
Proof.
  destruct depth as [|depth]; [done|]. rewrite descendants_step.
  intros H. apply fold_extend_Some in H as (subs & _ & ->). by eexists.
Qed.

(** With such a client the search string is the query itself, and the
    lock of the vector path is never reached: a hardware word in the query
    has already set a category filter. *)
Lemma lock_needs_object_reply (E : Env) (q : string) (ids : list Z) :
  (∀ prompt text, generate_content (clients E) prompt ≠ Ok (ReplyObj text)) →
  let intent := _extract_intent_pro E q in
  any_in HARDWARE_HINTS (default q (search_query intent)) = true →
  target_ids E (fst (resolve_category E q intent)) = Ok ids →
  ids ≠ [].
Proof.
  intros Hstr intent. subst intent. rewrite (str_replies_degrade _ _ Hstr). simpl.
  intros Hhint. destruct (hint_sets_category _ Hhint) as (cid & cname & Hov & Hcid).
  unfold resolve_category. rewrite Hov.
  assert (Htruthy : truthy_id (Some cid) = true).
  { simpl. by destruct (Z.eqb_spec cid 0). }
  rewrite Htruthy. simpl. unfold target_ids. simpl in Htruthy. rewrite Htruthy.
  destruct (_get_descendant_category_ids _ _ cid) as [ids'|] eqn:Hd; [|done].
  intros [= <-]. apply descendants_head in Hd as (rest & ->). done.
Qed.
End LockFacts.

(** ** Explanations and their fallbacks *)




Section RerankFacts.
Import LLMRecommendationService.


Lemma rerank_length (E : Env) (user_query : string) (intent : Intent)
      (fused_results : list Item) :
  length (_rerank_with_fallback E user_query intent fused_results)
  = Nat.min 5 (length fused_results).
Proof. unfold _rerank_with_fallback. by rewrite length_map, length_take. Qed.



End RerankFacts.

Section AnalyzeFacts.
Import ShoppingResearchService.








(** A per-product reply of white space alone leaves an empty reason. *)
Example blank_reply_gives_empty_reason :
  recommendation_reason
  <$> match _analyze_product (batch_down_env "   ") (fused_of laptop_a 1)
              "가벼운 노트북" "가벼운 노트북" 1 [1500000] None with
      | Ok a => Some a
      | Raise _ => None
      end
  = Some "".
Proof. reflexivity. Qed.
End AnalyzeFacts.

(** * Further properties of the two services *)

(** ** Lists, orders and rationals *)

Lemma py_max_ge_l (a b : Q) : (a <= Py.max a b)%Q.
Proof.
  unfold Py.max. destruct (Qltb a b) eqn:H; [|lra].
  apply Qltb_true in H. lra.
Qed.

Lemma py_max_antitone (d1 d2 : Q) :
  (d1 <= d2)%Q → (Py.max 0 (1 - d2 / 2) <= Py.max 0 (1 - d1 / 2))%Q.
Proof.
  intros Hd. unfold Py.max, Qdiv. change (/ 2)%Q with (1 # 2)%Q.
  destruct (Qltb 0 (1 - d2 * (1 # 2))) eqn:H2;
    destruct (Qltb 0 (1 - d1 * (1 # 2))) eqn:H1;
    rewrite ?Qltb_true, ?Qltb_false in *; lra.
Qed.

Lemma In_take {A : Type} (x : A) n l : In x (take n l) → In x l.
Proof.
  intros H. apply list_elem_of_In.
  eapply elem_of_sublist; [|apply sublist_take]. by apply list_elem_of_In.
Qed.

Lemma StronglySorted_take {A : Type} (R : A → A → Prop) n l :
  StronglySorted R l → StronglySorted R (take n l).
Proof.
  intros Hl. revert n. induction Hl as [|x l Hl IH Hx]; intros [|n]; simpl;
    try constructor; auto.
  apply Forall_forall. intros y Hy. rewrite Forall_forall in Hx. apply Hx.
  eapply elem_of_sublist; [exact Hy|apply sublist_take].
Qed.

Lemma StronglySorted_filter_bool {A : Type} (R : A → A → Prop) (P : A → bool) l :
  StronglySorted R l → StronglySorted R (List.filter P l).
Proof.
  induction 1 as [|x l Hl IH Hx]; simpl; [constructor|].
  destruct (P x); [|done]. constructor; [done|].
  apply Forall_forall. intros y Hy. rewrite Forall_forall in Hx. apply Hx.
  rewrite list_elem_of_In in *. apply filter_In in Hy. tauto.
Qed.

Lemma StronglySorted_map {A B : Type} (R : B → B → Prop) (f : A → B) l :
  StronglySorted (fun a b => R (f a) (f b)) l → StronglySorted R (map f l).
Proof.
  induction 1 as [|x l Hl IH Hx]; simpl; constructor; [done|].
  apply Forall_forall. intros y Hy. rewrite list_elem_of_In in Hy.
  apply in_map_iff in Hy as (a & <- & Ha).
  rewrite Forall_forall in Hx. apply Hx. by rewrite list_elem_of_In.
Qed.

Lemma StronglySorted_weaken {A : Type} (R1 R2 : A → A → Prop) l :
  (∀ x y, R1 x y → R2 x y) → StronglySorted R1 l → StronglySorted R2 l.
Proof.
  intros Himp. induction 1 as [|x l Hl IH Hx]; constructor; [done|].
  eapply Forall_impl; [exact Hx|]. auto.
Qed.

(** A stable sort by a rational key, ascending or descending. *)
Lemma sort_ascending {A : Type} (key : A → Q) l :
  StronglySorted (fun a b => (key a <= key b)%Q)
                 (stable_sort (fun a b => Qleb (key a) (key b)) l).
Proof.
  apply Sorted_StronglySorted.
  - intros a b c Hab Hbc. by eapply Qle_trans.
  - eapply Sorted_weaken; [|apply stable_sort_Sorted].
    + intros x y Hxy. by apply Qleb_le in Hxy.
    + intros x y. apply Qleb_total.
Qed.

Lemma sort_descending {A : Type} (key : A → Q) l :
  StronglySorted (fun a b => (key b <= key a)%Q)
                 (stable_sort (fun a b => Qleb (key b) (key a)) l).
Proof.
  apply Sorted_StronglySorted.
  - intros a b c Hab Hbc. by eapply Qle_trans.
  - eapply Sorted_weaken; [|apply stable_sort_Sorted].
    + intros x y Hxy. by apply Qleb_le in Hxy.
    + intros x y. apply Qleb_total.
Qed.

(** ** The retrieval paths *)

Section PathSoundness.
Import LLMRecommendationService.

Lemma keyword_search_hits (E : Env) (keywords : list string) (category_ids : list Z) :
  Forall (keyword_hit E keywords category_ids) (_keyword_search E keywords category_ids).
Proof.
  unfold _keyword_search. destruct keywords as [|k ks]; [constructor|].
  set (text := join " " (k :: ks)).
  set (sim := fun p => Store.trigram_similarity (store E) (name p) text).
  set (qs := match category_ids with
             | [] => List.filter (fun p => negb (deleted p)) (Store.products (store E))
             | _ :: _ => _
             end).
  assert (Hqs : ∀ p, In p qs →
                     In p (Store.products (store E)) ∧ deleted p = false
                     ∧ (category_ids ≠ [] → Store.category_in category_ids p = true)).
  { intros p. subst qs. destruct category_ids as [|c cs].
    - rewrite filter_In, negb_true_iff. intros [? ?]. repeat split; auto; done.
    - rewrite !filter_In, negb_true_iff. intros [[? ?] ?]. repeat split; auto. }
  simpl. apply Forall_forall. intros i Hi.
  rewrite list_elem_of_In in Hi. apply in_map_iff in Hi as (p & <- & Hp).
  apply In_take, stable_sort_In, filter_In in Hp as [Hp Hsim].
  apply Qltb_true in Hsim. destruct (Hqs p Hp) as (Hin & Hlive & Hcat).
  unfold keyword_hit. simpl. repeat split; auto.
Qed.

(** The keyword path returns at most twenty candidates, each a live product
    of the store whose name is more than 0.05 similar to the joined
    keywords and which lies in the category filter when there is one, in
    descending order of similarity. *)
Theorem keyword_search_sound (E : Env) (keywords : list string) (category_ids : list Z) :
  let out := _keyword_search E keywords category_ids in
  (length out ≤ 20)%nat
  ∧ Forall (keyword_hit E keywords category_ids) out
  ∧ StronglySorted (fun a b => (score b <= score a)%Q) out.
Proof.
  intros out. split; [|split; [apply keyword_search_hits|]]; subst out.
  - unfold _keyword_search. destruct keywords as [|k ks]; [simpl; lia|].
    rewrite length_map, length_take. lia.
  - unfold _keyword_search. destruct keywords as [|k ks]; [constructor|].
    set (text := join " " (k :: ks)).
    set (sim := fun p => Store.trigram_similarity (store E) (name p) text).
    apply StronglySorted_map. simpl. apply StronglySorted_take.
    apply (sort_descending sim).
Qed.

Lemma vector_search_hits (E : Env) (query : string) (category_ids : list Z)
      (out : list Item) :
  _vector_search E query category_ids = Ok out →
  Forall (vector_hit E category_ids) out.
Proof.
  unfold _vector_search.
  destruct (create_embedding _ _) as [embedding|e]; [|done].
  unfold mbind, result_bind, bind.
  set (distance := fun p => Store.l2_distance (store E)
                              (default [] (detail_spec_vector p)) embedding).
  set (live := List.filter _ (Store.products (store E))).
  assert (Hlive : ∀ p, In p live →
            In p (Store.products (store E)) ∧ deleted p = false
            ∧ is_Some (detail_spec_vector p)).
  { intros p. subst live. rewrite filter_In, andb_true_iff, negb_true_iff.
    rewrite bool_decide_eq_true. tauto. }
  assert (Hsearch : ∀ qs,
    (∀ p, In p qs → In p live ∧ (category_ids ≠ [] → Store.category_in category_ids p = true)) →
    Forall (vector_hit E category_ids)
      (map (fun p => {| product := p; mall_info := _get_mall_map E p;
                        score := Py.max 0 (1 - distance p / 2) |})
           (take 20 (stable_sort (fun a b => Qleb (distance a) (distance b))
                       (List.filter (fun p => negb (Store.status_excluded p)) qs))))).
  { intros qs Hqs. apply Forall_forall. intros i Hi.
    rewrite list_elem_of_In in Hi. apply in_map_iff in Hi as (p & <- & Hp).
    apply In_take, stable_sort_In, filter_In in Hp as [Hp Hst].
    apply negb_true_iff in Hst. destruct (Hqs p Hp) as [Hp' Hcat].
    destruct (Hlive p Hp') as (Hin & Hdel & Hvec).
    unfold vector_hit. simpl. repeat split; auto. apply py_max_ge_l. }
  destruct category_ids as [|c cs].
  - destruct (any_in HARDWARE_HINTS query).
    + intros [= <-]. constructor.
    + intros [= <-]. apply Hsearch. intros p Hp. split; [done|]. done.
  - intros [= <-]. apply Hsearch. intros p Hp.
    apply filter_In in Hp as [Hp Hcat]. split; [done|]. by intros _.
Qed.

(** When the vector path returns, it returns at most twenty candidates,
    each a live product with an embedding and a status that is on sale,
    inside the category filter when there is one, with a score that is
    not negative, in descending order of score. *)
Theorem vector_search_sound (E : Env) (query : string) (category_ids : list Z)
        (out : list Item) :
  _vector_search E query category_ids = Ok out →
  (length out ≤ 20)%nat
  ∧ Forall (vector_hit E category_ids) out
  ∧ StronglySorted (fun a b => (score b <= score a)%Q) out.
Proof.
  intros Hout. split; [|split; [by apply (vector_search_hits E query)|]];
    revert Hout; unfold _vector_search;
    (destruct (create_embedding _ _) as [embedding|e]; [|done]);
    unfold mbind, result_bind, bind.
  - destruct category_ids as [|c cs]; [destruct (any_in HARDWARE_HINTS query)|];
      intros [= <-]; simpl; rewrite ?length_map, ?length_take; lia.
  - set (distance := fun p => Store.l2_distance (store E)
                                (default [] (detail_spec_vector p)) embedding).
    assert (Hsorted : ∀ qs,
      StronglySorted (fun a b => (score b <= score a)%Q)
        (map (fun p => {| product := p; mall_info := _get_mall_map E p;
                          score := Py.max 0 (1 - distance p / 2) |})
             (take 20 (stable_sort (fun a b => Qleb (distance a) (distance b)) qs)))).
    { intros qs. apply StronglySorted_map. simpl. apply StronglySorted_take.
      eapply StronglySorted_weaken; [|apply (sort_ascending distance)].
      intros x y Hxy. simpl in Hxy. by apply py_max_antitone. }
    destruct category_ids as [|c cs]; [destruct (any_in HARDWARE_HINTS query)|];
      intros [= <-]; [constructor|apply Hsorted|apply Hsorted].
Qed.

Lemma vector_search_sound_witness :
  let out := [item_of cpu_a (Py.max 0 (1 - 0 / 2))] in
  (length out ≤ 20)%nat
  ∧ Forall (vector_hit ryzen_env [22]) out
  ∧ StronglySorted (fun a b => (score b <= score a)%Q) out.
Proof.
  apply (vector_search_sound ryzen_env "라이젠 5600" [22]). reflexivity.
Defined.
End PathSoundness.

Section ResearchPathSoundness.
Import ShoppingResearchService.

Lemma research_vector_search_unfold (E : Env) (search_query : string)
      (category_id : option Z) (min_price : option Price) (max_price : option Number) :
  _vector_search E search_query category_id min_price max_price
  = match create_embedding (clients E) search_query with
    | Raise _ => Ok []
    | Ok query_embedding =>
        queryset ← category_queryset E category_id;
        lower ← lower_bound E min_price;
        Ok (ranked_hits E query_embedding
              (List.filter (price_filter lower (lte_bound <$> max_price)) queryset))
    end.
Proof. reflexivity. Qed.

Lemma category_queryset_spec (E : Env) (category_id : option Z) (queryset : list Product) :
  category_queryset E category_id = Ok queryset →
  ∀ p, In p queryset →
       In p (Store.products (store E)) ∧ deleted p = false
       ∧ is_Some (detail_spec_vector p)
       ∧ ∀ cid, category_id = Some cid → cid ≠ 0 →
           ∃ ids, _get_descendant_category_ids (store E) (recursion_limit (clients E)) cid
                  = Some ids ∧ Store.category_in ids p = true.
Proof.
  unfold category_queryset.
  set (live := List.filter _ (Store.products (store E))).
  assert (Hlive : ∀ p, In p live →
            In p (Store.products (store E)) ∧ deleted p = false
            ∧ is_Some (detail_spec_vector p)).
  { intros p. subst live. rewrite filter_In, andb_true_iff, negb_true_iff.
    rewrite bool_decide_eq_true. tauto. }
  destruct category_id as [cid|].
  - destruct (Z.eqb_spec cid 0) as [->|Hcid].
    + intros [= <-] p Hp. destruct (Hlive p Hp) as (? & ? & ?).
      repeat split; auto. by intros cid [= <-].
    + destruct (_get_descendant_category_ids _ _ cid) as [ids|] eqn:Hids; [|done].
      intros [= <-] p Hp. apply filter_In in Hp as [Hp Hcat].
      destruct (Hlive p Hp) as (? & ? & ?). repeat split; auto.
      intros cid' [= <-] _. eauto.
  - intros [= <-] p Hp. destruct (Hlive p Hp) as (? & ? & ?). repeat split; auto. done.
Qed.

Lemma price_filter_within (E : Env) (min_price : option Price) (max_price : option Number)
      (lower : option Z) (p : Product) :
  lower_bound E min_price = Ok lower →
  price_filter lower (lte_bound <$> max_price) p = true →
  within_bounds E min_price max_price (lowest_price p).
Proof.
  unfold lower_bound, price_filter. intros Hlower Hfilter.
  apply andb_true_iff in Hfilter as [Hlo Hhi].
  split; [|split; [|split]].
  - intros lo ->. destruct (gte_bound_spec E lo (lowest_price p)) as (n & Hn & Hiff).
    rewrite Hn in Hlower. injection Hlower as <-. apply Hiff. by apply Z.leb_le.
  - intros s ->. simpl in Hlower. destruct (int E s) as [n|e]; [|done].
    injection Hlower as <-. exists n. split; [done|]. by apply Z.leb_le.
  - intros ->. done.
  - intros hi -> Hpos. simpl in Hhi. apply Z.leb_le in Hhi. by apply lte_bound_spec.
Qed.

Lemma research_vector_search_hits (E : Env) (search_query : string)
      (category_id : option Z) (min_price : option Price) (max_price : option Number)
      (out : list Hit) :
  _vector_search E search_query category_id min_price max_price = Ok out →
  Forall (research_hit E search_query category_id min_price max_price) out.
Proof.
  rewrite research_vector_search_unfold.
  destruct (create_embedding _ _) as [query_embedding|e] eqn:Hemb.
  2:{ intros [= <-]. constructor. }
  destruct (category_queryset E category_id) as [queryset|e] eqn:Hqs; [|done].
  simpl. destruct (lower_bound E min_price) as [lower|e] eqn:Hlower; [|done].
  simpl. intros [= <-]. unfold ranked_hits.
  apply Forall_forall. intros h Hh.
  rewrite list_elem_of_In in Hh. apply in_map_iff in Hh as (p & <- & Hp).
  apply In_take, stable_sort_In, filter_In in Hp as [Hp Hst].
  apply filter_In in Hp as [Hp Hprice]. apply negb_true_iff in Hst.
  destruct (category_queryset_spec E _ _ Hqs p Hp) as (Hin & Hdel & [vector Hvec] & Hcat).
  unfold research_hit. cbn [hit_product vector_score hit_mall_info].
  split; [done|]. split; [done|]. split; [done|].
  split; [eapply Qle_trans; [|apply py_max_ge_l]; lra|].
  split; [exists vector, query_embedding; by rewrite Hvec|].
  split; [done|].
  split; [by apply (price_filter_within E _ _ lower)|].
  exact Hcat.
Qed.


End ResearchPathSoundness.

(** ** Fusion on arbitrary candidate lists *)

Section FuseAnyFacts.
Import LLMRecommendationService.

Lemma loaded_any_keys vec :
  ∀ d x, In x (map fst (fold_left load vec d)) ↔ In x (map fst d) ∨ In x (map pid vec).
Proof.
  induction vec as [|i vec IH]; intros d x; simpl; [tauto|].
  rewrite IH. unfold load. rewrite dict_set_keys_In.
  split; [intros [[->|?]|?]|intros [?|[<-|?]]]; auto.
Qed.

Lemma loaded_any_NoDup vec :
  ∀ d, List.NoDup (map fst d) → List.NoDup (map fst (fold_left load vec d)).
Proof.
  induction vec as [|i vec IH]; intros d Hd; simpl; [done|].
  apply IH. by apply dict_set_NoDup.
Qed.

Lemma loaded_any_keyed vec : ∀ d, keyed d → keyed (fold_left load vec d).
Proof.
  induction vec as [|i vec IH]; intros d Hd; simpl; [done|].
  apply IH. intros k v Hin. apply dict_set_In in Hin as [[= -> ->]|Hin]; eauto.
Qed.

Lemma from_candidates_weaken l l' d :
  (∀ i, In i l → In i l') → from_candidates l d → from_candidates l' d.
Proof.
  intros Hincl Hd k v Hin. destruct (Hd k v Hin) as (i & Hi & Heq). eauto.
Qed.

Lemma loaded_any_from vec :
  ∀ d seen, from_candidates seen d →
            from_candidates (seen ++ vec) (fold_left load vec d).
Proof.
  induction vec as [|i vec IH]; intros d seen Hd; simpl.
  - by rewrite app_nil_r.
  - replace (seen ++ i :: vec)%list with ((seen ++ [i]) ++ vec)%list
      by (by rewrite <- app_assoc).
    apply IH. intros k v Hin. apply dict_set_In in Hin as [[= -> ->]|Hin].
    + exists i. split; [|done]. apply in_or_app. right. by left.
    + destruct (Hd k v Hin) as (j & Hj & Heq). exists j. split; [|done].
      apply in_or_app. by left.
Qed.

Lemma merged_from key :
  ∀ d seen, from_candidates seen d →
            from_candidates (seen ++ key) (fold_left merge key d).
Proof.
  induction key as [|i key IH]; intros d seen Hd; simpl.
  - by rewrite app_nil_r.
  - replace (seen ++ i :: key)%list with ((seen ++ [i]) ++ key)%list
      by (by rewrite <- app_assoc).
    apply IH. intros k v. unfold merge.
    destruct (dict_get (pid i) d) as [r|] eqn:Hget; intros Hin;
      apply dict_set_In in Hin as [[= -> ->]|Hin].
    + apply dict_get_pair in Hget. destruct (Hd _ _ Hget) as (j & Hj & Heq).
      exists j. split; [|done]. apply in_or_app. by left.
    + destruct (Hd k v Hin) as (j & Hj & Heq). exists j. split; [|done].
      apply in_or_app. by left.
    + exists i. split; [|done]. apply in_or_app. right. by left.
    + destruct (Hd k v Hin) as (j & Hj & Heq). exists j. split; [|done].
      apply in_or_app. by left.
Qed.

Lemma fuse_unfold_any vec key :
  _fuse_results vec key
  = stable_sort (fun x y => Qleb (score y) (score x))
                (dict_values (fold_left merge key (fold_left load vec []))).
Proof. reflexivity. Qed.

Lemma fuse_from_candidates (vec key : list Item) (f : Item) :
  In f (_fuse_results vec key) →
  ∃ i, (In i vec ∨ In i key) ∧ product f = product i ∧ mall_info f = mall_info i.
Proof.
  rewrite fuse_unfold_any. intros Hf.
  apply stable_sort_In, dict_In_keys in Hf as (k & Hin).
  assert (Hfrom : from_candidates (([] ++ vec) ++ key)
                    (fold_left merge key (fold_left load vec []))).
  { apply merged_from, loaded_any_from. intros ? ? []. }
  destruct (Hfrom _ _ Hin) as (i & Hi & Heq). exists i. split; [|done].
  simpl in Hi. apply in_app_or in Hi. tauto.
Qed.

(** Whatever the two candidate lists are (a product may be listed several
    times in either), the fuser returns every product code of the two
    lists exactly once, each with the product of a candidate, no more
    entries than candidates, in descending order of score. *)
Theorem fuse_each_product_once (vec key : list Item) :
  let fused := _fuse_results vec key in
  List.NoDup (map pid fused)
  ∧ (∀ c, In c (map pid fused) ↔ In c (map pid vec) ∨ In c (map pid key))
  ∧ (∀ f, In f fused →
          ∃ i, (In i vec ∨ In i key) ∧ product f = product i ∧ mall_info f = mall_info i)
  ∧ (length fused ≤ length vec + length key)%nat
  ∧ StronglySorted (fun a b => (score b <= score a)%Q) fused.
Proof.
  intros fused. subst fused. rewrite fuse_unfold_any.
  set (d := fold_left merge key (fold_left load vec [])).
  assert (Hkeyed : keyed d).
  { apply merged_keyed, loaded_any_keyed. intros k v []. }
  assert (Hnd : List.NoDup (map fst d)).
  { apply merged_NoDup, loaded_any_NoDup. apply List.NoDup_nil. }
  assert (Hkeys : ∀ c, In c (map fst d) ↔ In c (map pid vec) ∨ In c (map pid key)).
  { intros c. subst d. rewrite merged_keys, loaded_any_keys. simpl. tauto. }
  assert (Hcodes : map pid (stable_sort (fun x y => Qleb (score y) (score x))
                              (dict_values d)) ≡ₚ map fst d).
  { rewrite <- (keyed_values _ Hkeyed). apply Permutation_map, stable_sort_perm. }
  split; [|split; [|split; [|split]]].
  - eapply Permutation_NoDup; [symmetry; exact Hcodes|exact Hnd].
  - intros c. rewrite <- Hkeys. split; apply Permutation_in; [|symmetry]; exact Hcodes.
  - intros f Hf. by apply (fuse_from_candidates vec key).
  - rewrite <- (length_map pid), (Permutation_length Hcodes).
    rewrite <- (length_map pid vec), <- (length_map pid key), <- length_app.
    apply NoDup_incl_length; [exact Hnd|].
    intros c Hc. apply Hkeys in Hc. apply in_or_app. tauto.
  - apply (sort_descending score).
Qed.
End FuseAnyFacts.

(** A dictionary filled in a loop [d[f(x)] = x]. *)
Section FillFacts.
Context {V : Type} (f : V → string).

Let fill (d : list (string * V)) (x : V) := dict_set (f x) x d.

Lemma filled_keys l :
  ∀ d k, In k (map fst (fold_left fill l d)) ↔ In k (map fst d) ∨ In k (map f l).
Proof.
  induction l as [|x l IH]; intros d k; simpl; [tauto|].
  rewrite IH. unfold fill. rewrite dict_set_keys_In.
  split; [intros [[->|?]|?]|intros [?|[<-|?]]]; auto.
Qed.

Lemma filled_NoDup l :
  ∀ d, List.NoDup (map fst d) → List.NoDup (map fst (fold_left fill l d)).
Proof.
  induction l as [|x l IH]; intros d Hd; simpl; [done|].
  apply IH. by apply dict_set_NoDup.
Qed.

Lemma filled_entries l :
  ∀ d k v, In (k, v) (fold_left fill l d) → In (k, v) d ∨ (In v l ∧ f v = k).
Proof.
  induction l as [|x l IH]; intros d k v; simpl; [auto|].
  intros Hin. apply IH in Hin as [Hin|[Hin <-]]; [|auto].
  apply dict_set_In in Hin as [[= -> ->]|Hin]; auto.
Qed.
End FillFacts.

Section ResearchFuseFacts.
Import ShoppingResearchService.

Lemma key_le_ge (a b : Q * Z * Q) : key_le a b = true → key_ge b a.
Proof.
  destruct a as [[a1 a2] a3], b as [[b1 b2] b3]. unfold key_le, key_ge. simpl.
  destruct (Qltb a1 b1) eqn:Hab; [apply Qltb_true in Hab; auto|].
  destruct (Qltb b1 a1) eqn:Hba; [done|].
  apply Qltb_false in Hab. apply Qltb_false in Hba.
  assert (Heq : (b1 == a1)%Q) by lra.
  destruct (Z.ltb_spec a2 b2); [auto|].
  destruct (Z.ltb_spec b2 a2); [done|].
  intros H3. apply Qleb_le in H3. right. split; [done|]. right. split; [lia|done].
Qed.

Lemma key_ge_trans (a b c : Q * Z * Q) : key_ge a b → key_ge b c → key_ge a c.
Proof.
  destruct a as [[a1 a2] a3], b as [[b1 b2] b3], c as [[c1 c2] c3].
  unfold key_ge. simpl.
  intros [Hab|[Hab [Hab2|[Hab2 Hab3]]]] [Hbc|[Hbc [Hbc2|[Hbc2 Hbc3]]]];
    try (left; lra);
    right; (split; [lra|]);
    try (left; lia);
    right; (split; [lia|lra]).
Qed.

Lemma research_fuse_entries (hits : list Hit) :
  Forall (fun x => ∃ h, In h hits ∧ f_product x = hit_product h
                        ∧ f_mall_info x = hit_mall_info h
                        ∧ f_vector_score x = vector_score h
                        ∧ (combined_score x == vector_score h)%Q) (_fuse_results hits).
Proof.
  unfold _fuse_results.
  set (hit_code := fun h : Hit => danawa_product_id (hit_product h)).
  set (d := fold_left _ hits []).
  set (mk := fun data : Hit => _).
  apply Forall_forall. intros x Hx. rewrite list_elem_of_In in Hx.
  apply stable_sort_In, in_map_iff in Hx as (h & <- & Hh).
  apply dict_In_keys in Hh as (k & Hin).
  apply (filled_entries hit_code) in Hin as [[]|[Hin _]].
  exists h. subst mk. simpl. repeat split; auto.
  unfold VECTOR_WEIGHT. lra.
Qed.

(** Whatever the hits are, the fuser of the two-step flow returns every
    product code of the hits exactly once, each entry with the product,
    the mall row and the score of a hit and a combined score equal to that
    score, ordered by score, then review count, then rating, all
    descending. *)
Theorem research_fuse_sound (hits : list Hit) :
  let code (x : Fused) := danawa_product_id (f_product x) in
  let fused := _fuse_results hits in
  List.NoDup (map code fused)
  ∧ (∀ c, In c (map code fused)
          ↔ In c (map (fun h => danawa_product_id (hit_product h)) hits))
  ∧ Forall (fun x => ∃ h, In h hits ∧ f_product x = hit_product h
                          ∧ f_mall_info x = hit_mall_info h
                          ∧ f_vector_score x = vector_score h
                          ∧ (combined_score x == vector_score h)%Q) fused
  ∧ StronglySorted (fun a b => key_ge (sort_key a) (sort_key b)) fused.
Proof.
  intros code fused. subst fused. unfold _fuse_results.
  set (hit_code := fun h : Hit => danawa_product_id (hit_product h)).
  set (d := fold_left _ hits []).
  set (mk := fun data : Hit => _).
  assert (Hent : ∀ k v, In (k, v) d → In v hits ∧ hit_code v = k).
  { intros k v Hin. apply (filled_entries hit_code) in Hin as [[]|H]. exact H. }
  assert (Hnd : List.NoDup (map fst d)).
  { apply (filled_NoDup hit_code). apply List.NoDup_nil. }
  assert (Hkeys : ∀ c, In c (map fst d) ↔ In c (map hit_code hits)).
  { intros c. subst d. etransitivity; [apply (filled_keys hit_code)|]. simpl. tauto. }
  assert (Hvals : map code (map mk (dict_values d)) = map fst d).
  { unfold dict_values. rewrite !map_map. apply map_ext_in.
    intros [k v] Hin. simpl. by apply Hent in Hin as [_ <-]. }
  assert (Hperm : map code (stable_sort (fun x y => key_le (sort_key y) (sort_key x))
                              (map mk (dict_values d))) ≡ₚ map fst d).
  { rewrite <- Hvals. apply Permutation_map, stable_sort_perm. }
  split; [|split; [|split]].
  - eapply Permutation_NoDup; [symmetry; exact Hperm|exact Hnd].
  - intros c. rewrite <- Hkeys. split; apply Permutation_in; [|symmetry]; exact Hperm.
  - apply research_fuse_entries.
  - apply Sorted_StronglySorted.
    + intros a b c. apply key_ge_trans.
    + eapply Sorted_weaken; [|apply stable_sort_Sorted].
      * intros x y Hxy. by apply key_le_ge in Hxy.
      * intros x y. apply key_le_total.
Qed.
End ResearchFuseFacts.

(** ** The selection of the two-step flow *)

Section SelectFacts.
Import ShoppingResearchService.

Lemma select_top_In (fused_results : list Fused) (r : Fused) :
  In r (select_top fused_results) → In r fused_results.
Proof.
  unfold select_top, TOP_K.
  destruct (_ <? 5)%nat.
  - destruct fused_results as [|c l]; [done|]. intros Hr. by do 2 apply In_take in Hr.
  - intros Hr. apply In_take, filter_In in Hr. tauto.
Qed.

(** The selection has [min(5, total)] members, all taken from the fused
    list in its order; when at least five candidates reach the 0.60 bar it
    is the first five of those, so every member reaches the bar; otherwise
    it is the first five of the fused list. *)
Theorem select_top_sound (fused_results : list Fused) :
  let top := select_top fused_results in
  let high := List.filter (fun r => Qleb MIN_SIMILARITY (combined_score r)) fused_results in
  length top = Nat.min 5 (length fused_results)
  ∧ (∀ r, In r top → In r fused_results)
  ∧ ((5 ≤ length high)%nat →
     top = take 5 high ∧ Forall (fun r => (0.60 <= combined_score r)%Q) top)
  ∧ ((length high < 5)%nat → top = take 5 fused_results)
  ∧ (∀ R : Fused → Fused → Prop, StronglySorted R fused_results → StronglySorted R top).
Proof.
  intros top high. split; [apply select_top_length|].
  split; [apply select_top_In|].
  subst top. unfold select_top, TOP_K. fold high.
  destruct (Nat.ltb_spec (length high) 5) as [Hlt|Hge].
  - assert (Htop : match fused_results with [] => [] | _ :: _ => take 5 fused_results end
                   = take 5 fused_results) by (by destruct fused_results).
    rewrite Htop, take_take, Nat.min_id.
    split; [lia|]. split; [done|].
    intros R. apply StronglySorted_take.
  - split.
    { intros _. split; [done|]. apply Forall_forall. intros r Hr.
      rewrite list_elem_of_In in Hr. apply In_take in Hr. subst high.
      apply filter_In in Hr as [_ Hr]. by apply Qleb_le in Hr. }
    split; [lia|].
    intros R HR. apply StronglySorted_take. subst high.
    by apply StronglySorted_filter_bool.
Qed.
End SelectFacts.

(** ** The answer of the single-step flow *)

Section AnswerFacts.
Import LLMRecommendationService.

Lemma request_has_filter (E : Env) (user_query : string) (reply : Response) :
  get_recommendations E user_query = Ok reply →
  ∃ ids,
    target_ids E (fst (resolve_category E user_query (_extract_intent_pro E user_query)))
    = Ok ids.
Proof.
  unfold get_recommendations.
  destruct (resolve_category E user_query _) as [category_id llm_category_name].
  simpl. destruct (target_ids E category_id) as [ids|e]; [eauto|done].
Qed.

(** Every product of an answer comes from one of the two paths, which
    searched inside the category filter. *)
Lemma recommended_from_store (E : Env) (user_query : string) (reply : Response)
      (ids : list Z) :
  get_recommendations E user_query = Ok reply →
  target_ids E (fst (resolve_category E user_query (_extract_intent_pro E user_query)))
  = Ok ids →
  Forall (shows_product E ids) (recommended_products reply).
Proof.
  unfold get_recommendations.
  set (intent := _extract_intent_pro E user_query).
  destruct (resolve_category E user_query intent) as [category_id llm_category_name].
  simpl. intros Hreply Hids. rewrite Hids in Hreply. revert Hreply.
  unfold mbind, result_bind, bind.
  destruct (_vector_search E _ ids) as [vector_results|e] eqn:Hvec; [|done].
  apply vector_search_hits in Hvec.
  set (keyword_results := _keyword_search E _ ids).
  pose proof (keyword_search_hits E (default [user_query] (keywords intent)) ids) as Hkey.
  fold keyword_results in Hkey.
  set (fused := take 8 (_fuse_results vector_results keyword_results)).
  assert (Hfused : ∀ item, In item fused →
            ∃ p, p = product item ∧ In p (Store.products (store E)) ∧ deleted p = false
                 ∧ (ids ≠ [] → Store.category_in ids p = true)).
  { intros item Hitem. subst fused. apply In_take in Hitem.
    destruct (fuse_from_candidates vector_results keyword_results item Hitem)
      as (i & [Hi|Hi] & Hp & _); exists (product item);
      rewrite Hp; (split; [done|]).
    - rewrite Forall_forall in Hvec. rewrite <- list_elem_of_In in Hi.
      destruct (Hvec i Hi) as (? & ? & _ & _ & _ & ? & _). auto.
    - rewrite Forall_forall in Hkey. rewrite <- list_elem_of_In in Hi.
      destruct (Hkey i Hi) as (? & ? & _ & _ & ? & _). auto. }
  destruct fused as [|item0 rest] eqn:Hf.
  - intros [= <-]. constructor.
  - intros [= <-]. simpl recommended_products.
    unfold _rerank_with_fallback. apply Forall_forall. intros r Hr.
    rewrite list_elem_of_In in Hr. apply in_map_iff in Hr as (item & <- & Hitem).
    apply In_take in Hitem. destruct (Hfused item Hitem) as (p & -> & Hin & Hlive & Hcat).
    exists (product item). simpl. repeat split; auto.
Qed.

(** When the single-step request returns, the category filter was
    computed, the answer lists at most five products, and each of them is a
    live product of the store shown with its own code, name, brand and
    price; when the filter is not empty, every one of them lies in it. *)
Theorem recommendations_within_category (E : Env) (user_query : string) (reply : Response) :
  get_recommendations E user_query = Ok reply →
  ∃ ids,
    target_ids E (fst (resolve_category E user_query (_extract_intent_pro E user_query)))
    = Ok ids
    ∧ (length (recommended_products reply) ≤ 5)%nat
    ∧ Forall (shows_product E ids) (recommended_products reply).
Proof.
  intros Hreply. destruct (request_has_filter E user_query reply Hreply) as [ids Hids].
  exists ids. split; [exact Hids|].
  split; [|by apply (recommended_from_store E user_query)].
  revert Hreply. unfold get_recommendations.
  destruct (resolve_category E user_query _) as [category_id llm_category_name].
  simpl in Hids. rewrite Hids. simpl.
  destruct (_vector_search E _ ids) as [vector_results|e]; [|done]. simpl.
  destruct (take 8 _) as [|item0 rest].
  - intros [= <-]. simpl. lia.
  - intros [= <-]. simpl recommended_products. rewrite rerank_length. lia.
Qed.

Lemma recommendations_within_category_witness :
  ∃ reply ids,
    get_recommendations ryzen_env "라이젠 CPU 추천해줘" = Ok reply
    ∧ target_ids ryzen_env
        (fst (resolve_category ryzen_env "라이젠 CPU 추천해줘"
                (_extract_intent_pro ryzen_env "라이젠 CPU 추천해줘"))) = Ok ids
    ∧ (length (recommended_products reply) ≤ 5)%nat
    ∧ Forall (shows_product ryzen_env ids) (recommended_products reply).
Proof.
  destruct (get_recommendations ryzen_env "라이젠 CPU 추천해줘") as [reply|e] eqn:Hreply;
    [|vm_compute in Hreply; discriminate].
  destruct (recommendations_within_category ryzen_env "라이젠 CPU 추천해줘" reply Hreply)
    as (ids & Hids & Hlen & Hall).
  exists reply, ids. auto.
Defined.

Example cpu_query_shows_processors_only :
  (fun reply => map r_product_code (recommended_products reply))
  <$> match get_recommendations ryzen_env "라이젠 CPU 추천해줘" with
      | Ok reply => Some reply
      | Raise _ => None
      end
  = Some ["2001"].
Proof. vm_compute. reflexivity. Qed.
End AnswerFacts.

(** ** The answer of the two-step flow *)

Section ResearchAnswerFacts.
Import ShoppingResearchService.

Lemma fold_min_spec xs :
  ∀ x, let m := fold_left Z.min xs x in
       (m = x ∨ In m xs) ∧ (m ≤ x)%Z ∧ ∀ y, In y xs → (m ≤ y)%Z.
Proof.
  induction xs as [|z xs IH]; intros x; simpl.
  - split; [auto|]. split; [lia|]. intros y [].
  - destruct (IH (Z.min x z)) as (Hin & Hle & Hall).
    split; [|split].
    + destruct Hin as [Hin|Hin]; [|auto]. rewrite Hin.
      destruct (Z.min_spec x z) as [[_ ->]|[_ ->]]; auto.
    + lia.
    + intros y [<-|Hy]; [lia|auto].
Qed.

Lemma min_price_of_spec x xs :
  In (min_price_of (x :: xs)) (x :: xs)
  ∧ ∀ y, In y (x :: xs) → (min_price_of (x :: xs) ≤ y)%Z.
Proof.
  simpl. destruct (fold_min_spec xs x) as (Hin & Hle & Hall).
  split; [destruct Hin as [->|?]; auto|].
  intros y [<-|Hy]; auto.
Qed.

Lemma ranks_from_S (start : Z) (n : nat) :
  ranks_from start (S n) = start :: ranks_from (start + 1) n.
Proof.
  unfold ranks_from. simpl. f_equal; [lia|].
  rewrite <- seq_shift, map_map. apply map_ext. intros i. lia.
Qed.

Lemma analyze_product_fields (E : Env) (c : Fused) (user_query user_needs : string)
      (rank : Z) (prices : list Z) (pre : option BatchRow) (a : Analyzed) :
  _analyze_product E c user_query user_needs rank prices pre = Ok a →
  analyzed_from E prices c a ∧ match_rank a = rank.
Proof.
  unfold _analyze_product, analyzed_from.
  destruct pre as [row|]; [destruct (truthy_row row)|];
    destruct (int E _) as [code|e] eqn:Hint; simpl; intros [= <-]; simpl;
    by destruct prices.
Qed.

Lemma analyze_all_spec (E : Env) (analysis_map : gmap string BatchRow)
      (user_query user_needs : string) (prices : list Z) (top : list Fused) :
  ∀ rank out,
    analyze_all E analysis_map user_query user_needs prices rank top = Ok out →
    Forall2 (analyzed_from E prices) top out
    ∧ map match_rank out = ranks_from rank (length top).
Proof.
  induction top as [|c top IH]; intros rank out; simpl.
  - intros [= <-]. split; [constructor|done].
  - destruct (_analyze_product _ _ _ _ _ _ _) as [a|e] eqn:Ha; [|done].
    unfold mbind, result_bind, bind.
    destruct (analyze_all _ _ _ _ _ _ top) as [rest|e] eqn:Hrest; [|done].
    intros [= <-]. apply analyze_product_fields in Ha as [Ha Hrank].
    destruct (IH _ _ Hrest) as [HF Hranks].
    split; [by constructor|]. simpl. by rewrite ranks_from_S, Hrank, Hranks.
Qed.

Lemma analyze_survey_cases (E : Env) (user_query : string) (survey_contents : list Survey) :
  (∃ raw upper,
      keep_max_price (raw_max_price raw) = Ok upper
      ∧ _analyze_survey E user_query survey_contents
        = {| product_category := raw_product_category raw;
             search_query := default user_query (raw_search_query raw);
             keywords := default [user_query] (raw_keywords raw);
             priorities := default [] (raw_priorities raw);
             min_price := keep_min_price (raw_min_price raw);
             max_price := upper;
             user_needs := default user_query (raw_user_needs raw) |})
  ∨ _analyze_survey E user_query survey_contents
    = fallback_intent user_query survey_contents.
Proof.
  unfold _analyze_survey.
  destruct (generate_content _ _) as [[text|text]|e]; simpl; auto.
  destruct text as [|c text]; simpl; auto.
  destruct (loads_intent E _) as [raw|e]; simpl; auto.
  destruct (keep_max_price (raw_max_price raw)) as [upper|e] eqn:Hmax; simpl; eauto.
Qed.

(** An upper price of the intent is positive. *)
Lemma intent_max_positive (E : Env) (user_query : string) (survey_contents : list Survey)
      (hi : Number) :
  max_price (_analyze_survey E user_query survey_contents) = Some hi →
  (0 < number_value hi)%Q.
Proof.
  destruct (analyze_survey_cases E user_query survey_contents)
    as [(raw & upper & Hkeep & ->)| ->]; simpl; [|done].
  intros ->. unfold keep_max_price in Hkeep.
  destruct (raw_max_price raw) as [[m|s|]|]; try done.
  destruct (Qltb 0 (number_value m)) eqn:Hpos; [|done].
  injection Hkeep as ->. by apply Qltb_true.
Qed.

(** The range check hands the two bounds on or clears both; it raises
    only on a lower bound that is not a number, beside an upper bound. *)
Lemma validated_bounds (lower : option Price) (upper : option Number)
      (bounds : option Price * option Number) :
  validate_price_range lower upper = Ok bounds →
  (bounds = (lower, upper) ∨ bounds = (None, None))
  ∧ ∀ lo hi, bounds.1 = Some (JNum lo) → bounds.2 = Some hi →
             (number_value lo <= number_value hi)%Q.
Proof.
  unfold validate_price_range.
  destruct lower as [[lo|s|]|], upper as [hi|]; try done;
    try (intros [= <-]; split; [auto|]; by intros ? ? ? ?).
  destruct (Qltb (number_value hi) (number_value lo)) eqn:Hlt; intros [= <-].
  - split; [auto|]. by intros ? ? ? ?.
  - split; [auto|]. intros ? ? [= <-] [= <-]. by apply Qltb_false.
Qed.

(** How an answer of the second step comes about. *)
Lemma research_answer_trace (E : Env) (now : Z) (cache : Cache)
      (search_id user_query : string) (survey_contents : list Survey) (reply : Response) :
  get_recommendations E now cache search_id user_query survey_contents = Ok reply →
  let intent :=
    _analyze_survey E user_query
      (enrich_survey (_validate_search_id now cache search_id) survey_contents) in
  ∃ bounds hits,
    validate_price_range (min_price intent) (max_price intent) = Ok bounds
    ∧ _vector_search E (search_query intent) (map_category E intent) bounds.1 bounds.2
      = Ok hits
    ∧ let top := select_top (_fuse_results hits) in
      resp_user_query reply = user_query
      ∧ Forall2 (analyzed_from E (map (fun c => lowest_price (f_product c)) top))
                top (resp_product reply)
      ∧ map match_rank (resp_product reply) = ranks_from 1 (length top).
Proof.
  intros Hreply intent. unfold get_recommendations in Hreply.
  fold intent in Hreply.
  destruct (validate_price_range _ _) as [[lo hi]|e]; [|done]. simpl in Hreply.
  destruct (_vector_search E _ _ lo hi) as [hits|e] eqn:Hhits; [|done].
  exists (lo, hi), hits. split; [done|]. split; [done|]. simpl in Hreply.
  destruct (select_top (_fuse_results hits)) as [|c top] eqn:Htop.
  - injection Hreply as <-. simpl. split; [done|]. split; [constructor|done].
  - set (prices := map _ (c :: top)) in *.
    destruct (analyze_all _ _ _ _ _ _ _) as [products|e] eqn:Hall; [|done].
    injection Hreply as <-. simpl resp_product. simpl resp_user_query.
    apply analyze_all_spec in Hall as [HF Hranks]. auto.
Qed.

(** When the second step returns, the range check of the prices did not
    raise, the answer repeats the query and lists at most five products,
    ranked 1, 2, ... in their order; each is a live product of the store
    on sale, shown with its own name and price and the integer of its
    code, and priced within the bounds that survived the range check. *)
Theorem research_answer_sound (E : Env) (now : Z) (cache : Cache)
        (search_id user_query : string) (survey_contents : list Survey) (reply : Response) :
  get_recommendations E now cache search_id user_query survey_contents = Ok reply →
  let intent :=
    _analyze_survey E user_query
      (enrich_survey (_validate_search_id now cache search_id) survey_contents) in
  ∃ bounds,
    validate_price_range (min_price intent) (max_price intent) = Ok bounds
    ∧ resp_user_query reply = user_query
    ∧ (length (resp_product reply) ≤ 5)%nat
    ∧ map match_rank (resp_product reply) = ranks_from 1 (length (resp_product reply))
    ∧ Forall (shows_priced_product E bounds.1 bounds.2) (resp_product reply).
Proof.
  intros Hreply intent.
  destruct (research_answer_trace _ _ _ _ _ _ _ Hreply)
    as (bounds & hits & Hbounds & Hhits & Hq & HF & Hranks).
  fold intent in Hbounds, Hhits. exists bounds. split; [exact Hbounds|].
  assert (Hupper : ∀ hi, bounds.2 = Some hi → (0 < number_value hi)%Q).
  { intros hi Hhi. destruct (validated_bounds _ _ _ Hbounds) as [[->| ->] _]; [|done].
    exact (intent_max_positive E user_query _ hi Hhi). }
  apply research_vector_search_hits in Hhits.
  pose proof (research_fuse_entries hits) as Hfused.
  pose proof (select_top_length (_fuse_results hits)) as Hlen.
  pose proof (select_top_In (_fuse_results hits)) as Htop.
  pose proof (Forall2_length _ _ _ HF) as Hsame.
  split; [done|]. split; [lia|]. split; [by rewrite Hranks, Hsame|].
  apply Forall_forall. intros a Ha. rewrite list_elem_of_In in Ha.
  destruct (Forall2_In_r _ _ _ _ HF Ha) as (c & Hc & Hca).
  apply Htop in Hc. rewrite Forall_forall in Hfused. rewrite <- list_elem_of_In in Hc.
  destruct (Hfused c Hc) as (h & Hh & Hp & _).
  rewrite Forall_forall in Hhits. rewrite <- list_elem_of_In in Hh.
  destruct (Hhits h Hh) as (Hin & Hlive & Hst & _ & _ & _ & (Hlo & Hstr & _ & Hhi) & _).
  destruct Hca as (Hname & Hprice & Hcode & _).
  exists (f_product c). rewrite Hp. rewrite Hp in Hname, Hprice, Hcode.
  split; [done|]. split; [done|]. split; [done|]. split; [done|]. split; [done|].
  split; [done|]. rewrite Hprice.
  split; [exact Hlo|]. split; [exact Hstr|].
  intros hi Hb. apply Hhi; [done|]. apply Qlt_le_weak. by apply Hupper.
Qed.

Lemma research_answer_sound_witness :
  ∃ reply,
    get_recommendations zero_budget_env 0 ∅ "sr-3f2a9c1e" "노트북 추천" one_answer = Ok reply
    ∧ ∃ bounds,
        validate_price_range
          (min_price (_analyze_survey zero_budget_env "노트북 추천"
                        (enrich_survey (_validate_search_id 0 ∅ "sr-3f2a9c1e") one_answer)))
          (max_price (_analyze_survey zero_budget_env "노트북 추천"
                        (enrich_survey (_validate_search_id 0 ∅ "sr-3f2a9c1e") one_answer)))
        = Ok bounds
        ∧ resp_user_query reply = "노트북 추천"
        ∧ (length (resp_product reply) ≤ 5)%nat
        ∧ map match_rank (resp_product reply) = ranks_from 1 (length (resp_product reply))
        ∧ Forall (shows_priced_product zero_budget_env bounds.1 bounds.2)
                 (resp_product reply).
Proof.
  destruct (get_recommendations zero_budget_env 0 ∅ "sr-3f2a9c1e" "노트북 추천" one_answer)
    as [reply|e] eqn:Hreply; [|vm_compute in Hreply; discriminate].
  exists reply. split; [done|].
  exact (research_answer_sound zero_budget_env 0 ∅ "sr-3f2a9c1e" "노트북 추천"
           one_answer reply Hreply).
Defined.

(** In an answer of the second step, the products flagged as the lowest
    price are exactly those no other product of the answer is cheaper
    than, and a non-empty answer has at least one. *)
Theorem lowest_price_flag_sound (E : Env) (now : Z) (cache : Cache)
        (search_id user_query : string) (survey_contents : list Survey) (reply : Response) :
  get_recommendations E now cache search_id user_query survey_contents = Ok reply →
  (∀ a, In a (resp_product reply) →
        (is_lowest_price a = true ↔ ∀ b, In b (resp_product reply) → (price a ≤ price b)%Z))
  ∧ (resp_product reply ≠ [] → ∃ a, In a (resp_product reply) ∧ is_lowest_price a = true).
Proof.
  intros Hreply.
  destruct (research_answer_trace _ _ _ _ _ _ _ Hreply) as (bounds & hits & _ & _ & _ & HF & _).
  set (top := select_top (_fuse_results hits)) in *.
  set (prices := map (fun c => lowest_price (f_product c)) top) in *.
  assert (Hprices : map price (resp_product reply) = prices).
  { subst prices. clear -HF. induction HF as [|c a cs out (_ & Hp & _) HF IH]; simpl; [done|].
    by rewrite Hp, IH. }
  assert (Hflag : ∀ a, In a (resp_product reply) →
            ∃ x xs, prices = x :: xs
                    ∧ is_lowest_price a = Z.eqb (price a) (min_price_of (x :: xs))).
  { intros a Ha. destruct (Forall2_In_r _ _ _ _ HF Ha) as (c & Hc & Hca).
    destruct Hca as (_ & Hp & _ & _ & _ & Hlow).
    destruct prices as [|x xs] eqn:Hpr.
    - subst prices. destruct top; [destruct Hc|discriminate].
    - exists x, xs. split; [done|]. by rewrite Hlow, Hp. }
  split.
  - intros a Ha. destruct (Hflag a Ha) as (x & xs & Hpr & ->).
    destruct (min_price_of_spec x xs) as [Hin Hmin].
    rewrite Z.eqb_eq. split.
    + intros Heq b Hb. rewrite Heq. apply Hmin. rewrite <- Hpr, <- Hprices.
      by apply in_map.
    + intros Hall. apply Z.le_antisymm.
      * assert (Hin' : In (min_price_of (x :: xs)) (map price (resp_product reply)))
          by (rewrite Hprices, Hpr; exact Hin).
        apply in_map_iff in Hin' as (b & Hb & Hbin). rewrite <- Hb. auto.
      * apply Hmin. rewrite <- Hpr, <- Hprices. by apply in_map.
  - intros Hne. destruct (resp_product reply) as [|a0 rest] eqn:Hprod; [done|].
    destruct (Hflag a0 (or_introl eq_refl)) as (x & xs & Hpr & _).
    destruct (min_price_of_spec x xs) as [Hin _].
    assert (Hin' : In (min_price_of (x :: xs)) (map price (a0 :: rest)))
      by (rewrite Hprices, Hpr; exact Hin).
    apply in_map_iff in Hin' as (b & Hb & Hbin).
    exists b. split; [done|].
    destruct (Hflag b Hbin) as (x' & xs' & Hpr' & ->).
    rewrite Hpr in Hpr'. injection Hpr' as <- <-. by apply Z.eqb_eq.
Qed.

Lemma lowest_price_flag_sound_witness :
  ∃ reply,
    get_recommendations zero_budget_env 0 ∅ "sr-3f2a9c1e" "노트북 추천" one_answer = Ok reply
    ∧ (∀ a, In a (resp_product reply) →
            (is_lowest_price a = true
             ↔ ∀ b, In b (resp_product reply) → (price a ≤ price b)%Z))
    ∧ (resp_product reply ≠ [] → ∃ a, In a (resp_product reply) ∧ is_lowest_price a = true).
Proof.
  destruct (get_recommendations zero_budget_env 0 ∅ "sr-3f2a9c1e" "노트북 추천" one_answer)
    as [reply|e] eqn:Hreply; [|vm_compute in Hreply; discriminate].
  exists reply. split; [done|].
  exact (lowest_price_flag_sound zero_budget_env 0 ∅ "sr-3f2a9c1e" "노트북 추천"
           one_answer reply Hreply).
Defined.

Example flagged_answer :
  (fun reply => map (fun a => (product_code a, match_rank a, is_lowest_price a))
                    (resp_product reply))
  <$> match get_recommendations zero_budget_env 0 ∅ "sr-3f2a9c1e" "노트북 추천"
                                one_answer with
      | Ok reply => Some reply
      | Raise _ => None
      end
  = Some [(1002, 1, true); (1001, 2, false)].
Proof. vm_compute. reflexivity. Qed.
End ResearchAnswerFacts.

(** ** Rounding and the scores of the answer *)

Section ScoreFacts.
Import ShoppingResearchService.

Lemma round2_spec (x : Q) :
  ∃ k : Z, round2 x = (inject_Z k / 100)%Q
           ∧ (inject_Z k - (1 # 2) <= x * 100 <= inject_Z k + (1 # 2))%Q.
Proof.
  unfold round2.
  set (y := (x * 100)%Q). set (n := Qfloor y).
  pose proof (Qfloor_le y) as Hlo. pose proof (Qlt_floor y) as Hhi.
  fold n in Hlo, Hhi. rewrite inject_Z_plus in Hhi.
  change (inject_Z 1) with 1%Q in Hhi.
  destruct (Qltb 0.5 (y - inject_Z n)) eqn:Hup.
  - exists (n + 1)%Z. split; [done|]. apply Qltb_true in Hup.
    rewrite inject_Z_plus. change (inject_Z 1) with 1%Q. lra.
  - apply Qltb_false in Hup.
    destruct (Qltb (y - inject_Z n) 0.5) eqn:Hdown.
    + exists n. split; [done|]. lra.
    + apply Qltb_false in Hdown. destruct (Z.odd n).
      * exists (n + 1)%Z. split; [done|].
        rewrite inject_Z_plus. change (inject_Z 1) with 1%Q. lra.
      * exists n. split; [done|]. lra.
Qed.

Lemma round2_unit (x : Q) : (0 <= x <= 1)%Q → (0 <= round2 x <= 1)%Q.
Proof.
  intros Hx. destruct (round2_spec x) as (k & -> & Hk).
  assert (Hk0 : (0 ≤ k)%Z).
  { assert (H : (inject_Z (-1) < inject_Z k)%Q) by (change (inject_Z (-1)) with (-1)%Q; lra).
    rewrite <- Zlt_Qlt in H. lia. }
  assert (Hk1 : (k ≤ 100)%Z).
  { assert (H : (inject_Z k < inject_Z 101)%Q) by (change (inject_Z 101) with 101%Q; lra).
    rewrite <- Zlt_Qlt in H. lia. }
  rewrite Zle_Qle in Hk0, Hk1.
  change (inject_Z 0) with 0%Q in Hk0. change (inject_Z 100) with 100%Q in Hk1.
  unfold Qdiv. change (/ 100)%Q with (1 # 100)%Q. lra.
Qed.

Lemma performance_score_range (p : Product) (s : Q) :
  (0 <= s)%Q → (0 ≤ review_count p)%Z → (∀ r, review_rating p = Some r → (0 <= r)%Q) →
  (0 <= _calculate_performance_score p s <= 1)%Q.
Proof.
  intros Hs Hcount Hrating. unfold _calculate_performance_score.
  set (rating := default 0%Q (review_rating p)).
  assert (Hr : (0 <= rating)%Q).
  { subst rating. destruct (review_rating p) as [r|]; simpl; [by apply Hrating|lra]. }
  assert (Hc : (0 <= inject_Z (review_count p))%Q).
  { change 0%Q with (inject_Z 0). by rewrite <- Zle_Qle. }
  split; [|eapply Qle_trans; [apply py_min_le_l|lra]].
  apply py_min_ge; [lra|].
  set (reviews := Py.min (inject_Z (review_count p) / 1000) 0.1).
  assert (Hreviews : (0 <= reviews)%Q).
  { apply py_min_ge; [|lra]. unfold Qdiv. change (/ 1000)%Q with (1 # 1000)%Q. lra. }
  unfold Qdiv. change (/ 25)%Q with (1 # 25)%Q. lra.
Qed.

(** On a store whose distances, review counts and ratings are not
    negative, every product of an answer of the second step carries a
    similarity score and a performance score between 0 and 1. *)
Theorem research_scores_in_unit_interval (E : Env) (now : Z) (cache : Cache)
        (search_id user_query : string) (survey_contents : list Survey) (reply : Response) :
  store_sane (store E) →
  get_recommendations E now cache search_id user_query survey_contents = Ok reply →
  Forall (fun a => (0 <= similarity_score a <= 1)%Q ∧ (0 <= performance_score a <= 1)%Q)
         (resp_product reply).
Proof.
  intros [Hdist Hrows] Hreply.
  destruct (research_answer_trace _ _ _ _ _ _ _ Hreply)
    as (bounds & hits & _ & Hhits & _ & HF & _).
  apply research_vector_search_hits in Hhits.
  pose proof (research_fuse_entries hits) as Hfused.
  pose proof (select_top_In (_fuse_results hits)) as Htop.
  apply Forall_forall. intros a Ha. rewrite list_elem_of_In in Ha.
  destruct (Forall2_In_r _ _ _ _ HF Ha) as (c & Hc & Hca).
  apply Htop in Hc. rewrite Forall_forall in Hfused. rewrite <- list_elem_of_In in Hc.
  destruct (Hfused c Hc) as (h & Hh & Hp & _ & _ & Hscore).
  rewrite Forall_forall in Hhits. rewrite <- list_elem_of_In in Hh.
  destruct (Hhits h Hh) as (Hin & _ & _ & Hpos & (u & v & _ & _ & Hv) & _).
  assert (Hunit : (0 <= combined_score c <= 1)%Q).
  { rewrite Hscore. split; [done|]. rewrite Hv. specialize (Hdist u v).
    unfold Py.max, Qdiv. change (/ 2.0)%Q with (10 # 20)%Q.
    destruct (Qltb 0.0 _); lra. }
  destruct Hca as (_ & _ & _ & -> & -> & _).
  split; [by apply round2_unit|].
  apply round2_unit. rewrite <- Hp in Hin. destruct (Hrows _ Hin) as [Hcount Hrating].
  apply performance_score_range; [tauto|done|done].
Qed.

Lemma research_scores_in_unit_interval_witness :
  ∃ reply,
    get_recommendations zero_budget_env 0 ∅ "sr-3f2a9c1e" "노트북 추천" one_answer = Ok reply
    ∧ Forall (fun a => (0 <= similarity_score a <= 1)%Q
                       ∧ (0 <= performance_score a <= 1)%Q)
             (resp_product reply).
Proof.
  destruct (get_recommendations zero_budget_env 0 ∅ "sr-3f2a9c1e" "노트북 추천" one_answer)
    as [reply|e] eqn:Hreply; [|vm_compute in Hreply; discriminate].
  exists reply. split; [done|].
  apply (research_scores_in_unit_interval zero_budget_env 0 ∅ "sr-3f2a9c1e" "노트북 추천"
           one_answer reply); [|exact Hreply].
  split.
  - intros u v. simpl. lra.
  - intros p [<-|[<-|[]]]; simpl; (split; [lia|]); intros r [= <-]; lra.
Defined.

(** Whatever the provider answers, an upper price bound of the intent is
    positive; the range check raises only [TypeError], and only on a lower
    bound that is not a number beside an upper bound; when it returns, the
    bounds handed to the search are either those of the intent or both
    absent, and never a lower bound above an upper bound. *)
Theorem price_bounds_consistent (E : Env) (user_query : string)
        (survey_contents : list Survey) :
  let intent := _analyze_survey E user_query survey_contents in
  let check := validate_price_range (min_price intent) (max_price intent) in
  (∀ hi, max_price intent = Some hi → (0 < number_value hi)%Q)
  ∧ (∀ e, check = Raise e →
          e = TypeError ∧ is_Some (max_price intent)
          ∧ (∃ lower, min_price intent = Some lower ∧ ∀ lo, lower ≠ JNum lo))
  ∧ (∀ bounds, check = Ok bounds →
       (bounds = (min_price intent, max_price intent) ∨ bounds = (None, None))
       ∧ (∀ hi, bounds.2 = Some hi → (0 < number_value hi)%Q)
       ∧ (∀ lo hi, bounds.1 = Some (JNum lo) → bounds.2 = Some hi →
                   (number_value lo <= number_value hi)%Q)).
Proof.
  intros intent check.
  assert (Hmax : ∀ hi, max_price intent = Some hi → (0 < number_value hi)%Q)
    by apply intent_max_positive.
  split; [exact Hmax|]. split.
  - subst check. unfold validate_price_range. intros e.
    destruct (min_price intent) as [[lo|s|]|], (max_price intent) as [hi|]; try done;
      intros [= <-]; (split; [done|]); (split; [done|]); eexists; (split; [done|]); done.
  - intros bounds Hbounds. destruct (validated_bounds _ _ _ Hbounds) as [Hcases Hle].
    split; [exact Hcases|]. split; [|exact Hle].
    intros hi Hhi. destruct Hcases as [->| ->]; [|done]. by apply Hmax.
Qed.
End ScoreFacts.

(** ** Cycles in the category table *)

Section CycleFacts.
Context (S : Store.t).

Lemma fold_extend_child_fails (recur : Z → option (list Z)) cs c :
  In c cs → recur (cat_id c) = None →
  ∀ acc, fold_left (extend recur) cs acc = None.
Proof.
  induction cs as [|c' cs IH]; simpl; [done|].
  intros [->|Hin] Hc acc.
  - unfold extend at 2. rewrite Hc. destruct acc; simpl; apply fold_extend_None.
  - by apply IH.
Qed.

Lemma child_fails_parent_fails depth c p :
  live_parent_link S c p →
  _get_descendant_category_ids S depth c = None →
  _get_descendant_category_ids S (Datatypes.S depth) p = None.
Proof.
  intros Hlink Hc. apply live_link_child in Hlink as (child & Hchild & <-).
  rewrite descendants_step. by eapply fold_extend_child_fails.
Qed.

Lemma cycle_step x :
  clos_trans Z (live_parent_link S) x x →
  ∃ y, live_parent_link S y x ∧ clos_trans Z (live_parent_link S) y y.
Proof.
  intros Hc. apply clos_trans_tn1 in Hc.
  inversion Hc as [Hxx|y ? Hyx Hxy]; subst.
  - exists x. split; [done|]. by apply t_step.
  - exists y. split; [done|]. apply clos_tn1_trans in Hxy.
    eapply t_trans; [apply t_step; exact Hyx|exact Hxy].
Qed.

Lemma cycle_never_returns depth :
  ∀ x, clos_trans Z (live_parent_link S) x x → _get_descendant_category_ids S depth x = None.
Proof.
  induction depth as [|depth IH]; intros x Hx; [done|].
  destruct (cycle_step x Hx) as (y & Hyx & Hy).
  eapply child_fails_parent_fails; eauto.
Qed.

(** When a cycle of live rows lies below a category (or through it), the
    descendant collection of that category never returns, whatever the
    bound on the nesting: the interpreter ends it with [RecursionError],
    and so does the category filter of the single-step request. *)
Theorem descendants_diverge_on_cycle (cid x : Z) :
  live_reaches S cid x →
  clos_trans Z (live_parent_link S) x x →
  (∀ depth, _get_descendant_category_ids S depth cid = None)
  ∧ ∀ E, LLMRecommendationService.store E = S → cid ≠ 0 →
         LLMRecommendationService.target_ids E (Some cid) = Raise RecursionError.
Proof.
  intros Hreach Hcycle.
  assert (Hnone : ∀ depth, _get_descendant_category_ids S depth cid = None).
  { apply clos_rt_rtn1 in Hreach.
    induction Hreach as [|y z Hyz Hxy IH]; intros depth.
    - by apply cycle_never_returns.
    - destruct depth as [|depth]; [done|].
      eapply child_fails_parent_fails; eauto. }
  split; [exact Hnone|].
  intros E <- Hcid. unfold LLMRecommendationService.target_ids. simpl.
  destruct (Z.eqb_spec cid 0); [done|]. simpl. by rewrite Hnone.
Qed.

End CycleFacts.

Lemma descendants_diverge_on_cycle_witness :
  (∀ depth, _get_descendant_category_ids cyclic_store depth 1 = None)
  ∧ ∀ E, LLMRecommendationService.store E = cyclic_store → 1 ≠ 0 →
         LLMRecommendationService.target_ids E (Some 1) = Raise RecursionError.
Proof.
  apply (descendants_diverge_on_cycle cyclic_store 1 1).
  - apply rt_refl.
  - apply t_trans with (y := 2); apply t_step.
    + exists (category 1 "컴퓨터" (Some 2) false). simpl. auto.
    + exists (category 2 "부품" (Some 1) false). simpl. auto 6.
Defined.

(** ** The trigram match of a category name *)

Section MatchFacts.
Context (S : Store.t).

(** The category a name is mapped to is a row of the table (soft-deleted
    rows included) whose similarity to the name is above the threshold and
    is the largest of the table; no category is returned exactly when no
    row is above the threshold. *)
Theorem best_category_match_spec (text : string) (threshold : Q) :
  let sim c := Store.trigram_similarity S (cat_name c) text in
  match Store.best_category_match S text threshold with
  | Some c =>
      In c (Store.categories S) ∧ (threshold < sim c)%Q
      ∧ ∀ c', In c' (Store.categories S) → (sim c' <= sim c)%Q
  | None => ∀ c, In c (Store.categories S) → (sim c <= threshold)%Q
  end.
Proof.
  intros sim. unfold Store.best_category_match, Store.first.
  set (above := List.filter (fun c => Qltb threshold (sim c)) (Store.categories S)).
  pose proof (sort_descending sim above) as Hsorted.
  pose proof (stable_sort_In (fun a b => Qleb (sim b) (sim a)) above) as Hin.
  change (match head (stable_sort (fun a b => Qleb (sim b) (sim a)) above) with
          | Some c =>
              In c (Store.categories S) ∧ (threshold < sim c)%Q
              ∧ ∀ c', In c' (Store.categories S) → (sim c' <= sim c)%Q
          | None => ∀ c, In c (Store.categories S) → (sim c <= threshold)%Q
          end).
  destruct (stable_sort (fun a b => Qleb (sim b) (sim a)) above) as [|c rest] eqn:Hsort;
    simpl.
  - intros c Hc. destruct (Qltb threshold (sim c)) eqn:Hlt; [|by apply Qltb_false].
    exfalso. apply (Hin c). subst above. apply filter_In. auto.
  - assert (Hc : In c above) by (apply Hin; by left).
    subst above. apply filter_In in Hc as [Hc Hlt]. apply Qltb_true in Hlt.
    split; [done|]. split; [done|]. intros c' Hc'.
    destruct (Qltb threshold (sim c')) eqn:Hlt'.
    + assert (Hc'' : In c' (c :: rest)).
      { apply Hin. apply filter_In. auto. }
      destruct Hc'' as [->|Hrest]; [lra|].
      inversion Hsorted as [|? ? _ Hall]; subst. rewrite Forall_forall in Hall.
      apply Hall. by apply list_elem_of_In.
    + apply Qltb_false in Hlt'. lra.
Qed.
End MatchFacts.

(** ** The services over the clients of the repository *)

Section RepoClientFacts.
Import LLMRecommendationService.

Lemma gemini_reply_is_text (sdk : string → result AIClients.GenerateResponse)
      (prompt : string) (reply : Reply) :
  AIClients.generate_content sdk prompt = Ok reply →
  ∃ text, reply = ReplyStr text ∧ text ≠ "".
Proof.
  unfold AIClients.generate_content.
  destruct (sdk prompt) as [[| |[text|]]|e]; try done.
  destruct text as [|c text]; simpl; [done|]. intros [= <-]. by eexists.
Qed.

Lemma override_sets_id (upper_query : string) (cid : Z) (cname : string) :
  keyword_override upper_query = Some (cid, cname) → cid ≠ 0.
Proof.
  unfold keyword_override.
  repeat (match goal with |- context [if ?b then _ else _] => destruct b end);
    intros [= <- <-]; done.
Qed.

(** With the text client of the repository, which hands back a [str],
    the single-step flow never sees the intent of the provider: the intent
    is the degraded one, so the category is the one the keyword override
    sets (or none), the vector path searches on the query itself and the
    keyword path on the query as its only keyword, and the lock of the
    vector path is never reached. *)
Theorem repo_gemini_client_degrades_intent (E : Env)
        (sdk : string → result AIClients.GenerateResponse) (user_query : string) :
  (∀ prompt, generate_content (clients E) prompt = AIClients.generate_content sdk prompt) →
  let intent := _extract_intent_pro E user_query in
  intent = degraded_intent
  ∧ (resolve_category E user_query intent).1 = fst <$> keyword_override (upper user_query)
  ∧ default user_query (search_query intent) = user_query
  ∧ default [user_query] (keywords intent) = [user_query]
  ∧ (∀ ids, target_ids E (resolve_category E user_query intent).1 = Ok ids →
            any_in HARDWARE_HINTS user_query = true → ids ≠ []).
Proof.
  intros Hclient intent.
  assert (Hstr : ∀ prompt text, generate_content (clients E) prompt ≠ Ok (ReplyObj text)).
  { intros prompt text Hg. rewrite Hclient in Hg.
    by apply gemini_reply_is_text in Hg as (s & [=] & _). }
  assert (Hintent : intent = degraded_intent) by (by apply str_replies_degrade).
  split; [exact Hintent|]. rewrite Hintent. split; [|split; [done|split; [done|]]].
  - unfold resolve_category.
    change (strip (default "기타" (product_category degraded_intent))) with "기타".
    destruct (keyword_override (upper user_query)) as [[cid cname]|] eqn:Hov.
    + apply override_sets_id in Hov. cbn [fmap option_fmap option_map fst].
      assert (Htruthy : truthy_id (Some cid) = true).
      { simpl. by destruct (Z.eqb_spec cid 0). }
      by rewrite Htruthy.
    + done.
  - intros ids Hids Hhint. rewrite <- Hintent in Hids.
    eapply (lock_needs_object_reply E user_query ids Hstr); [|exact Hids].
    fold intent. by rewrite Hintent.
Qed.

Lemma repo_gemini_client_degrades_intent_witness :
  let E := placeholder_llm_env in
  let user_query := "게이밍 노트북 추천해줘" in
  let intent := _extract_intent_pro E user_query in
  intent = degraded_intent
  ∧ (resolve_category E user_query intent).1 = fst <$> keyword_override (upper user_query)
  ∧ default user_query (search_query intent) = user_query
  ∧ default [user_query] (keywords intent) = [user_query]
  ∧ (∀ ids, target_ids E (resolve_category E user_query intent).1 = Ok ids →
            any_in HARDWARE_HINTS user_query = true → ids ≠ []).
Proof.
  apply (repo_gemini_client_degrades_intent placeholder_llm_env
           (fun _ => Ok (AIClients.Text (Some "{...}"))) "게이밍 노트북 추천해줘").
  intros prompt. reflexivity.
Defined.
End RepoClientFacts.

(** ** The lock against answers outside the category *)

Section LockClaim.
Import LLMRecommendationService.




(** The request of the witness: a query that names a hardware word, with
    the category the word sets, answered with two laptops of it. *)
Example hardware_query_answer :
  any_in HARDWARE_HINTS "게이밍 노트북 추천해줘" = true
  ∧ target_ids repo_llm_env
      (resolve_category repo_llm_env "게이밍 노트북 추천해줘"
         (_extract_intent_pro repo_llm_env "게이밍 노트북 추천해줘")).1 = Ok [2]
  ∧ (fun reply => map r_product_code (recommended_products reply))
    <$> match get_recommendations repo_llm_env "게이밍 노트북 추천해줘" with
        | Ok reply => Some reply
        | Raise _ => None
        end
    = Some ["1001"; "1002"].
Proof. vm_compute. repeat split; reflexivity. Qed.
End LockClaim.

(** ** Sessions and questions of the first step *)

Section FirstStepFacts.
Import ShoppingResearchService.

(** A session written by [_generate_search_id] is read back with its
    query for 1800 seconds and is gone afterwards; writing it changes what
    is read under no other identifier. *)
Theorem session_round_trip (uuid_hex : string) (now t : Z) (cache : Cache)
        (user_query other : string) :
  let '(sid, cache') := _generate_search_id uuid_hex now cache user_query in
  _validate_search_id t cache' sid
  = (if (t <? now + 1800)%Z
     then Some {| session_user_query := Some user_query; session_questions := None |}
     else None)
  ∧ (other ≠ sid → _validate_search_id t cache' other = _validate_search_id t cache other).
Proof.
  unfold _generate_search_id, _validate_search_id, DjangoCache.get, DjangoCache.set.
  split.
  - by rewrite lookup_insert_eq.
  - intros Hne. rewrite lookup_insert_ne; [done|].
    simpl. intros [= Heq]. by apply Hne.
Qed.

(** The first step always returns the identifier of a session it created
    (also when the questions could not be generated).  When the reply of
    the provider is decoded, there is one question per decoded question, in
    order, each with the identifier the provider gave or else its position
    counted from 1, and with its text options numbered from 1; on any
    failure the questions are the four default ones. *)
Theorem generate_questions_sound (E : Env) (uuid_hex : string) (now : Z) (cache : Cache)
        (user_query : string) :
  let '(reply, cache') := generate_questions E uuid_hex now cache user_query in
  search_id reply = ("sr-" ++ String.substring 0 8 uuid_hex)%string
  ∧ _validate_search_id now cache' (search_id reply)
    = Some {| session_user_query := Some user_query; session_questions := None |}
  ∧ match decoded_questions E user_query with
    | Ok raw =>
        length (questions reply) = length raw
        ∧ ∀ i rq, raw !! i = Some rq →
            ∃ q, questions reply !! i = Some q
                 ∧ question_id q = default (Z.of_nat i + 1)%Z (rq_question_id rq)
                 ∧ question q = rq_question rq
                 ∧ length (options q) = length (rq_options rq)
                 ∧ ∀ j label, rq_options rq !! j = Some (OptStr label) →
                              options q !! j = Some ((Z.of_nat j + 1)%Z, label)
    | Raise _ =>
        questions reply = _get_default_questions
        ∧ map question_id (questions reply) = [1; 2; 3; 4]%Z
    end.
Proof.
  pose proof (session_lifetime E uuid_hex now now cache user_query) as Hsession.
  unfold generate_questions in *. unfold decoded_questions.
  destruct (_generate_search_id uuid_hex now cache user_query) as [sid cache'] eqn:Hsid.
  assert (Hid : sid = ("sr-" ++ String.substring 0 8 uuid_hex)%string).
  { unfold _generate_search_id in Hsid. by injection Hsid as <- _. }
  assert (Hlive : (now <? now + 1800)%Z = true) by (apply Z.ltb_lt; lia).
  rewrite Hlive in Hsession.
  destruct (generate_content _ _) as [[text|text]|e]; simpl in *.
  - destruct (loads_questions E text) as [raw|e]; simpl in *.
    + split; [done|]. split; [done|]. split; [by rewrite length_imap|].
      intros i rq Hrq. eexists. split; [by rewrite list_lookup_imap, Hrq|].
      simpl. split; [done|]. split; [done|]. split; [by rewrite length_imap|].
      intros j label Hj. by rewrite list_lookup_imap, Hj.
    + done.
  - done.
  - done.
Qed.
End FirstStepFacts.

(** ** The endpoints with a missing provider key *)

Section EndpointFacts.




(** The two endpoints on the request of the witness, and the endpoint of
    the second step when the survey analysis gives the lower price as a
    text: the range check raises and the answer has status 500. *)
Example missing_key_answers :
  Views.status (Views.llm_recommendation_post placeholder_llm_env class_name
                  history_accepts "게이밍 노트북 추천해줘") = 500
  ∧ Views.status (Views.shopping_research_post placeholder_research_env class_name 0 ∅
                    "sr-3f2a9c1e" "게이밍 노트북 추천해줘" four_answers) = 200
  ∧ Views.shopping_research_post text_price_env class_name 0 ∅ "sr-3f2a9c1e"
      "게이밍 노트북 추천해줘" four_answers
    = {| Views.status := 500; Views.message := "서버 내부 오류가 발생했습니다.";
         Views.data := None; Views.error := Some "TypeError" |}.
Proof. vm_compute. repeat split; reflexivity. Qed.
End EndpointFacts.
